(** * Cockpit dashboard: aggregation, calendar and trend chart

    A shallow embedding of the dashboard page ([src/app/page.tsx]) and of
    the goal-detail page ([src/app/goals/[id]/page.tsx]) of the Cockpit
    goal tracker, with the properties of their aggregation and
    visualisation pipeline.

    Conventions of the embedding.
    - A JavaScript [number] is [JS.number]: [NaN], the two infinities, or a
      finite value kept as an exact rational ([Qc]).  The code branches on
      NaN and on zero, which the model keeps; the sign of zero is outside
      the model.  The operations of [JS] compute exactly.  The bounds on
      the coordinates of the chart points, and their order from left to
      right, are stated of the charts as [RoundedDashboard] and
      [RoundedGoalDetail] embed them: with every arithmetic result
      rounded, as the runtime does in IEEE 754 doubles.
    - [entry_date] is a ['YYYY-MM-DD'] string of a [date] column.  It is
      represented by the day number it denotes (days since 1970-01-01), so
      that [===] on two such strings is equality of day numbers and
      [new Date(s).getTime()] is the day number times [msPerDay].
    - [created_at] is represented by the epoch milliseconds that
      [new Date(created_at).getTime()] yields.
    - The clock and the time zone of the runtime are explicit parameters:
      [now] is the time value that [new Date()] reads (the two reads of
      the calendar are taken at one instant), [tza] the offset of local
      time from UTC, both in milliseconds.  The offset is one constant:
      the runtime is at UTC or in a zone without transitions; a zone
      that changes its offset (daylight saving) is outside the model. *)

From Stdlib Require Import ZArith QArith Qcanon Qround Lia Lqa Sorted.
From stdpp Require Import gmap strings list fin_maps sorting.

Open Scope Z_scope.

(** ** JavaScript numbers *)

Module JS.

Inductive number : Type :=
| NaN
| NegInf
| Fin (q : Qc)
| PosInf.

Definition ofZ (z : Z) : number := Fin (Qc_of_Z z).

Definition isNaN (a : number) : bool :=
  match a with NaN => true | _ => false end.

Definition isFinite (a : number) : bool :=
  match a with Fin _ => true | _ => false end.

(** Sign of a finite value, as a comparison with zero. *)
Definition sgn (q : Qc) : comparison := (q ?= 0)%Qc.

Definition neg (a : number) : number :=
  match a with
  | NaN => NaN
  | NegInf => PosInf
  | PosInf => NegInf
  | Fin q => Fin (- q)%Qc
  end.

Definition add (a b : number) : number :=
  match a, b with
  | NaN, _ | _, NaN => NaN
  | PosInf, NegInf | NegInf, PosInf => NaN
  | PosInf, _ | _, PosInf => PosInf
  | NegInf, _ | _, NegInf => NegInf
  | Fin p, Fin q => Fin (p + q)%Qc
  end.

Definition sub (a b : number) : number := add a (neg b).

(** An infinity with the sign of [c] (zero has no sign to give). *)
Definition signedInf (c : comparison) : number :=
  match c with Gt => PosInf | Lt => NegInf | Eq => NaN end.

Definition flip (c : comparison) : comparison := CompOpp c.

Definition mul (a b : number) : number :=
  match a, b with
  | NaN, _ | _, NaN => NaN
  | Fin p, Fin q => Fin (p * q)%Qc
  | PosInf, Fin q | Fin q, PosInf => signedInf (sgn q)
  | NegInf, Fin q | Fin q, NegInf => signedInf (flip (sgn q))
  | PosInf, PosInf | NegInf, NegInf => PosInf
  | PosInf, NegInf | NegInf, PosInf => NegInf
  end.

(** Division; a zero divisor is the positive zero. *)
Definition div (a b : number) : number :=
  match a, b with
  | NaN, _ | _, NaN => NaN
  | Fin p, Fin q =>
      match sgn q with
      | Eq => signedInf (sgn p)
      | _ => Fin (p / q)%Qc
      end
  | Fin _, (PosInf | NegInf) => Fin 0%Qc
  | PosInf, Fin q => match sgn q with Lt => NegInf | _ => PosInf end
  | NegInf, Fin q => match sgn q with Lt => PosInf | _ => NegInf end
  | (PosInf | NegInf), (PosInf | NegInf) => NaN
  end.

(** Relational operators: every comparison with NaN is false. *)
Definition compare (a b : number) : option comparison :=
  match a, b with
  | NaN, _ | _, NaN => None
  | NegInf, NegInf | PosInf, PosInf => Some Eq
  | NegInf, _ | _, PosInf => Some Lt
  | _, NegInf | PosInf, _ => Some Gt
  | Fin p, Fin q => Some (p ?= q)%Qc
  end.

Definition lt (a b : number) : bool :=
  match compare a b with Some Lt => true | _ => false end.
Definition le (a b : number) : bool :=
  match compare a b with Some Lt | Some Eq => true | _ => false end.
Definition gt (a b : number) : bool := lt b a.
Definition ge (a b : number) : bool := le b a.

(** ToBoolean on a number: zero and NaN are falsy. *)
Definition truthy (a : number) : bool :=
  match a with
  | NaN => false
  | Fin q => match sgn q with Eq => false | _ => true end
  | _ => true
  end.

(** [a || b] on numbers. *)
Definition or (a b : number) : number := if truthy a then a else b.

(** [Math.min] and [Math.max] of two arguments, then of a spread array:
    NaN is contagious, the empty spread gives the neutral infinity. *)
Definition min2 (a b : number) : number :=
  match compare a b with
  | None => NaN
  | Some Gt => b
  | Some _ => a
  end.

Definition max2 (a b : number) : number :=
  match compare a b with
  | None => NaN
  | Some Lt => b
  | Some _ => a
  end.

Definition min (l : list number) : number := foldr min2 PosInf l.
Definition max (l : list number) : number := foldr max2 NegInf l.

(** [typeof v === "number"] on a value of type [number | null]. *)
Definition isNumber (v : option number) : bool :=
  match v with Some _ => true | None => false end.

(** [v as number] where the value read may be [null]: arithmetic takes
    [null] as [0]. *)
Definition asNumber (v : option number) : number :=
  match v with Some a => a | None => ofZ 0 end.

End JS.

Declare Scope js_scope.
Delimit Scope js_scope with js.
Infix "+" := JS.add : js_scope.
Infix "-" := JS.sub : js_scope.
Infix "*" := JS.mul : js_scope.
Infix "/" := JS.div : js_scope.
Infix "||" := JS.or : js_scope.

(** ** JavaScript dates

    The day and year arithmetic of ECMAScript's Date objects (ECMA-262,
    "Time Values and Time Range" onwards) on integer time values.  [Z.div]
    and [Z.modulo] by a positive number are the floor and the modulo of the
    standard.  The local time zone adjustment [tza] is a fixed offset in
    milliseconds. *)

Module Date.

Definition msPerDay : Z := 86400000.

Definition Day (t : Z) : Z := t / msPerDay.

Definition DaysInYear (y : Z) : Z :=
  if negb (y mod 4 =? 0) then 365
  else if negb (y mod 100 =? 0) then 366
  else if negb (y mod 400 =? 0) then 365
  else 366.

Definition DayFromYear (y : Z) : Z :=
  365 * (y - 1970) + (y - 1969) / 4 - (y - 1901) / 100 + (y - 1601) / 400.

Definition TimeFromYear (y : Z) : Z := msPerDay * DayFromYear y.

(** The largest [y] with [TimeFromYear y <= t]: an estimate from the mean
    length of a year, corrected by at most one year either way. *)
Definition YearFromTime (t : Z) : Z :=
  let y0 := 1970 + (400 * Day t) / 146097 in
  if DayFromYear (y0 + 1) <=? Day t then y0 + 1
  else if DayFromYear y0 <=? Day t then y0
  else y0 - 1.

Definition DayWithinYear (t : Z) : Z := Day t - DayFromYear (YearFromTime t).

Definition leapDays (y : Z) : Z := if DaysInYear y =? 366 then 1 else 0.

Definition InLeapYear (t : Z) : Z := leapDays (YearFromTime t).

(** Day within the year on which month [m] (0 = January) starts. *)
Definition monthStart (leap m : Z) : Z :=
  match m with
  | 0 => 0
  | 1 => 31
  | 2 => 59 + leap
  | 3 => 90 + leap
  | 4 => 120 + leap
  | 5 => 151 + leap
  | 6 => 181 + leap
  | 7 => 212 + leap
  | 8 => 243 + leap
  | 9 => 273 + leap
  | 10 => 304 + leap
  | 11 => 334 + leap
  | _ => 365 + leap
  end.

Definition MonthFromTime (t : Z) : Z :=
  let d := DayWithinYear t in
  let l := InLeapYear t in
  if d <? 31 then 0
  else if d <? 59 + l then 1
  else if d <? 90 + l then 2
  else if d <? 120 + l then 3
  else if d <? 151 + l then 4
  else if d <? 181 + l then 5
  else if d <? 212 + l then 6
  else if d <? 243 + l then 7
  else if d <? 273 + l then 8
  else if d <? 304 + l then 9
  else if d <? 334 + l then 10
  else 11.

Definition DateFromTime (t : Z) : Z :=
  DayWithinYear t - monthStart (InLeapYear t) (MonthFromTime t) + 1.

Definition WeekDay (t : Z) : Z := (Day t + 4) mod 7.

(** [MakeDay(year, month, date)]: the day number of the [date]-th day
    counted from the first of the given month, months carrying into years. *)
Definition MakeDay (year month date : Z) : Z :=
  let ym := year + month / 12 in
  let mn := month mod 12 in
  DayFromYear ym + monthStart (leapDays ym) mn + date - 1.

Definition LocalTime (tza t : Z) : Z := t + tza.
Definition UTC (tza t : Z) : Z := t - tza.

(** [new Date(year, month, date)]: the fields are local time; a year in
    0..99 means 1900 + year. *)
Definition construct (tza year month date : Z) : Z :=
  let yr := if (0 <=? year) && (year <=? 99) then 1900 + year else year in
  UTC tza (MakeDay yr month date * msPerDay).

Definition getFullYear (tza t : Z) : Z := YearFromTime (LocalTime tza t).
Definition getMonth (tza t : Z) : Z := MonthFromTime (LocalTime tza t).
Definition getDate (tza t : Z) : Z := DateFromTime (LocalTime tza t).
Definition getDay (tza t : Z) : Z := WeekDay (LocalTime tza t).

(** The day number that the string ['y-m-d'] (month 1..12) denotes. *)
Definition isoDay (y m d : Z) : Z := MakeDay y (m - 1) d.

(** [toISOString().slice(0, 10)]: the UTC date of the time value, as the
    day number it denotes. *)
Definition toISODate (t : Z) : Z := Day t.

(** [new Date(s).getTime()] for a date-only string [s]: UTC midnight. *)
Definition parseDate (d : Z) : Z := d * msPerDay.

End Date.

(** ** Array.prototype.sort

    The sort is stable, and for a consistent comparator its result is the
    one stable ordering; it is modelled by insertion from the right, which
    keeps an element in front of the later elements it does not compare
    greater than. *)

Module Array.

Fixpoint insert {A : Type} (cmp : A → A → Z) (x : A) (l : list A) : list A :=
  match l with
  | [] => [x]
  | y :: l' => if 0 <? cmp x y then y :: insert cmp x l' else x :: l
  end.

Definition sort {A : Type} (cmp : A → A → Z) (l : list A) : list A :=
  foldr (insert cmp) [] l.

(** [a] may stand in front of [b]: the comparator does not put [a] after
    [b]. *)
Definition before {A : Type} (cmp : A → A → Z) (a b : A) : Prop :=
  cmp a b ≤ 0.

(** A consistent comparator, as far as sorting needs it. *)
Record Consistent {A : Type} (cmp : A → A → Z) : Prop := {
  cmp_trans : ∀ a b c, cmp a b ≤ 0 → cmp b c ≤ 0 → cmp a c ≤ 0;
  cmp_flip : ∀ a b, 0 < cmp a b → cmp b a ≤ 0
}.

End Array.

(** ** Data model (the [Goal] and [GoalEntry] types of both pages) *)

Inductive GoalType : Type := north_star | mid_term | habit.

(** [tracker_type] is ["checkin" | "numeric" | null]: an [option]. *)
Inductive TrackerType : Type := checkin | numeric.

(** The fields of a goal that the pipeline reads ([g_id] is the goal's
    [id]; the description and the dates are display only). *)
Record Goal : Type := mkGoal {
  g_id : string;
  title : string;
  goal_type : GoalType;
  tracker_type : option TrackerType;
  unit : option string;
  target_value : option JS.number;
  is_pinned : bool;
  is_hidden : bool;
  sort_order : Z
}.

Record GoalEntry : Type := mkEntry {
  id : string;
  goal_id : string;
  entry_date : Z;
  is_done : option bool;
  value : option JS.number;
  reflection : option string;
  created_at : Z
}.

(** What a Supabase query resolves to: [{ data, error }]. *)
Record Response (A : Type) : Type := mkResponse {
  data : option (list A);
  error : option string
}.
Arguments mkResponse {A} _ _.
Arguments data {A} _.
Arguments error {A} _.

(** The client as the pages use it: the goals query (hidden goals left
    out, pinned first, then by [sort_order]) and the entries query for a
    list of goal ids (by [entry_date], then [created_at], ascending). *)
Record Store : Type := mkStore {
  selectGoals : Response Goal;
  selectEntries : list string → Response GoalEntry
}.

(** The order [.order("entry_date", { ascending: true })
    .order("created_at", { ascending: true })] returns rows in. *)
Definition queryOrder (a b : GoalEntry) : Prop :=
  entry_date a < entry_date b ∨
  (entry_date a = entry_date b ∧ created_at a ≤ created_at b).

Definition queryOrdered (entries : list GoalEntry) : Prop :=
  StronglySorted queryOrder entries.

(** Truthiness of a [string | null]: [null] and the empty string are
    falsy. *)
Definition truthyString (s : option string) : bool :=
  match s with
  | Some s => negb (String.eqb s "")
  | None => false
  end.

(** A plotted point [{ x, y }]. *)
Record Point : Type := mkPoint { x : JS.number; y : JS.number }.

(** ** The dashboard page, [src/app/page.tsx] *)

Module Dashboard.

Definition formatTrackerType (trackerType : option TrackerType)
    (unit : option string) : string :=
  match trackerType with
  | None => "Tracker: Not set"
  | Some checkin => "Tracker: Check-in"
  | Some numeric =>
      if truthyString unit
      then "Tracker: Numeric (" +:+ default "" unit +:+ ")"
      else "Tracker: Numeric"
  end.

(** The comparator of the "latest entry" sort: newest first, by
    [entry_date] and then by [created_at]. *)
Definition compareEntries (a b : GoalEntry) : Z :=
  if entry_date a =? entry_date b
  then created_at b - created_at a
  else Date.parseDate (entry_date b) - Date.parseDate (entry_date a).

Record DashboardData : Type := mkData {
  goals : list Goal;
  latestEntriesByGoal : gmap string GoalEntry;
  entriesByGoal : gmap string (list GoalEntry)
}.

(** One step of the first [forEach]: push the entry on its goal's array. *)
Definition pushEntry (m : gmap string (list GoalEntry)) (entry : GoalEntry)
    : gmap string (list GoalEntry) :=
  let arr := default [] (m !! goal_id entry) in
  <[goal_id entry := arr ++ [entry]]> m.

(** One step of the second [forEach]: keep the first entry seen per goal. *)
Definition setLatest (m : gmap string GoalEntry) (entry : GoalEntry)
    : gmap string GoalEntry :=
  match m !! goal_id entry with
  | Some _ => m
  | None => <[goal_id entry := entry]> m
  end.

Definition getDashboardData (supabase : Store) : DashboardData :=
  let r := selectGoals supabase in
  match error r with
  | Some _ => mkData [] ∅ ∅
  | None =>
      let typedGoals := default [] (data r) in
      if (length typedGoals =? 0)%nat then mkData [] ∅ ∅
      else
        let goalIds := map g_id typedGoals in
        let r' := selectEntries supabase goalIds in
        match error r' with
        | Some _ => mkData typedGoals ∅ ∅
        | None =>
            let entries := default [] (data r') in
            let entriesByGoal := foldl pushEntry ∅ entries in
            let latestEntriesByGoal :=
              foldl setLatest ∅ (Array.sort compareEntries entries) in
            mkData typedGoals latestEntriesByGoal entriesByGoal
        end
  end.

(** *** Check-in calendar *)

Inductive CellTag : Type := done | today | plain.

(** A cell of the month grid: a spacer, or a day with its styling. *)
Inductive Cell : Type :=
| Blank
| DayCell (day : Z) (tag : CellTag).

Record Calendar : Type := mkCalendar {
  cal_year : Z;
  cal_month : Z;
  cal_cells : list Cell
}.

Definition addDone (doneDates : gset Z) (e : GoalEntry) : gset Z :=
  match is_done e with
  | Some true => {[entry_date e]} ∪ doneDates
  | _ => doneDates
  end.

(** The [cells] array: [startWeekday] times [null], then the days. *)
Definition gridCells (startWeekday daysInMonth : Z) : list (option Z) :=
  replicate (Z.to_nat startWeekday) None ++ map Some (seqZ 1 daysInMonth).

(** [dateKey] of a day of the grid, as the day it denotes. *)
Definition dateKey (year month day : Z) : Z := Date.isoDay year (month + 1) day.

Definition renderCell (doneDates : gset Z) (year month todayISO : Z)
    (cell : option Z) : Cell :=
  match cell with
  | None => Blank
  | Some day =>
      let isDone := bool_decide (dateKey year month day ∈ doneDates) in
      let isToday := dateKey year month day =? todayISO in
      if isDone then DayCell day done
      else if isToday then DayCell day today
      else DayCell day plain
  end.

(** The styling of the cell of [day], as [renderCell] decides it. *)
Definition cellTag (doneDates : gset Z) (year month todayISO day : Z)
    : CellTag :=
  if bool_decide (dateKey year month day ∈ doneDates) then done
  else if dateKey year month day =? todayISO then today
  else plain.

(** [now] is the time value both [new Date()] calls read, [tza] the local
    time zone adjustment of the runtime. *)
Definition renderCheckinCalendar (tza now : Z) (entries : list GoalEntry)
    : option Calendar :=
  if (length entries =? 0)%nat then None
  else
    let doneDates := foldl addDone ∅ entries in
    if (size doneDates =? 0)%nat then None
    else
      let baseDate := now in
      let year := Date.getFullYear tza baseDate in
      let month := Date.getMonth tza baseDate in
      let firstDay := Date.construct tza year month 1 in
      let startWeekday := Date.getDay tza firstDay in
      let daysInMonth :=
        Date.getDate tza (Date.construct tza year (month + 1) 0) in
      let cells := gridCells startWeekday daysInMonth in
      let todayISO := Date.toISODate now in
      Some (mkCalendar year month
              (map (renderCell doneDates year month todayISO) cells)).

(** *** Numeric chart *)

Record Chart : Type := mkChart {
  minVal : JS.number;            (* the "Min:" label *)
  maxVal : JS.number;            (* the "Max:" label *)
  chart_unit : option string;
  targetLabel : option JS.number; (* the "Target:" line of text, if shown *)
  points : list Point;
  targetY : option JS.number;     (* the constant [targetY]; [None] is null *)
  targetLine : option JS.number   (* y of the dashed line, if drawn *)
}.

Definition renderNumericChart (entries : list GoalEntry)
    (unit : option string) (targetValue : option JS.number) : option Chart :=
  let numericEntries := filter (λ e, value e ≠ None) entries in
  if (length numericEntries =? 0)%nat then None
  else
    let values := map (λ e, JS.asNumber (value e)) numericEntries in
    let minVal := JS.min values in
    let maxVal := JS.max values in
    let hasTarget :=
      JS.isNumber targetValue
      && negb (JS.isNaN (JS.asNumber targetValue)) in
    let scaleMin :=
      if hasTarget then JS.min2 minVal (JS.asNumber targetValue)
      else minVal in
    let scaleMax :=
      if hasTarget then JS.max2 maxVal (JS.asNumber targetValue)
      else maxVal in
    let range := ((scaleMax - scaleMin) || JS.ofZ 1)%js in
    let width := JS.ofZ 320 in
    let height := JS.ofZ 120 in
    let paddingX := JS.ofZ 16 in
    let paddingY := JS.ofZ 12 in
    let stepX :=
      if (1 <? length numericEntries)%nat
      then ((width - paddingX * JS.ofZ 2)
            / JS.ofZ (Z.of_nat (length numericEntries) - 1))%js
      else JS.ofZ 0 in
    let points :=
      imap (λ idx entry,
              mkPoint (paddingX + JS.ofZ (Z.of_nat idx) * stepX)%js
                      (height - paddingY
                       - ((JS.asNumber (value entry) - scaleMin) / range)
                         * (height - paddingY * JS.ofZ 2))%js)
           numericEntries in
    let targetY :=
      if hasTarget && JS.gt range (JS.ofZ 0)
      then Some (height - paddingY
                 - ((JS.asNumber targetValue - scaleMin) / range)
                   * (height - paddingY * JS.ofZ 2))%js
      else None in
    let targetLine :=
      match targetY with
      | Some ty =>
          if hasTarget && JS.ge ty paddingY
             && JS.le ty (height - paddingY)%js
          then Some ty else None
      | None => None
      end in
    Some (mkChart minVal maxVal unit
            (if hasTarget then targetValue else None)
            points targetY targetLine).

(** The local constants of [renderNumericChart], named as functions of
    what they are computed from, for the statements about the chart. *)
Definition numericEntries (entries : list GoalEntry) : list GoalEntry :=
  filter (λ e, value e ≠ None) entries.

Definition chartValues (entries : list GoalEntry) : list JS.number :=
  map (λ e, JS.asNumber (value e)) (numericEntries entries).

Definition hasTarget (targetValue : option JS.number) : bool :=
  JS.isNumber targetValue && negb (JS.isNaN (JS.asNumber targetValue)).

Definition scaleMin (values : list JS.number) (targetValue : option JS.number)
    : JS.number :=
  if hasTarget targetValue
  then JS.min2 (JS.min values) (JS.asNumber targetValue)
  else JS.min values.

Definition scaleMax (values : list JS.number) (targetValue : option JS.number)
    : JS.number :=
  if hasTarget targetValue
  then JS.max2 (JS.max values) (JS.asNumber targetValue)
  else JS.max values.

Definition range (values : list JS.number) (targetValue : option JS.number)
    : JS.number :=
  ((scaleMax values targetValue - scaleMin values targetValue)
   || JS.ofZ 1)%js.

Definition stepX (n : nat) : JS.number :=
  if (1 <? n)%nat
  then ((JS.ofZ 320 - JS.ofZ 16 * JS.ofZ 2) / JS.ofZ (Z.of_nat n - 1))%js
  else JS.ofZ 0.

(** The value-to-y transform [y(v)] for a scale: [height - paddingY
    - ((v - scaleMin) / range) * (height - 2 * paddingY)]. *)
Definition yOf (scaleMin range v : JS.number) : JS.number :=
  (JS.ofZ 120 - JS.ofZ 12
   - ((v - scaleMin) / range) * (JS.ofZ 120 - JS.ofZ 12 * JS.ofZ 2))%js.

(** *** Goal cards and the page *)

Record GoalCard : Type := mkCard {
  card_goal : Goal;
  summary : string;
  calendar : option Calendar;
  chart : option Chart
}.

Record ViewModel : Type := mkView {
  emptyState : bool;       (* the "no goals yet" block is shown *)
  pinned : list GoalCard;
  other : list GoalCard
}.

Section Page.

(** Text formatting left to the runtime: [toLocaleDateString("en-GB")] of
    an entry date, and the digits of a number in a template string. *)
Variable toLocaleDateString : Z → string.
Variable numberToString : JS.number → string.

Definition formatLatestSummary (trackerType : option TrackerType)
    (entry : option GoalEntry) (unit : option string) : string :=
  match entry with
  | None => "No entries yet"
  | Some entry =>
      let dateLabel := toLocaleDateString (entry_date entry) in
      match trackerType with
      | Some checkin =>
          match is_done entry with
          | Some true => "Last check-in: Done (" +:+ dateLabel +:+ ")"
          | Some false => "Last check-in: Not done (" +:+ dateLabel +:+ ")"
          | None => "Last check-in: Logged (" +:+ dateLabel +:+ ")"
          end
      | Some numeric =>
          match value entry with
          | None => "Last entry: " +:+ dateLabel
          | Some v =>
              let valueText :=
                if truthyString unit
                then numberToString v +:+ " " +:+ default "" unit
                else numberToString v in
              "Last entry: " +:+ valueText +:+ " (" +:+ dateLabel +:+ ")"
          end
      | None => "Last update: " +:+ dateLabel
      end
  end.

Definition renderGoalCard (tza now : Z) (d : DashboardData) (goal : Goal)
    (isPinned : bool) : GoalCard :=
  let latest := latestEntriesByGoal d !! g_id goal in
  let entries := default [] (entriesByGoal d !! g_id goal) in
  mkCard goal
    (formatLatestSummary (tracker_type goal) latest (unit goal))
    (match tracker_type goal with
     | Some checkin =>
         if isPinned then renderCheckinCalendar tza now entries else None
     | _ => None
     end)
    (match tracker_type goal with
     | Some numeric =>
         if isPinned
         then renderNumericChart entries (unit goal) (target_value goal)
         else None
     | _ => None
     end).

Definition DashboardPage (tza now : Z) (supabase : Store) : ViewModel :=
  let d := getDashboardData supabase in
  let pinnedGoals := filter (λ g, is_pinned g = true) (goals d) in
  let otherGoals := filter (λ g, is_pinned g = false) (goals d) in
  mkView (length (goals d) =? 0)%nat
    (map (λ goal, renderGoalCard tza now d goal true) pinnedGoals)
    (map (λ goal, renderGoalCard tza now d goal false) otherGoals).

End Page.

End Dashboard.

(** ** The goal-detail page, [src/app/goals/[id]/page.tsx] *)

Module GoalDetail.

(** The comparator of the History list ("newest first"). *)
Definition compareEntries (a b : GoalEntry) : Z :=
  if entry_date a =? entry_date b
  then created_at b - created_at a
  else Date.parseDate (entry_date b) - Date.parseDate (entry_date a).

(** The History section: the "No entries yet." paragraph for no entries
    ([None]), else the entries in the order they are listed. *)
Definition history (entries : list GoalEntry) : option (list GoalEntry) :=
  if (length entries =? 0)%nat then None
  else Some (Array.sort compareEntries entries).

Record Chart : Type := mkChart {
  minVal : JS.number;
  maxVal : JS.number;
  points : list Point
}.

(** The memoised [numericEntries]. *)
Definition numericEntries (entries : list GoalEntry) : list GoalEntry :=
  filter (λ e, value e ≠ None) entries.

Definition renderNumericChart (entries : list GoalEntry) : option Chart :=
  let numericEntries := numericEntries entries in
  if (length numericEntries =? 0)%nat then None
  else
    let values := map (λ e, JS.asNumber (value e)) numericEntries in
    let minVal := JS.min values in
    let maxVal := JS.max values in
    let range := ((maxVal - minVal) || JS.ofZ 1)%js in
    let width := JS.ofZ 320 in
    let height := JS.ofZ 120 in
    let paddingX := JS.ofZ 16 in
    let paddingY := JS.ofZ 12 in
    let stepX :=
      if (1 <? length numericEntries)%nat
      then ((width - paddingX * JS.ofZ 2)
            / JS.ofZ (Z.of_nat (length numericEntries) - 1))%js
      else JS.ofZ 0 in
    let points :=
      imap (λ idx entry,
              mkPoint (paddingX + JS.ofZ (Z.of_nat idx) * stepX)%js
                      (height - paddingY
                       - ((JS.asNumber (value entry) - minVal) / range)
                         * (height - paddingY * JS.ofZ 2))%js)
           numericEntries in
    Some (mkChart minVal maxVal points).

End GoalDetail.

(** No value of the list is NaN (the entry form rejects NaN input). *)
Definition noNaN (l : list JS.number) : Prop :=
  Forall (λ v, JS.isNaN v = false) l.

(** ** The charts in floating-point arithmetic

    [JS.number] computes on finite numbers exactly.  The runtime computes
    in IEEE 754 doubles: the result of every arithmetic operation is
    rounded to the nearest double, and a result beyond the largest double
    becomes an infinity.  The two chart functions are embedded here once
    more, with every arithmetic operation followed by a rounding [fl].
    [Math.min], [Math.max] and the comparisons do not round.  What the
    statements about coordinates use of [fl] is collected in
    [Rounding.Faithful]; rounding to the nearest double has these
    properties.  Without rounding ([fl = JS.Fin]) the functions are those
    of [Dashboard] and [GoalDetail]. *)

Module Rounding.

Section Operations.

Variable fl : Qc → JS.number.

(** The rounding of a result: a finite result goes through [fl], which
    may take it to an infinity; NaN and the infinities stay. *)
Definition round (a : JS.number) : JS.number :=
  match a with
  | JS.Fin q => fl q
  | _ => a
  end.

Definition add (a b : JS.number) : JS.number := round (JS.add a b).
Definition sub (a b : JS.number) : JS.number := round (JS.sub a b).
Definition mul (a b : JS.number) : JS.number := round (JS.mul a b).
Definition div (a b : JS.number) : JS.number := round (JS.div a b).

End Operations.

(** Half the distance of neighbouring doubles between 256 and 512,
    [2^-45]. *)
Definition halfUlp512 : Qc := Q2Qc (1 # 35184372088832).

(** Rounding to nearest: it keeps the order, it is exact on the integers
    up to [2^53], and a number between 0 and 512 is moved by at most
    [2^-45]. *)
Record Faithful (fl : Qc → JS.number) : Prop := mkFaithful {
  monotone : ∀ p q : Qc, (p <= q)%Qc → JS.le (fl p) (fl q) = true;
  exact_integer :
    ∀ z : Z, - 2 ^ 53 ≤ z ≤ 2 ^ 53 → fl (Qc_of_Z z) = JS.ofZ z;
  absolute_error :
    ∀ q : Qc, (0 <= q)%Qc → (q <= Qc_of_Z 512)%Qc →
      JS.le (JS.Fin (q - halfUlp512)%Qc) (fl q) = true
      ∧ JS.le (fl q) (JS.Fin (q + halfUlp512)%Qc) = true
}.

End Rounding.

Declare Scope fl_scope.
Delimit Scope fl_scope with fl.

(** *** The dashboard chart, [src/app/page.tsx] *)

Module RoundedDashboard.

Section Chart.

Variable fl : Qc → JS.number.

Local Infix "+" := (Rounding.add fl) : fl_scope.
Local Infix "-" := (Rounding.sub fl) : fl_scope.
Local Infix "*" := (Rounding.mul fl) : fl_scope.
Local Infix "/" := (Rounding.div fl) : fl_scope.
Local Infix "||" := JS.or : fl_scope.

Definition renderNumericChart (entries : list GoalEntry)
    (unit : option string) (targetValue : option JS.number)
    : option Dashboard.Chart :=
  let numericEntries := filter (λ e, value e ≠ None) entries in
  if (length numericEntries =? 0)%nat then None
  else
    let values := map (λ e, JS.asNumber (value e)) numericEntries in
    let minVal := JS.min values in
    let maxVal := JS.max values in
    let hasTarget :=
      JS.isNumber targetValue
      && negb (JS.isNaN (JS.asNumber targetValue)) in
    let scaleMin :=
      if hasTarget then JS.min2 minVal (JS.asNumber targetValue)
      else minVal in
    let scaleMax :=
      if hasTarget then JS.max2 maxVal (JS.asNumber targetValue)
      else maxVal in
    let range := ((scaleMax - scaleMin) || JS.ofZ 1)%fl in
    let width := JS.ofZ 320 in
    let height := JS.ofZ 120 in
    let paddingX := JS.ofZ 16 in
    let paddingY := JS.ofZ 12 in
    let stepX :=
      if (1 <? length numericEntries)%nat
      then ((width - paddingX * JS.ofZ 2)
            / JS.ofZ (Z.of_nat (length numericEntries) - 1))%fl
      else JS.ofZ 0 in
    let points :=
      imap (λ idx entry,
              mkPoint (paddingX + JS.ofZ (Z.of_nat idx) * stepX)%fl
                      (height - paddingY
                       - ((JS.asNumber (value entry) - scaleMin) / range)
                         * (height - paddingY * JS.ofZ 2))%fl)
           numericEntries in
    let targetY :=
      if hasTarget && JS.gt range (JS.ofZ 0)
      then Some (height - paddingY
                 - ((JS.asNumber targetValue - scaleMin) / range)
                   * (height - paddingY * JS.ofZ 2))%fl
      else None in
    let targetLine :=
      match targetY with
      | Some ty =>
          if hasTarget && JS.ge ty paddingY
             && JS.le ty (height - paddingY)%fl
          then Some ty else None
      | None => None
      end in
    Some (Dashboard.mkChart minVal maxVal unit
            (if hasTarget then targetValue else None)
            points targetY targetLine).

(** The local constants of [renderNumericChart] that are computed with
    rounding, named for the statements about the chart. *)
Definition range (values : list JS.number) (targetValue : option JS.number)
    : JS.number :=
  ((Dashboard.scaleMax values targetValue
    - Dashboard.scaleMin values targetValue) || JS.ofZ 1)%fl.

Definition stepX (n : nat) : JS.number :=
  if (1 <? n)%nat
  then ((JS.ofZ 320 - JS.ofZ 16 * JS.ofZ 2) / JS.ofZ (Z.of_nat n - 1))%fl
  else JS.ofZ 0.

Definition xOf (n idx : nat) : JS.number :=
  (JS.ofZ 16 + JS.ofZ (Z.of_nat idx) * stepX n)%fl.

Definition yOf (scaleMin range v : JS.number) : JS.number :=
  (JS.ofZ 120 - JS.ofZ 12
   - ((v - scaleMin) / range) * (JS.ofZ 120 - JS.ofZ 12 * JS.ofZ 2))%fl.

End Chart.

End RoundedDashboard.

(** *** The chart of the goal-detail page, [src/app/goals/[id]/page.tsx] *)

Module RoundedGoalDetail.

Section Chart.

Variable fl : Qc → JS.number.

Local Infix "+" := (Rounding.add fl) : fl_scope.
Local Infix "-" := (Rounding.sub fl) : fl_scope.
Local Infix "*" := (Rounding.mul fl) : fl_scope.
Local Infix "/" := (Rounding.div fl) : fl_scope.
Local Infix "||" := JS.or : fl_scope.

Definition renderNumericChart (entries : list GoalEntry)
    : option GoalDetail.Chart :=
  let numericEntries := GoalDetail.numericEntries entries in
  if (length numericEntries =? 0)%nat then None
  else
    let values := map (λ e, JS.asNumber (value e)) numericEntries in
    let minVal := JS.min values in
    let maxVal := JS.max values in
    let range := ((maxVal - minVal) || JS.ofZ 1)%fl in
    let width := JS.ofZ 320 in
    let height := JS.ofZ 120 in
    let paddingX := JS.ofZ 16 in
    let paddingY := JS.ofZ 12 in
    let stepX :=
      if (1 <? length numericEntries)%nat
      then ((width - paddingX * JS.ofZ 2)
            / JS.ofZ (Z.of_nat (length numericEntries) - 1))%fl
      else JS.ofZ 0 in
    let points :=
      imap (λ idx entry,
              mkPoint (paddingX + JS.ofZ (Z.of_nat idx) * stepX)%fl
                      (height - paddingY
                       - ((JS.asNumber (value entry) - minVal) / range)
                         * (height - paddingY * JS.ofZ 2))%fl)
           numericEntries in
    Some (GoalDetail.mkChart minVal maxVal points).

End Chart.

End RoundedGoalDetail.

(** ** The goal-detail page as a state machine

    The state of [GoalDetailPage] (its [useState] cells), the effect that
    loads the goal, the three handlers and what the page renders.  A
    handler is modelled from its call to its return, the awaited request
    included: [Fulfilled] is what the request resolved to, [Rejected] a
    thrown error (the [catch] branch).  [numericDate] is the value of the
    date input: [None] for the empty string, else the day it denotes. *)

Module DetailPage.

Inductive UiTrackerType : Type := ui_unset | ui_checkin | ui_numeric.

Inductive Awaited (A : Type) : Type :=
| Fulfilled (a : A)
| Rejected.
Arguments Fulfilled {A} _.
Arguments Rejected {A}.

(** What [.single()] resolves to for the goal: [{ data, error }]. *)
Record Single (A : Type) : Type := mkSingle {
  row : option A;
  row_error : option string
}.
Arguments mkSingle {A} _ _.
Arguments row {A} _.
Arguments row_error {A} _.

(** What [.insert(...).select().single()] resolves to: the inserted row,
    or an error ([.single()] answers with an error when there is no
    row, so [data] is a row whenever [error] is null). *)
Inductive InsertResult : Type :=
| Inserted (data : GoalEntry)
| InsertFailed (error : string).

(** The object passed to [insert]. *)
Record NewEntry : Type := mkNewEntry {
  new_goal_id : string;
  new_entry_date : Z;
  new_is_done : option bool;
  new_value : option JS.number;
  new_reflection : option string
}.

(** The requests of the page. *)
Record Client : Type := mkClient {
  selectGoal : string → Awaited (Single Goal);
  selectGoalEntries : string → Awaited (Response GoalEntry);
  insertEntry : NewEntry → Awaited InsertResult;
  deleteEntry : string → Awaited (option string)
}.

Record State : Type := mkState {
  goal : option Goal;
  entries : list GoalEntry;
  loading : bool;
  loadError : option string;
  savingEntry : bool;
  entryError : option string;
  deletingEntryId : option string;
  checkinReflection : string;
  numericDate : option Z;
  numericValue : string;
  numericReflection : string
}.

Definition setGoal (v : option Goal) (s : State) : State :=
  mkState v (entries s) (loading s) (loadError s) (savingEntry s)
    (entryError s) (deletingEntryId s) (checkinReflection s) (numericDate
    s) (numericValue s) (numericReflection s).

Definition setEntries (v : list GoalEntry) (s : State) : State :=
  mkState (goal s) v (loading s) (loadError s) (savingEntry s) (entryError
    s) (deletingEntryId s) (checkinReflection s) (numericDate s)
    (numericValue s) (numericReflection s).

Definition setLoading (v : bool) (s : State) : State :=
  mkState (goal s) (entries s) v (loadError s) (savingEntry s) (entryError
    s) (deletingEntryId s) (checkinReflection s) (numericDate s)
    (numericValue s) (numericReflection s).

Definition setLoadError (v : option string) (s : State) : State :=
  mkState (goal s) (entries s) (loading s) v (savingEntry s) (entryError
    s) (deletingEntryId s) (checkinReflection s) (numericDate s)
    (numericValue s) (numericReflection s).

Definition setSavingEntry (v : bool) (s : State) : State :=
  mkState (goal s) (entries s) (loading s) (loadError s) v (entryError s)
    (deletingEntryId s) (checkinReflection s) (numericDate s)
    (numericValue s) (numericReflection s).

Definition setEntryError (v : option string) (s : State) : State :=
  mkState (goal s) (entries s) (loading s) (loadError s) (savingEntry s) v
    (deletingEntryId s) (checkinReflection s) (numericDate s)
    (numericValue s) (numericReflection s).

Definition setDeletingEntryId (v : option string) (s : State) : State :=
  mkState (goal s) (entries s) (loading s) (loadError s) (savingEntry s)
    (entryError s) v (checkinReflection s) (numericDate s) (numericValue
    s) (numericReflection s).

Definition setCheckinReflection (v : string) (s : State) : State :=
  mkState (goal s) (entries s) (loading s) (loadError s) (savingEntry s)
    (entryError s) (deletingEntryId s) v (numericDate s) (numericValue s)
    (numericReflection s).

Definition setNumericDate (v : option Z) (s : State) : State :=
  mkState (goal s) (entries s) (loading s) (loadError s) (savingEntry s)
    (entryError s) (deletingEntryId s) (checkinReflection s) v
    (numericValue s) (numericReflection s).

Definition setNumericValue (v : string) (s : State) : State :=
  mkState (goal s) (entries s) (loading s) (loadError s) (savingEntry s)
    (entryError s) (deletingEntryId s) (checkinReflection s) (numericDate
    s) v (numericReflection s).

Definition setNumericReflection (v : string) (s : State) : State :=
  mkState (goal s) (entries s) (loading s) (loadError s) (savingEntry s)
    (entryError s) (deletingEntryId s) (checkinReflection s) (numericDate
    s) (numericValue s) v.

(** The state before the effect has run. *)
Definition initialState (now : Z) : State :=
  mkState None [] true None false None None "" (Some (Date.toISODate now))
    "" "".

Definition todayISO (now : Z) : Z := Date.toISODate now.

Definition formatGoalType (type : GoalType) : string :=
  match type with
  | north_star => "North Star Goal"
  | mid_term => "Mid-term Goal"
  | habit => "Daily Habit"
  end.

Definition formatTrackerLabel (trackerType : UiTrackerType)
    (unit : option string) : string :=
  match trackerType with
  | ui_unset => "Tracker: Not set"
  | ui_checkin => "Tracker: Check-in (Done / Not done)"
  | ui_numeric =>
      if truthyString unit
      then "Tracker: Numeric (" +:+ default "" unit +:+ ")"
      else "Tracker: Numeric"
  end.

(** The memoised [uiTrackerType]. *)
Definition uiTrackerType (goal : option Goal) : UiTrackerType :=
  match goal with
  | None => ui_unset
  | Some g =>
      match tracker_type g with
      | None => ui_unset
      | Some checkin => ui_checkin
      | Some numeric => ui_numeric
      end
  end.

(** [s || null] on a string. *)
Definition orNull (s : string) : option string :=
  if String.eqb s "" then None else Some s.

(** The effect [fetchGoalAndEntries], for a goal id that is set. *)
Definition fetchGoalAndEntries (now : Z) (supabase : Client)
    (goalId : string) (s : State) : State :=
  let s := setLoadError None (setLoading true s) in
  match selectGoal supabase goalId with
  | Rejected =>
      setLoading false (setLoadError (Some "Failed to load this goal.") s)
  | Fulfilled r =>
      match row_error r, row r with
      | None, Some g =>
          let s := setGoal (Some g) s in
          match selectGoalEntries supabase goalId with
          | Rejected =>
              setLoading false
                (setLoadError (Some "Failed to load this goal.") s)
          | Fulfilled er =>
              let s :=
                match error er with
                | Some _ => setEntries [] s
                | None => setEntries (default [] (data er)) s
                end in
              setLoading false (setNumericDate (Some (todayISO now)) s)
          end
      | _, _ =>
          setLoading false (setLoadError (Some "Failed to load this goal.") s)
      end
  end.

Section Handlers.

(** Left to the runtime: [String.prototype.trim] and [Number(...)] on the
    text of an input. *)
Variable trim : string → string.
Variable Number : string → JS.number.

Definition handleAddCheckin (now : Z) (supabase : Client) (s : State)
    : State :=
  match goal s with
  | None => s
  | Some goal =>
      let payload :=
        mkNewEntry (g_id goal) (todayISO now) (Some true) None
          (orNull (trim (checkinReflection s))) in
      let s := setEntryError None (setSavingEntry true s) in
      match insertEntry supabase payload with
      | Fulfilled (InsertFailed _) =>
          setSavingEntry false
            (setEntryError
               (Some "Failed to save your check-in. Please try again.") s)
      | Fulfilled (Inserted data) =>
          setSavingEntry false
            (setCheckinReflection "" (setEntries (entries s ++ [data]) s))
      | Rejected =>
          setSavingEntry false
            (setEntryError (Some "Something went wrong. Please try again.") s)
      end
  end.

Definition handleAddNumeric (now : Z) (supabase : Client) (s : State)
    : State :=
  match goal s with
  | None => s
  | Some goal =>
      if String.eqb (trim (numericValue s)) ""
      then setEntryError (Some "Value is required.") s
      else
        let val := Number (numericValue s) in
        if JS.isNaN val
        then setEntryError (Some "Value must be a number.") s
        else
          let payload :=
            mkNewEntry (g_id goal)
              (default (todayISO now) (numericDate s)) None (Some val)
              (orNull (trim (numericReflection s))) in
          let s := setEntryError None (setSavingEntry true s) in
          match insertEntry supabase payload with
          | Fulfilled (InsertFailed _) =>
              setSavingEntry false
                (setEntryError
                   (Some "Failed to save your entry. Please try again.") s)
          | Fulfilled (Inserted data) =>
              setSavingEntry false
                (setNumericReflection ""
                   (setNumericValue ""
                      (setEntries (entries s ++ [data]) s)))
          | Rejected =>
              setSavingEntry false
                (setEntryError
                   (Some "Something went wrong. Please try again.") s)
          end
  end.

End Handlers.

(** [confirm] is the answer to [window.confirm], [None] where there is no
    window. *)
Definition handleDeleteEntry (confirm : option bool) (supabase : Client)
    (entryId : string) (s : State) : State :=
  match confirm with
  | Some false => s
  | _ =>
      let s := setEntryError None (setDeletingEntryId (Some entryId) s) in
      match deleteEntry supabase entryId with
      | Fulfilled (Some _) =>
          setDeletingEntryId None
            (setEntryError
               (Some "Failed to delete this entry. Please try again.") s)
      | Fulfilled None =>
          setDeletingEntryId None
            (setEntries (filter (λ e, id e ≠ entryId) (entries s)) s)
      | Rejected =>
          setDeletingEntryId None
            (setEntryError
               (Some "Something went wrong while deleting. Please try again.")
               s)
      end
  end.

(** *** What the page renders *)

Inductive AddEntrySection : Type :=
| TrackerHint
| CheckinForm (error : option string) (disabled : bool)
| NumericForm (error : option string) (disabled : bool).

(** An item of the History list: the entry, the "Done" / "Not done" line
    of a check-in goal, the value line of a numeric goal, and whether the
    delete button is disabled. *)
Record HistoryItem : Type := mkItem {
  item_entry : GoalEntry;
  item_status : option string;
  item_value : option JS.number;
  item_deleteDisabled : bool
}.

(** The parts of the loaded page that depend on the entries and on the
    tracker: the two badges, the "Add entry" section, the chart, the
    entry count with its noun, and the History section ([None] for the
    "No entries yet." paragraph). *)
Record GoalView : Type := mkGoalView {
  view_goal : Goal;
  view_goalType : string;
  view_tracker : string;
  view_addEntry : AddEntrySection;
  view_chart : option GoalDetail.Chart;
  view_count : nat;
  view_countNoun : string;
  view_history : option (list HistoryItem)
}.

Inductive View : Type :=
| InvalidGoalId
| LoadingGoal
| LoadFailed (message : string)
| GoalLoaded (v : GoalView).

Definition renderItem (trackerType : UiTrackerType)
    (deletingEntryId : option string) (entry : GoalEntry) : HistoryItem :=
  mkItem entry
    (match trackerType with
     | ui_checkin =>
         Some (match is_done entry with
               | Some true => "Done"
               | _ => "Not done"
               end)
     | _ => None
     end)
    (match trackerType with
     | ui_numeric => value entry
     | _ => None
     end)
    (bool_decide (deletingEntryId = Some (id entry))).

Definition GoalDetailPage (goalId : option string) (s : State) : View :=
  if negb (truthyString goalId) then InvalidGoalId
  else if loading s then LoadingGoal
  else
    match goal s with
    | Some goal =>
        if truthyString (loadError s)
        then LoadFailed (default "Goal not found." (loadError s))
        else
          let uiTrackerType := uiTrackerType (Some goal) in
          GoalLoaded
            (mkGoalView goal
               (formatGoalType (goal_type goal))
               (formatTrackerLabel uiTrackerType (unit goal))
               (match uiTrackerType with
                | ui_unset => TrackerHint
                | ui_checkin => CheckinForm (entryError s) (savingEntry s)
                | ui_numeric => NumericForm (entryError s) (savingEntry s)
                end)
               (match uiTrackerType with
                | ui_numeric => GoalDetail.renderNumericChart (entries s)
                | _ => None
                end)
               (length (entries s))
               (if (length (entries s) =? 1)%nat then "entry" else "entries")
               (option_map
                  (map (renderItem uiTrackerType (deletingEntryId s)))
                  (GoalDetail.history (entries s))))
    | None => LoadFailed (default "Goal not found." (loadError s))
    end.

End DetailPage.

(** Length of month [m] (0 = January) of year [y] in the Gregorian
    calendar, as a table. *)
Definition gregorianLeap (y : Z) : bool :=
  (y mod 4 =? 0) && (negb (y mod 100 =? 0) || (y mod 400 =? 0)).

Definition gregorianDaysInMonth (y m : Z) : Z :=
  match m with
  | 1 => if gregorianLeap y then 29 else 28
  | 3 | 5 | 8 | 10 => 30
  | _ => 31
  end.

(** "Newest first": what the comparators of both pages order by. *)
Definition newerOrSame (a b : GoalEntry) : Prop :=
  entry_date b < entry_date a ∨
  (entry_date a = entry_date b ∧ created_at b ≤ created_at a).

(** Strictly ascending by [entry_date], then [created_at]. *)
Definition strictlyOlder (a b : GoalEntry) : Prop :=
  entry_date a < entry_date b ∨
  (entry_date a = entry_date b ∧ created_at a < created_at b).

(** Every value of the list is finite. *)
Definition allFinite (l : list JS.number) : Prop :=
  Forall (λ v, JS.isFinite v = true) l.

(** A target value that is absent or finite. *)
Definition finiteOrAbsent (targetValue : option JS.number) : Prop :=
  match targetValue with
  | None => True
  | Some t => JS.isFinite t = true
  end.

(** The point lies on the 320 x 120 canvas, between the two guide lines
    and right of the left padding. *)
Definition onCanvas (p : Point) : Prop :=
  JS.le (JS.ofZ 16) (x p) = true ∧ JS.le (x p) (JS.ofZ 320) = true
  ∧ JS.le (JS.ofZ 12) (y p) = true ∧ JS.le (y p) (JS.ofZ 108) = true.

(** ** Scenarios used to exercise the properties *)

Definition numericEntry (id : string) (day : Z) (v : Z) (created : Z)
    : GoalEntry :=
  mkEntry id "goal-1" day None (Some (JS.ofZ v)) None created.

Definition checkinEntry (id : string) (day : Z) (created : Z) : GoalEntry :=
  mkEntry id "goal-1" day (Some true) None None created.

(** Entries with the values 80, 75, 70, on three consecutive days. *)
Definition entries_80_75_70 : list GoalEntry :=
  [ numericEntry "e1" (Date.isoDay 2024 6 1) 80 1000;
    numericEntry "e2" (Date.isoDay 2024 6 2) 75 2000;
    numericEntry "e3" (Date.isoDay 2024 6 3) 70 3000 ].

(** Three entries with the same value, 70. *)
Definition entries_70_70_70 : list GoalEntry :=
  [ numericEntry "e1" (Date.isoDay 2024 6 1) 70 1000;
    numericEntry "e2" (Date.isoDay 2024 6 2) 70 2000;
    numericEntry "e3" (Date.isoDay 2024 6 3) 70 3000 ].

(** Two entries of the same day, the second created later (values 70
    and 71). *)
Definition entries_same_day : list GoalEntry :=
  [ numericEntry "e70" (Date.isoDay 2024 6 1) 70 1000;
    numericEntry "e71" (Date.isoDay 2024 6 1) 71 2000 ].

Definition goal_1 : Goal :=
  mkGoal "goal-1" "Reach 68 kg" mid_term (Some numeric) (Some "kg")
    (Some (JS.ofZ 68)) true false 100.

(** A store holding one goal and the given entries. *)
Definition storeOf (entries : list GoalEntry) : Store :=
  mkStore (mkResponse (Some [goal_1]) None)
          (λ _, mkResponse (Some entries) None).

(** A store without goals. *)
Definition noGoals : Store :=
  mkStore (mkResponse (Some []) None) (λ _, mkResponse (Some []) None).

(** Stores whose queries fail. *)
Definition failingGoals : Store :=
  mkStore (mkResponse None (Some "connection refused"))
          (λ _, mkResponse None None).

Definition failingEntries : Store :=
  mkStore (mkResponse (Some [goal_1]) None)
          (λ _, mkResponse None (Some "connection refused")).

(** Check-ins done on 1 and 15 June 2024. *)
Definition checkins_june : list GoalEntry :=
  [ checkinEntry "c1" (Date.isoDay 2024 6 1) 1000;
    checkinEntry "c2" (Date.isoDay 2024 6 15) 2000 ].

(** Clock readings, in milliseconds since the epoch, and a time zone. *)
Definition msPerHour : Z := 3600000.
Definition msPerMinute : Z := 60000.

(** 2024-06-15T12:00:00Z. *)
Definition noon_15_june : Z :=
  Date.isoDay 2024 6 15 * Date.msPerDay + 12 * msPerHour.

(** 2024-06-14T18:30:00Z, which is 03:30 on 15 June at UTC+9. *)
Definition evening_14_june : Z :=
  Date.isoDay 2024 6 14 * Date.msPerDay + 18 * msPerHour + 30 * msPerMinute.

(** 2024-06-30T18:30:00Z, which is 03:30 on 1 July at UTC+9. *)
Definition evening_30_june : Z :=
  Date.isoDay 2024 6 30 * Date.msPerDay + 18 * msPerHour + 30 * msPerMinute.

(** Local time zone adjustment of a runtime at UTC+9 (Asia/Tokyo). *)
Definition utc_plus_9 : Z := 9 * msPerHour.

(** The row the database hands back is the row that was sent. *)
Definition insertReturnsRow (supabase : DetailPage.Client) : Prop :=
  ∀ payload data,
    DetailPage.insertEntry supabase payload
    = DetailPage.Fulfilled (DetailPage.Inserted data) →
    goal_id data = DetailPage.new_goal_id payload
    ∧ entry_date data = DetailPage.new_entry_date payload
    ∧ is_done data = DetailPage.new_is_done payload
    ∧ value data = DetailPage.new_value payload
    ∧ reflection data = DetailPage.new_reflection payload.

(** A database that holds [goal_1] and the given entries, stores every
    row it is sent (as "e-new", created at the given time) and deletes
    every row it is asked to. *)
Definition workingClient (entries : list GoalEntry) (created : Z)
    : DetailPage.Client :=
  DetailPage.mkClient
    (λ _, DetailPage.Fulfilled (DetailPage.mkSingle (Some goal_1) None))
    (λ _, DetailPage.Fulfilled (mkResponse (Some entries) None))
    (λ payload,
       DetailPage.Fulfilled
         (DetailPage.Inserted
            (mkEntry "e-new" (DetailPage.new_goal_id payload)
               (DetailPage.new_entry_date payload)
               (DetailPage.new_is_done payload)
               (DetailPage.new_value payload)
               (DetailPage.new_reflection payload) created)))
    (λ _, DetailPage.Fulfilled None).

(** A database that refuses every request with an error. *)
Definition refusingClient : DetailPage.Client :=
  DetailPage.mkClient
    (λ _, DetailPage.Fulfilled
            (DetailPage.mkSingle None (Some "permission denied")))
    (λ _, DetailPage.Fulfilled (mkResponse None (Some "permission denied")))
    (λ _, DetailPage.Fulfilled (DetailPage.InsertFailed "permission denied"))
    (λ _, DetailPage.Fulfilled (Some "permission denied")).

(** No connection: every request throws. *)
Definition offlineClient : DetailPage.Client :=
  DetailPage.mkClient (λ _, DetailPage.Rejected) (λ _, DetailPage.Rejected)
    (λ _, DetailPage.Rejected) (λ _, DetailPage.Rejected).

(** The page of [goal_1], loaded with the given entries, the text [text]
    in the value input and "felt good" in both reflection inputs. *)
Definition loadedState (entries : list GoalEntry) (text : string)
    : DetailPage.State :=
  DetailPage.mkState (Some goal_1) entries false None false None None
    "felt good" (Some (Date.isoDay 2024 6 15)) text "felt good".

(** A [Number] that reads the text "72" and nothing else. *)
Definition numberOf72 (text : string) : JS.number :=
  if String.eqb text "72" then JS.ofZ 72 else JS.NaN.

(** A rounding that does round: to the nearest multiple of [2^-46], a
    half upwards. *)
Definition roundToGrid (q : Qc) : JS.number :=
  JS.Fin (Q2Qc (inject_Z (Qfloor (this q * inject_Z 70368744177664 + (1 # 2)))
                / inject_Z 70368744177664)).

(** * Properties *)

(** ** The model on small inputs *)

Example division_by_zero :
  (JS.ofZ 1 / JS.ofZ 0)%js = JS.PosInf
  ∧ (JS.ofZ 0 / JS.ofZ 0)%js = JS.NaN
  ∧ (JS.PosInf - JS.PosInf)%js = JS.NaN
  ∧ (JS.NaN || JS.ofZ 1)%js = JS.ofZ 1.
Proof. repeat split; reflexivity. Qed.

Example min_max_of_spread :
  JS.min [] = JS.PosInf
  ∧ JS.max [] = JS.NegInf
  ∧ JS.min [JS.ofZ 3; JS.NaN; JS.ofZ 1] = JS.NaN
  ∧ JS.min [JS.ofZ 3; JS.ofZ 1; JS.ofZ 2] = JS.ofZ 1
  ∧ JS.max [JS.ofZ 3; JS.ofZ 1; JS.ofZ 2] = JS.ofZ 3.
Proof. repeat split; reflexivity. Qed.

Example epoch_is_a_thursday :
  Date.isoDay 1970 1 1 = 0 ∧ Date.WeekDay 0 = 4.
Proof. split; reflexivity. Qed.

Example last_instant_of_1969 :
  Date.YearFromTime (-1) = 1969
  ∧ Date.MonthFromTime (-1) = 11
  ∧ Date.DateFromTime (-1) = 31.
Proof. repeat split; reflexivity. Qed.

Example june_2024 :
  Date.getDay 0 (Date.construct 0 2024 5 1) = 6
  ∧ Date.getDate 0 (Date.construct 0 2024 (5 + 1) 0) = 30.
Proof. split; reflexivity. Qed.

Example februaries :
  Date.getDate 0 (Date.construct 0 2024 (1 + 1) 0) = 29
  ∧ Date.getDate 0 (Date.construct 0 2023 (1 + 1) 0) = 28
  ∧ Date.getDate 0 (Date.construct 0 2000 (1 + 1) 0) = 29
  ∧ Date.getDate 0 (Date.construct 0 1900 (1 + 1) 0) = 28.
Proof. repeat split; reflexivity. Qed.

Example sort_keeps_ties_in_order :
  Array.sort (λ a b : Z * string, b.1 - a.1)
    [(1, "a"); (2, "b"); (1, "c"); (2, "d")]
  = [(2, "b"); (2, "d"); (1, "a"); (1, "c")].
Proof. reflexivity. Qed.

(** The spec's scenario of two entries on one day: the History lists the
    later-created entry first, and it is the latest entry of the goal. *)
Example same_day_entries :
  GoalDetail.history entries_same_day
  = Some [ numericEntry "e71" (Date.isoDay 2024 6 1) 71 2000;
           numericEntry "e70" (Date.isoDay 2024 6 1) 70 1000 ]
  ∧ Dashboard.latestEntriesByGoal
      (Dashboard.getDashboardData (storeOf entries_same_day)) !! "goal-1"
    = Some (numericEntry "e71" (Date.isoDay 2024 6 1) 71 2000)
  ∧ Dashboard.entriesByGoal
      (Dashboard.getDashboardData (storeOf entries_same_day)) !! "goal-1"
    = Some entries_same_day.
Proof. repeat split; vm_compute; reflexivity. Qed.

(** ** Facts about JavaScript numbers *)

Section NumberFacts.

Implicit Types a b c : JS.number.
Implicit Types p q : Qc.

Lemma Qccompare_refl p : (p ?= p)%Qc = Eq.
Proof. by apply Qceq_alt. Qed.

Lemma Qccompare_antisym p q : (q ?= p)%Qc = CompOpp (p ?= q)%Qc.
Proof. unfold Qccompare. by rewrite Qcompare_antisym. Qed.

Lemma Qccompare_le_trans p q r :
  (p ?= q)%Qc ≠ Gt → (q ?= r)%Qc ≠ Gt → (p ?= r)%Qc ≠ Gt.
Proof. rewrite <- !Qcle_alt. apply Qcle_trans. Qed.

Lemma compare_refl a : JS.isNaN a = false → JS.compare a a = Some Eq.
Proof. destruct a; simpl; try done. by rewrite Qccompare_refl. Qed.

Lemma compare_antisym a b :
  JS.compare b a = CompOpp <$> JS.compare a b.
Proof.
  destruct a, b; simpl; try done. by rewrite (Qccompare_antisym q q0).
Qed.

Lemma compare_None a b :
  JS.compare a b = None ↔ JS.isNaN a = true ∨ JS.isNaN b = true.
Proof. destruct a, b; simpl; intuition congruence. Qed.

Lemma le_refl a : JS.isNaN a = false → JS.le a a = true.
Proof. intros H. unfold JS.le. by rewrite compare_refl. Qed.

Lemma le_compare a b :
  JS.le a b = true ↔
  JS.compare a b = Some Lt ∨ JS.compare a b = Some Eq.
Proof.
  unfold JS.le. destruct (JS.compare a b) as [[]|]; intuition congruence.
Qed.

Lemma le_notNaN a b :
  JS.le a b = true → JS.isNaN a = false ∧ JS.isNaN b = false.
Proof. destruct a, b; simpl; auto; discriminate. Qed.

Lemma lt_notNaN a b :
  JS.lt a b = true → JS.isNaN a = false ∧ JS.isNaN b = false.
Proof. destruct a, b; simpl; auto; discriminate. Qed.

Lemma le_trans a b c :
  JS.le a b = true → JS.le b c = true → JS.le a c = true.
Proof.
  destruct a as [| |p|], b as [| |q|], c as [| |r|];
    unfold JS.le; simpl; try done.
  intros H1 H2.
  assert ((p ?= r)%Qc ≠ Gt) as H.
  { apply (Qccompare_le_trans p q r).
    - by destruct (p ?= q)%Qc.
    - by destruct (q ?= r)%Qc. }
  by destruct (p ?= r)%Qc.
Qed.

Lemma le_total a b :
  JS.isNaN a = false → JS.isNaN b = false →
  JS.le a b = true ∨ JS.le b a = true.
Proof.
  intros Ha Hb. unfold JS.le. rewrite (compare_antisym a b).
  destruct (JS.compare a b) as [[]|] eqn:E; simpl; auto.
  apply compare_None in E. destruct E; congruence.
Qed.

Lemma min2_notNaN a b :
  JS.isNaN a = false → JS.isNaN b = false → JS.isNaN (JS.min2 a b) = false.
Proof.
  intros Ha Hb. unfold JS.min2.
  destruct (JS.compare a b) as [[]|] eqn:E; try done.
  apply compare_None in E. destruct E; congruence.
Qed.

Lemma max2_notNaN a b :
  JS.isNaN a = false → JS.isNaN b = false → JS.isNaN (JS.max2 a b) = false.
Proof.
  intros Ha Hb. unfold JS.max2.
  destruct (JS.compare a b) as [[]|] eqn:E; try done.
  apply compare_None in E. destruct E; congruence.
Qed.

Lemma min2_le_l a b :
  JS.isNaN a = false → JS.isNaN b = false → JS.le (JS.min2 a b) a = true.
Proof.
  intros Ha Hb. unfold JS.min2.
  destruct (JS.compare a b) as [[]|] eqn:E; try by apply le_refl.
  - unfold JS.le. by rewrite compare_antisym, E.
  - apply compare_None in E. destruct E; congruence.
Qed.

Lemma min2_le_r a b :
  JS.isNaN a = false → JS.isNaN b = false → JS.le (JS.min2 a b) b = true.
Proof.
  intros Ha Hb. unfold JS.min2.
  destruct (JS.compare a b) as [[]|] eqn:E;
    try (by apply le_refl); try (unfold JS.le; by rewrite E).
  apply compare_None in E. destruct E; congruence.
Qed.

Lemma max2_ge_l a b :
  JS.isNaN a = false → JS.isNaN b = false → JS.le a (JS.max2 a b) = true.
Proof.
  intros Ha Hb. unfold JS.max2.
  destruct (JS.compare a b) as [[]|] eqn:E;
    try (by apply le_refl); try (unfold JS.le; by rewrite E).
  apply compare_None in E. destruct E; congruence.
Qed.

Lemma max2_ge_r a b :
  JS.isNaN a = false → JS.isNaN b = false → JS.le b (JS.max2 a b) = true.
Proof.
  intros Ha Hb. unfold JS.max2.
  destruct (JS.compare a b) as [[]|] eqn:E; try by apply le_refl.
  - unfold JS.le. by rewrite compare_antisym, E.
  - unfold JS.le. by rewrite compare_antisym, E.
  - apply compare_None in E. destruct E; congruence.
Qed.

Lemma min2_NaN_l b : JS.min2 JS.NaN b = JS.NaN.
Proof. done. Qed.

Lemma min2_NaN_r a : JS.min2 a JS.NaN = JS.NaN.
Proof. by destruct a. Qed.

Lemma max2_NaN_r a : JS.max2 a JS.NaN = JS.NaN.
Proof. by destruct a. Qed.

Lemma min_notNaN l : noNaN l → JS.isNaN (JS.min l) = false.
Proof.
  induction 1 as [|a l Ha _ IH]; [done|]. simpl. by apply min2_notNaN.
Qed.

Lemma max_notNaN l : noNaN l → JS.isNaN (JS.max l) = false.
Proof.
  induction 1 as [|a l Ha _ IH]; [done|]. simpl. by apply max2_notNaN.
Qed.

Lemma min_le_elem l v :
  noNaN l → v ∈ l → JS.le (JS.min l) v = true.
Proof.
  induction 1 as [|a l Ha Hl IH]; intros Hv; [by apply elem_of_nil in Hv|].
  apply elem_of_cons in Hv as [->|Hv]; simpl.
  - apply min2_le_l; [done|by apply min_notNaN].
  - eapply le_trans; [|by apply IH].
    apply min2_le_r; [done|by apply min_notNaN].
Qed.

Lemma max_ge_elem l v :
  noNaN l → v ∈ l → JS.le v (JS.max l) = true.
Proof.
  induction 1 as [|a l Ha Hl IH]; intros Hv; [by apply elem_of_nil in Hv|].
  apply elem_of_cons in Hv as [->|Hv]; simpl.
  - apply max2_ge_l; [done|by apply max_notNaN].
  - eapply le_trans; [by apply IH|].
    apply max2_ge_r; [done|by apply max_notNaN].
Qed.

End NumberFacts.

(** ** The trend chart *)

Section ChartFacts.

Import Dashboard.

Lemma numericEntries_same entries :
  GoalDetail.numericEntries entries = numericEntries entries.
Proof. done. Qed.

Lemma hasTarget_Some t : hasTarget (Some t) = negb (JS.isNaN t).
Proof. done. Qed.

Lemma renderNumericChart_None entries unit targetValue :
  numericEntries entries = [] →
  renderNumericChart entries unit targetValue = None.
Proof.
  intros H. unfold renderNumericChart.
  fold (numericEntries entries). by rewrite H.
Qed.

Lemma renderNumericChart_is_Some entries unit targetValue :
  numericEntries entries ≠ [] →
  is_Some (renderNumericChart entries unit targetValue).
Proof.
  unfold renderNumericChart. fold (numericEntries entries). intros H.
  destruct (numericEntries entries); [done|]. by eexists.
Qed.

Lemma scaleMin_None values : scaleMin values None = JS.min values.
Proof. done. Qed.

Lemma scaleMax_None values : scaleMax values None = JS.max values.
Proof. done. Qed.

(** The chart that is rendered when there is something to plot. *)
Lemma renderNumericChart_Some entries unit targetValue :
  numericEntries entries ≠ [] →
  let values := chartValues entries in
  let smin := scaleMin values targetValue in
  let rng := range values targetValue in
  let ty := yOf smin rng (JS.asNumber targetValue) in
  renderNumericChart entries unit targetValue =
  Some (mkChart (JS.min values) (JS.max values) unit
          (if hasTarget targetValue then targetValue else None)
          (imap (λ idx entry,
                   mkPoint (JS.ofZ 16
                            + JS.ofZ (Z.of_nat idx)
                              * stepX (length (numericEntries entries)))%js
                           (yOf smin rng (JS.asNumber (value entry))))
                (numericEntries entries))
          (if hasTarget targetValue && JS.gt rng (JS.ofZ 0)
           then Some ty else None)
          (if hasTarget targetValue && JS.gt rng (JS.ofZ 0)
           then (if hasTarget targetValue && JS.ge ty (JS.ofZ 12)
                    && JS.le ty (JS.ofZ 120 - JS.ofZ 12)%js
                 then Some ty else None)
           else None)).
Proof.
  intros H. unfold renderNumericChart, chartValues.
  fold (numericEntries entries).
  destruct (numericEntries entries) eqn:E; [done|].
  cbn [length Nat.eqb]. cbv zeta.
  fold (hasTarget targetValue).
  by destruct (hasTarget targetValue && JS.gt _ _).
Qed.

End ChartFacts.

(** C9. With no target value, the dashboard chart and the chart of the
    goal-detail page plot the same points, from the same entries, and
    show the same Min and Max labels; the dashboard then draws no target
    line and no target text. *)
Theorem dashboard_chart_without_target_is_detail_chart
    (entries : list GoalEntry) (unit : option string) :
  Dashboard.points <$> Dashboard.renderNumericChart entries unit None
    = GoalDetail.points <$> GoalDetail.renderNumericChart entries
  ∧ Dashboard.minVal <$> Dashboard.renderNumericChart entries unit None
    = GoalDetail.minVal <$> GoalDetail.renderNumericChart entries
  ∧ Dashboard.maxVal <$> Dashboard.renderNumericChart entries unit None
    = GoalDetail.maxVal <$> GoalDetail.renderNumericChart entries
  ∧ (Dashboard.renderNumericChart entries unit None
       ≫= Dashboard.targetLine) = None
  ∧ (Dashboard.renderNumericChart entries unit None
       ≫= Dashboard.targetLabel) = None.
Proof.
  unfold Dashboard.renderNumericChart, GoalDetail.renderNumericChart.
  change (GoalDetail.numericEntries entries)
    with (filter (λ e, value e ≠ None) entries).
  destruct (length (filter (λ e, value e ≠ None) entries) =? 0)%nat; done.
Qed.

(** C10. A NaN target value is no target at all: the chart rendered for
    [targetValue = NaN] is the chart rendered for [targetValue = null]
    (same scale, same points, no target line, no target text).  The guard
    lets an infinite target through. *)
Theorem nan_target_is_no_target
    (entries : list GoalEntry) (unit : option string) :
  Dashboard.renderNumericChart entries unit (Some JS.NaN)
    = Dashboard.renderNumericChart entries unit None
  ∧ Dashboard.scaleMin (Dashboard.chartValues entries) (Some JS.NaN)
    = JS.min (Dashboard.chartValues entries)
  ∧ Dashboard.scaleMax (Dashboard.chartValues entries) (Some JS.NaN)
    = JS.max (Dashboard.chartValues entries)
  ∧ (Dashboard.renderNumericChart entries unit (Some JS.NaN)
       ≫= Dashboard.targetLine) = None
  ∧ Dashboard.hasTarget (Some JS.NaN) = false
  ∧ Dashboard.hasTarget (Some JS.PosInf) = true
  ∧ Dashboard.hasTarget (Some JS.NegInf) = true.
Proof.
  repeat split; try done.
  unfold Dashboard.renderNumericChart.
  by destruct (length (filter (λ e, value e ≠ None) entries) =? 0)%nat.
Qed.

Section ScaleFacts.

Import Dashboard.

Implicit Types a b : JS.number.

(** Closed equations between finite numbers are decided on the
    underlying fractions. *)
Lemma Fin_eq (p q : Qc) : (this p == this q)%Q → JS.Fin p = JS.Fin q.
Proof. intros H. f_equal. by apply Qc_is_canon. Qed.

Lemma sub_diag (v : Qc) : (JS.Fin v - JS.Fin v)%js = JS.ofZ 0.
Proof. unfold JS.sub, JS.ofZ. simpl. by rewrite Qcplus_opp_r, Z2Qc_inj_0. Qed.

Lemma sub_NaN_r a : (a - JS.NaN)%js = JS.NaN.
Proof. by destruct a. Qed.

Lemma or_one_truthy a : JS.truthy (a || JS.ofZ 1)%js = true.
Proof. unfold JS.or. by destruct (JS.truthy a) eqn:E. Qed.

Lemma or_zero a : a = JS.ofZ 0 → (a || JS.ofZ 1)%js = JS.ofZ 1.
Proof. intros ->. reflexivity. Qed.

(** The difference of two ordered numbers is NaN (two equal infinities),
    positive infinity, or a finite number that is not negative. *)
Lemma sub_ordered a b :
  JS.le b a = true →
  (a - b)%js = JS.NaN ∨ (a - b)%js = JS.PosInf
  ∨ ∃ q, (a - b)%js = JS.Fin q ∧ (0 <= q)%Qc.
Proof.
  destruct a as [| |p|], b as [| |q|]; unfold JS.le; simpl; try done; auto.
  intros H. right; right. exists (p + - q)%Qc. split; [done|].
  apply ->Qcle_minus_iff. apply Qcle_alt. by destruct (q ?= p)%Qc.
Qed.

Lemma or_one_positive a :
  (a = JS.NaN ∨ a = JS.PosInf ∨ ∃ q, a = JS.Fin q ∧ (0 <= q)%Qc) →
  JS.gt (a || JS.ofZ 1)%js (JS.ofZ 0) = true.
Proof.
  intros [->|[->|(q & -> & Hq)]]; try done.
  unfold JS.or, JS.truthy, JS.sgn.
  destruct (q ?= 0)%Qc eqn:E; try done.
  - apply (proj1 (Qcle_alt _ _)) in Hq.
    rewrite Qccompare_antisym, E in Hq. done.
  - unfold JS.gt, JS.lt, JS.ofZ. simpl.
    by rewrite Z2Qc_inj_0, Qccompare_antisym, E.
Qed.

Lemma noNaN_or_NaN (l : list JS.number) :
  noNaN l ∨ (JS.min l = JS.NaN ∧ JS.max l = JS.NaN).
Proof.
  induction l as [|a l [IH|[IH1 IH2]]].
  - left. constructor.
  - destruct (JS.isNaN a) eqn:E.
    + right. by destruct a.
    + left. by constructor.
  - right. simpl. rewrite IH1, IH2. by rewrite min2_NaN_r, max2_NaN_r.
Qed.

Lemma scale_ordered (values : list JS.number) t :
  noNaN values → JS.isNaN t = false →
  JS.le (scaleMin values (Some t)) t = true
  ∧ JS.le t (scaleMax values (Some t)) = true.
Proof.
  intros Hv Ht. unfold scaleMin, scaleMax. rewrite hasTarget_Some, Ht. simpl.
  split.
  - apply min2_le_r; [by apply min_notNaN|done].
  - apply max2_ge_r; [by apply max_notNaN|done].
Qed.

(** With a target in force the divisor is positive, whatever the values. *)
Lemma range_positive (values : list JS.number) t :
  JS.isNaN t = false → JS.gt (range values (Some t)) (JS.ofZ 0) = true.
Proof.
  intros Ht. unfold range. apply or_one_positive.
  destruct (noNaN_or_NaN values) as [Hv|[Hmin Hmax]].
  - apply sub_ordered.
    destruct (scale_ordered values t Hv Ht) as [H1 H2].
    by eapply le_trans.
  - left. unfold scaleMin at 1. rewrite hasTarget_Some, Ht, Hmin. simpl.
    apply sub_NaN_r.
Qed.

Lemma min_singleton a : JS.isNaN a = false → JS.min [a] = a.
Proof. by destruct a. Qed.

Lemma max_singleton a : JS.isNaN a = false → JS.max [a] = a.
Proof. by destruct a. Qed.

Lemma min_replicate (n : nat) (v : Qc) :
  JS.min (replicate (S n) (JS.Fin v)) = JS.Fin v.
Proof.
  induction n as [|n IH]; [done|].
  change (JS.min2 (JS.Fin v) (JS.min (replicate (S n) (JS.Fin v))) = JS.Fin v).
  rewrite IH. unfold JS.min2. simpl. by rewrite Qccompare_refl.
Qed.

Lemma max_replicate (n : nat) (v : Qc) :
  JS.max (replicate (S n) (JS.Fin v)) = JS.Fin v.
Proof.
  induction n as [|n IH]; [done|].
  change (JS.max2 (JS.Fin v) (JS.max (replicate (S n) (JS.Fin v))) = JS.Fin v).
  rewrite IH. unfold JS.max2. simpl. by rewrite Qccompare_refl.
Qed.

Lemma min2_diag (v : Qc) : JS.min2 (JS.Fin v) (JS.Fin v) = JS.Fin v.
Proof. unfold JS.min2. simpl. by rewrite Qccompare_refl. Qed.

Lemma max2_diag (v : Qc) : JS.max2 (JS.Fin v) (JS.Fin v) = JS.Fin v.
Proof. unfold JS.max2. simpl. by rewrite Qccompare_refl. Qed.

(** A value equal to the lower end of the scale plots on the bottom
    guide line, [y = height - paddingY]. *)
Lemma yOf_scaleMin (v : Qc) (r : JS.number) :
  JS.gt r (JS.ofZ 0) = true → JS.isFinite r = true →
  yOf (JS.Fin v) r (JS.Fin v) = JS.ofZ 108.
Proof.
  intros Hr Hf. unfold yOf. rewrite sub_diag.
  destruct r as [| |r|]; try done.
  unfold JS.gt, JS.lt, JS.ofZ in Hr. simpl in Hr.
  rewrite Z2Qc_inj_0 in Hr.
  unfold JS.div, JS.ofZ, JS.sgn. rewrite Qccompare_antisym.
  destruct (0 ?= r)%Qc eqn:E; try done. simpl.
  rewrite Z2Qc_inj_0.
  replace (0 / r)%Qc with 0%Qc by (unfold Qcdiv; ring).
  apply Fin_eq. vm_compute. reflexivity.
Qed.

End ScaleFacts.

Lemma fmap_y_imap {A} (g : nat → JS.number) (h : A → JS.number) (l : list A) :
  y <$> imap (λ idx e, mkPoint (g idx) (h e)) l = h <$> l.
Proof.
  revert g. induction l as [|a l IH]; intros g; [done|].
  cbn [imap fmap list_fmap]. f_equal. apply (IH (g ∘ S)).
Qed.

(** C3. With a target value in force (any number but NaN) the dashboard
    chart is drawn on the scale [scaleMin .. scaleMax] with
    [scaleMin = min(min(values), target)] and
    [scaleMax = max(max(values), target)]: the points and the target line
    are placed by the transform of that scale, with the divisor
    [scaleMax - scaleMin || 1].  For entry values other than NaN the
    scale contains the target and every entry value. *)
Theorem scale_contains_target_and_values
    (entries : list GoalEntry) (unit : option string) (t : JS.number) :
  let values := Dashboard.chartValues entries in
  let smin := JS.min2 (JS.min values) t in
  let smax := JS.max2 (JS.max values) t in
  let rng := ((smax - smin) || JS.ofZ 1)%js in
  noNaN values → JS.isNaN t = false →
  (Dashboard.numericEntries entries ≠ [] →
   ∃ c, Dashboard.renderNumericChart entries unit (Some t) = Some c
     ∧ y <$> Dashboard.points c
       = (λ e, Dashboard.yOf smin rng (JS.asNumber (value e)))
           <$> Dashboard.numericEntries entries
     ∧ Dashboard.targetY c = Some (Dashboard.yOf smin rng t))
  ∧ smin = Dashboard.scaleMin values (Some t)
  ∧ smax = Dashboard.scaleMax values (Some t)
  ∧ JS.le smin t = true ∧ JS.le t smax = true
  ∧ JS.le smin (JS.min values) = true
  ∧ JS.le (JS.max values) smax = true
  ∧ ∀ v, v ∈ values → JS.le smin v = true ∧ JS.le v smax = true.
Proof.
  intros values smin smax rng Hv Ht.
  assert (smin = Dashboard.scaleMin values (Some t)) as Hmin.
  { unfold Dashboard.scaleMin. by rewrite hasTarget_Some, Ht. }
  assert (smax = Dashboard.scaleMax values (Some t)) as Hmax.
  { unfold Dashboard.scaleMax. by rewrite hasTarget_Some, Ht. }
  assert (rng = Dashboard.range values (Some t)) as Hrng.
  { unfold Dashboard.range. by rewrite <- Hmin, <- Hmax. }
  destruct (scale_ordered values t Hv Ht) as [H1 H2].
  rewrite <- Hmin in H1. rewrite <- Hmax in H2.
  assert (JS.le smin (JS.min values) = true) as H3.
  { apply min2_le_l; [by apply min_notNaN|done]. }
  assert (JS.le (JS.max values) smax = true) as H4.
  { apply max2_ge_l; [by apply max_notNaN|done]. }
  split; [|repeat split; try done].
  - intros Hne. eexists. split; [by apply renderNumericChart_Some|].
    cbn [Dashboard.points Dashboard.targetY].
    rewrite hasTarget_Some, Ht, range_positive by done.
    cbn [negb andb JS.asNumber]. fold values. rewrite <- Hmin, <- Hrng.
    split; [apply fmap_y_imap|done].
  - eapply le_trans; [exact H3|]. by apply min_le_elem.
  - eapply le_trans; [|exact H4]. by apply max_ge_elem.
Qed.

Lemma scale_contains_target_and_values_witness :
  noNaN (Dashboard.chartValues entries_80_75_70)
  ∧ JS.isNaN (JS.ofZ 68) = false
  ∧ (∃ c, Dashboard.renderNumericChart entries_80_75_70 (Some "kg")
            (Some (JS.ofZ 68)) = Some c
        ∧ Dashboard.targetY c
          = Some (Dashboard.yOf
                    (JS.min2 (JS.min (Dashboard.chartValues entries_80_75_70))
                       (JS.ofZ 68))
                    ((JS.max2 (JS.max (Dashboard.chartValues entries_80_75_70))
                        (JS.ofZ 68)
                      - JS.min2 (JS.min (Dashboard.chartValues entries_80_75_70))
                          (JS.ofZ 68))
                     || JS.ofZ 1)%js
                    (JS.ofZ 68)))
  ∧ JS.le (JS.min2 (JS.min (Dashboard.chartValues entries_80_75_70))
             (JS.ofZ 68)) (JS.ofZ 68) = true
  ∧ JS.le (JS.ofZ 68)
          (JS.max2 (JS.max (Dashboard.chartValues entries_80_75_70))
             (JS.ofZ 68)) = true.
Proof.
  assert (noNaN (Dashboard.chartValues entries_80_75_70)) as H
    by (vm_compute; repeat constructor).
  split; [exact H|]. split; [reflexivity|].
  pose proof (scale_contains_target_and_values
                entries_80_75_70 (Some "kg") (JS.ofZ 68) H eq_refl)
    as (Hc & _ & _ & H1 & H2 & _).
  split; [|split; [exact H1|exact H2]].
  destruct Hc as (c & Hc & _ & Hty); [vm_compute; discriminate|].
  exists c. split; [exact Hc|exact Hty].
Defined.

(** C4. The divisor [range] of the chart is never zero (nor NaN): a zero
    difference of the scale bounds is replaced by 1.  That is what happens
    when all values are the same and the target is absent or equal to
    them: the chart then plots every point on the bottom guide line,
    [y = height - paddingY = 108], and a target equal to the values is
    drawn on that line.  A single numeric entry with no target is plotted
    at [(paddingX, height - paddingY) = (16, 108)]. *)
Theorem range_falls_back_to_one :
  (∀ values targetValue,
     JS.truthy (Dashboard.range values targetValue) = true)
  ∧ (∀ values targetValue,
       (Dashboard.scaleMax values targetValue
        - Dashboard.scaleMin values targetValue)%js = JS.ofZ 0 →
       Dashboard.range values targetValue = JS.ofZ 1)
  ∧ (∀ (n : nat) (v : Qc) targetValue,
       targetValue = None ∨ targetValue = Some (JS.Fin v) →
       Dashboard.range (replicate (S n) (JS.Fin v)) targetValue = JS.ofZ 1)
  ∧ (∀ entries unit e (v : Qc),
       Dashboard.numericEntries entries = [e] →
       value e = Some (JS.Fin v) →
       Dashboard.points <$> Dashboard.renderNumericChart entries unit None
       = Some [mkPoint (JS.ofZ 16) (JS.ofZ 108)])
  ∧ (∀ entries unit targetValue,
       Dashboard.numericEntries entries ≠ [] →
       let values := Dashboard.chartValues entries in
       let smin := Dashboard.scaleMin values targetValue in
       let smax := Dashboard.scaleMax values targetValue in
       let rng := ((smax - smin) || JS.ofZ 1)%js in
       JS.truthy rng = true
       ∧ ∃ c, Dashboard.renderNumericChart entries unit targetValue = Some c
           ∧ y <$> Dashboard.points c
             = (λ e, Dashboard.yOf smin rng (JS.asNumber (value e)))
                 <$> Dashboard.numericEntries entries)
  ∧ (∀ entries unit targetValue (n : nat) (v : Qc),
       Dashboard.chartValues entries = replicate (S n) (JS.Fin v) →
       targetValue = None ∨ targetValue = Some (JS.Fin v) →
       ∃ c, Dashboard.renderNumericChart entries unit targetValue = Some c
         ∧ y <$> Dashboard.points c = replicate (S n) (JS.ofZ 108)
         ∧ (targetValue = Some (JS.Fin v) →
            Dashboard.targetY c = Some (JS.ofZ 108)
            ∧ Dashboard.targetLine c = Some (JS.ofZ 108))).
Proof.
  assert (∀ (n : nat) (v : Qc) targetValue,
       targetValue = None ∨ targetValue = Some (JS.Fin v) →
       Dashboard.scaleMin (replicate (S n) (JS.Fin v)) targetValue = JS.Fin v
       ∧ Dashboard.range (replicate (S n) (JS.Fin v)) targetValue = JS.ofZ 1)
    as Same.
  { intros n v targetValue H.
    assert (Dashboard.scaleMin (replicate (S n) (JS.Fin v)) targetValue
            = JS.Fin v
            ∧ Dashboard.scaleMax (replicate (S n) (JS.Fin v)) targetValue
              = JS.Fin v) as [Hmin Hmax].
    { unfold Dashboard.scaleMax, Dashboard.scaleMin.
      rewrite min_replicate, max_replicate.
      destruct H as [->| ->]; cbn [Dashboard.hasTarget JS.isNumber andb];
        [done|].
      cbn [JS.asNumber JS.isNaN negb]. by rewrite min2_diag, max2_diag. }
    split; [done|]. unfold Dashboard.range. apply or_zero.
    rewrite Hmin, Hmax. apply sub_diag. }
  split; [|split; [|split; [|split; [|split]]]].
  - intros values targetValue. apply or_one_truthy.
  - intros values targetValue H. unfold Dashboard.range. by rewrite H.
  - intros n v targetValue H. by apply Same.
  - intros entries unit e v Hn Hv.
    rewrite renderNumericChart_Some by (by rewrite Hn).
    unfold Dashboard.chartValues. rewrite Hn.
    cbn [fmap option_fmap option_map Dashboard.points imap map length].
    rewrite Hv. cbn [JS.asNumber].
    destruct (Same 0%nat v None) as [Hmin Hrng]; [by left|].
    cbn [replicate] in Hmin, Hrng. rewrite Hmin, Hrng.
    rewrite yOf_scaleMin by done.
    do 3 f_equal. apply Fin_eq. vm_compute. reflexivity.
  - intros entries unit targetValue Hne values smin smax rng.
    split; [apply or_one_truthy|].
    eexists. split; [by apply renderNumericChart_Some|].
    cbn [Dashboard.points]. apply fmap_y_imap.
  - intros entries unit targetValue n v Hvals Htarget.
    assert (Dashboard.numericEntries entries ≠ []) as Hne.
    { intros E. unfold Dashboard.chartValues in Hvals. by rewrite E in Hvals. }
    destruct (Same n v targetValue Htarget) as [Hmin Hrng].
    assert (Dashboard.yOf (JS.Fin v) (JS.ofZ 1) (JS.Fin v) = JS.ofZ 108)
      as Hy by (by apply yOf_scaleMin).
    eexists. split; [by apply renderNumericChart_Some|].
    cbn [Dashboard.points Dashboard.targetY Dashboard.targetLine].
    rewrite Hvals, Hmin, Hrng. split.
    + rewrite fmap_y_imap.
      transitivity (Dashboard.yOf (JS.Fin v) (JS.ofZ 1)
                    <$> Dashboard.chartValues entries).
      { unfold Dashboard.chartValues. by rewrite <- list_fmap_compose. }
      rewrite Hvals, fmap_replicate. by rewrite Hy.
    + intros ->. cbn [Dashboard.hasTarget JS.isNumber JS.asNumber JS.isNaN
                      negb andb].
      rewrite Hy. done.
Qed.

Lemma range_falls_back_to_one_witness :
  Dashboard.chartValues entries_70_70_70 = replicate 3 (JS.ofZ 70)
  ∧ ∃ c, Dashboard.renderNumericChart entries_70_70_70 (Some "kg")
           (Some (JS.ofZ 70)) = Some c
       ∧ y <$> Dashboard.points c = replicate 3 (JS.ofZ 108)
       ∧ Dashboard.targetLine c = Some (JS.ofZ 108).
Proof.
  split; [reflexivity|].
  destruct range_falls_back_to_one as (_ & _ & _ & _ & _ & H).
  destruct (H entries_70_70_70 (Some "kg") (Some (JS.ofZ 70)) 2%nat
              (Qc_of_Z 70) eq_refl (or_intror eq_refl))
    as (c & Hc & Hy & Ht).
  exists c. split; [exact Hc|]. split; [exact Hy|]. by apply Ht.
Defined.

(** C5. With a target value in force (any number but NaN) and something
    to plot, the chart computes [targetY] by the transform that places
    the points, and draws the target line exactly when
    [paddingY <= targetY <= height - paddingY].  For the target 68 and the
    values 80, 75, 70 the scale is 68..80, the divisor 12, and the line is
    drawn on the bottom guide, [y = height - paddingY = 108]. *)
Theorem target_line_gate :
  (∀ entries unit t,
     Dashboard.numericEntries entries ≠ [] → JS.isNaN t = false →
     let values := Dashboard.chartValues entries in
     let smin := Dashboard.scaleMin values (Some t) in
     let rng := Dashboard.range values (Some t) in
     let ty := Dashboard.yOf smin rng t in
     ∃ c, Dashboard.renderNumericChart entries unit (Some t) = Some c
       ∧ y <$> Dashboard.points c
         = (λ e, Dashboard.yOf smin rng (JS.asNumber (value e)))
             <$> Dashboard.numericEntries entries
       ∧ Dashboard.targetY c = Some ty
       ∧ Dashboard.targetLine c
         = (if JS.ge ty (JS.ofZ 12) && JS.le ty (JS.ofZ 120 - JS.ofZ 12)%js
            then Some ty else None))
  ∧ (∀ entries unit,
       Dashboard.chartValues entries = [JS.ofZ 80; JS.ofZ 75; JS.ofZ 70] →
       let values := Dashboard.chartValues entries in
       Dashboard.scaleMin values (Some (JS.ofZ 68)) = JS.ofZ 68
       ∧ Dashboard.scaleMax values (Some (JS.ofZ 68)) = JS.ofZ 80
       ∧ Dashboard.range values (Some (JS.ofZ 68)) = JS.ofZ 12
       ∧ (JS.ofZ 120 - JS.ofZ 12)%js = JS.ofZ 108
       ∧ ∃ c, Dashboard.renderNumericChart entries unit (Some (JS.ofZ 68))
              = Some c
           ∧ Dashboard.targetY c = Some (JS.ofZ 108)
           ∧ Dashboard.targetLine c = Some (JS.ofZ 108)).
Proof.
  assert (∀ entries unit t,
     Dashboard.numericEntries entries ≠ [] → JS.isNaN t = false →
     let values := Dashboard.chartValues entries in
     let smin := Dashboard.scaleMin values (Some t) in
     let rng := Dashboard.range values (Some t) in
     let ty := Dashboard.yOf smin rng t in
     ∃ c, Dashboard.renderNumericChart entries unit (Some t) = Some c
       ∧ y <$> Dashboard.points c
         = (λ e, Dashboard.yOf smin rng (JS.asNumber (value e)))
             <$> Dashboard.numericEntries entries
       ∧ Dashboard.targetY c = Some ty
       ∧ Dashboard.targetLine c
         = (if JS.ge ty (JS.ofZ 12) && JS.le ty (JS.ofZ 120 - JS.ofZ 12)%js
            then Some ty else None)) as General.
  { intros entries unit t Hne Ht values smin rng ty.
    eexists. split; [by apply renderNumericChart_Some|].
    cbn [Dashboard.points Dashboard.targetY Dashboard.targetLine].
    rewrite hasTarget_Some, Ht, range_positive by done.
    cbn [negb andb JS.asNumber].
    split; [apply fmap_y_imap|done]. }
  split; [exact General|].
  intros entries unit Hvals values.
  assert (Dashboard.numericEntries entries ≠ []) as Hne.
  { intros E. unfold Dashboard.chartValues in Hvals. by rewrite E in Hvals. }
  destruct (General entries unit (JS.ofZ 68) Hne eq_refl)
    as (c & Hc & _ & Hty & Hline).
  fold values in Hty, Hline. unfold values in *. rewrite Hvals in *.
  assert (Dashboard.scaleMin [JS.ofZ 80; JS.ofZ 75; JS.ofZ 70]
            (Some (JS.ofZ 68)) = JS.ofZ 68) as Hmin
    by (vm_compute; apply Fin_eq; reflexivity).
  assert (Dashboard.range [JS.ofZ 80; JS.ofZ 75; JS.ofZ 70]
            (Some (JS.ofZ 68)) = JS.ofZ 12) as Hrng
    by (vm_compute; apply Fin_eq; reflexivity).
  assert (Dashboard.yOf (JS.ofZ 68) (JS.ofZ 12) (JS.ofZ 68) = JS.ofZ 108)
    as Hy by (by apply yOf_scaleMin).
  rewrite Hmin, Hrng, Hy in Hty, Hline.
  split; [exact Hmin|].
  split; [vm_compute; apply Fin_eq; reflexivity|].
  split; [exact Hrng|].
  split; [vm_compute; apply Fin_eq; reflexivity|].
  exists c. split; [exact Hc|]. split; [exact Hty|].
  rewrite Hline. reflexivity.
Qed.

(** The chart of the values 80, 75, 70 with the target 68: the points
    run from the top guide down, the target line lies on the bottom
    guide, the labels are those of the data. *)
Example chart_80_75_70 :
  Dashboard.renderNumericChart entries_80_75_70 (Some "kg") (Some (JS.ofZ 68))
  = Some (Dashboard.mkChart (JS.ofZ 70) (JS.ofZ 80) (Some "kg")
            (Some (JS.ofZ 68))
            [ mkPoint (JS.ofZ 16) (JS.ofZ 12);
              mkPoint (JS.ofZ 160) (JS.ofZ 52);
              mkPoint (JS.ofZ 304) (JS.ofZ 92) ]
            (Some (JS.ofZ 108)) (Some (JS.ofZ 108))).
Proof.
  vm_compute.
  repeat first [ apply Fin_eq; vm_compute; reflexivity | progress f_equal ].
Qed.

Lemma target_line_gate_witness :
  Dashboard.numericEntries entries_80_75_70 ≠ []
  ∧ JS.isNaN (JS.ofZ 68) = false
  ∧ Dashboard.chartValues entries_80_75_70
    = [JS.ofZ 80; JS.ofZ 75; JS.ofZ 70]
  ∧ (∃ c, Dashboard.renderNumericChart entries_80_75_70 (Some "kg")
            (Some (JS.ofZ 68)) = Some c
        ∧ Dashboard.targetY c
          = Some (Dashboard.yOf
                    (Dashboard.scaleMin
                       (Dashboard.chartValues entries_80_75_70)
                       (Some (JS.ofZ 68)))
                    (Dashboard.range
                       (Dashboard.chartValues entries_80_75_70)
                       (Some (JS.ofZ 68)))
                    (JS.ofZ 68)))
  ∧ (∃ c, Dashboard.renderNumericChart entries_80_75_70 (Some "kg")
            (Some (JS.ofZ 68)) = Some c
        ∧ Dashboard.targetY c = Some (JS.ofZ 108)
        ∧ Dashboard.targetLine c = Some (JS.ofZ 108)).
Proof.
  assert (Dashboard.numericEntries entries_80_75_70 ≠ []) as Hne
    by (vm_compute; discriminate).
  destruct target_line_gate as [General Scenario].
  split; [exact Hne|]. split; [reflexivity|]. split; [reflexivity|]. split.
  - destruct (General entries_80_75_70 (Some "kg") (JS.ofZ 68) Hne eq_refl)
      as (c & Hc & _ & Hty & _).
    exists c. split; [exact Hc|exact Hty].
  - destruct (Scenario entries_80_75_70 (Some "kg") eq_refl)
      as (_ & _ & _ & _ & Hc).
    exact Hc.
Defined.

(** C7. The Min and Max labels are the least and the greatest entry
    value, whatever the target value is: they are the labels of the chart
    rendered without a target.  A target below the least value (above the
    greatest) becomes the lower (upper) end of the plotting scale, which
    then differs from the label. *)
Theorem labels_are_entry_min_max
    (entries : list GoalEntry) (unit : option string)
    (targetValue : option JS.number) (c : Dashboard.Chart) :
  Dashboard.renderNumericChart entries unit targetValue = Some c →
  let values := Dashboard.chartValues entries in
  Dashboard.minVal c = JS.min values
  ∧ Dashboard.maxVal c = JS.max values
  ∧ Dashboard.minVal <$> Dashboard.renderNumericChart entries unit None
    = Some (Dashboard.minVal c)
  ∧ Dashboard.maxVal <$> Dashboard.renderNumericChart entries unit None
    = Some (Dashboard.maxVal c)
  ∧ (∀ t, targetValue = Some t → JS.lt t (Dashboard.minVal c) = true →
       Dashboard.scaleMin values targetValue = t
       ∧ Dashboard.scaleMin values targetValue ≠ Dashboard.minVal c)
  ∧ (∀ t, targetValue = Some t → JS.lt (Dashboard.maxVal c) t = true →
       Dashboard.scaleMax values targetValue = t
       ∧ Dashboard.scaleMax values targetValue ≠ Dashboard.maxVal c).
Proof.
  intros Hc values.
  assert (Dashboard.numericEntries entries ≠ []) as Hne.
  { intros E. by rewrite renderNumericChart_None in Hc. }
  rewrite renderNumericChart_Some in Hc by done.
  injection Hc as <-. cbn [Dashboard.minVal Dashboard.maxVal].
  rewrite renderNumericChart_Some by done.
  cbn [fmap option_fmap option_map Dashboard.minVal Dashboard.maxVal].
  fold values.
  split; [done|]. split; [done|]. split; [done|]. split; [done|].
  split.
  - intros t -> Hlt.
    destruct (lt_notNaN _ _ Hlt) as [Ht Hm].
    unfold Dashboard.scaleMin. rewrite hasTarget_Some, Ht.
    cbn [negb JS.asNumber].
    assert (JS.min2 (JS.min values) t = t) as ->.
    { unfold JS.min2. rewrite compare_antisym.
      unfold JS.lt in Hlt.
      by destruct (JS.compare t (JS.min values)) as [[]|]. }
    split; [done|]. intros ->.
    unfold JS.lt in Hlt. by rewrite compare_refl in Hlt.
  - intros t -> Hlt.
    destruct (lt_notNaN _ _ Hlt) as [Hm Ht].
    unfold Dashboard.scaleMax. rewrite hasTarget_Some, Ht.
    cbn [negb JS.asNumber].
    assert (JS.max2 (JS.max values) t = t) as ->.
    { unfold JS.max2. unfold JS.lt in Hlt.
      by destruct (JS.compare (JS.max values) t) as [[]|]. }
    split; [done|]. intros ->.
    unfold JS.lt in Hlt. by rewrite compare_refl in Hlt.
Qed.

Lemma labels_are_entry_min_max_witness :
  ∃ c, Dashboard.renderNumericChart entries_80_75_70 (Some "kg")
         (Some (JS.ofZ 68)) = Some c
     ∧ Dashboard.minVal c = JS.ofZ 70
     ∧ Dashboard.maxVal c = JS.ofZ 80
     ∧ JS.lt (JS.ofZ 68) (Dashboard.minVal c) = true
     ∧ Dashboard.scaleMin (Dashboard.chartValues entries_80_75_70)
         (Some (JS.ofZ 68)) = JS.ofZ 68
     ∧ Dashboard.scaleMin (Dashboard.chartValues entries_80_75_70)
         (Some (JS.ofZ 68)) ≠ Dashboard.minVal c.
Proof.
  destruct (Dashboard.renderNumericChart entries_80_75_70 (Some "kg")
              (Some (JS.ofZ 68))) as [c|] eqn:Hc;
    [|vm_compute in Hc; discriminate Hc].
  exists c.
  destruct (labels_are_entry_min_max _ _ _ _ Hc)
    as (Hmin & Hmax & _ & _ & Hlow & _).
  assert (JS.lt (JS.ofZ 68) (Dashboard.minVal c) = true) as Hlt
    by (rewrite Hmin; reflexivity).
  destruct (Hlow (JS.ofZ 68) eq_refl Hlt) as [H1 H2].
  split; [reflexivity|]. split; [rewrite Hmin; reflexivity|].
  split; [rewrite Hmax; reflexivity|]. split; [exact Hlt|].
  split; [exact H1|exact H2].
Defined.

(** ** Sorting with a consistent comparator *)

Section SortFacts.

Context {A : Type} (cmp : A → A → Z).
Hypothesis Hcmp : Array.Consistent cmp.

Local Abbreviation before := (Array.before cmp).

Lemma before_refl a : before a a.
Proof.
  unfold Array.before. destruct (Z_lt_le_dec 0 (cmp a a)) as [H|H]; [|done].
  by apply (Array.cmp_flip cmp Hcmp).
Qed.

Lemma insert_perm x l : Array.insert cmp x l ≡ₚ x :: l.
Proof.
  induction l as [|z l IH]; [done|]. simpl.
  destruct (0 <? cmp x z); [|done].
  rewrite IH. apply Permutation_swap.
Qed.

Lemma sort_perm l : Array.sort cmp l ≡ₚ l.
Proof.
  induction l as [|a l IH]; [done|].
  unfold Array.sort in *. simpl. rewrite insert_perm. by rewrite IH.
Qed.

Lemma insert_sorted x l :
  StronglySorted before l → StronglySorted before (Array.insert cmp x l).
Proof.
  induction 1 as [|z l Hl IH Hz]; simpl.
  - repeat constructor.
  - destruct (Z.ltb_spec 0 (cmp x z)) as [Hlt|Hge].
    + constructor; [done|].
      rewrite insert_perm. constructor; [|done].
      by apply (Array.cmp_flip cmp Hcmp).
    + constructor; [by constructor|].
      constructor; [done|].
      eapply Forall_impl; [exact Hz|].
      intros w Hw. by apply (Array.cmp_trans cmp Hcmp x z w).
Qed.

Lemma sort_sorted l : StronglySorted before (Array.sort cmp l).
Proof.
  induction l as [|a l IH]; [constructor|]. by apply insert_sorted.
Qed.

(** An element that may stand in front of all others is put first. *)
Lemma insert_front x l :
  Forall (before x) l → Array.insert cmp x l = x :: l.
Proof.
  destruct 1 as [|z l Hz _]; [done|]. simpl.
  unfold Array.before in Hz.
  by destruct (Z.ltb_spec 0 (cmp x z)); [lia|].
Qed.

(** An element that compares greater than all others is put last. *)
Lemma insert_back x l :
  Forall (λ z, 0 < cmp x z) l → Array.insert cmp x l = l ++ [x].
Proof.
  induction 1 as [|z l Hz _ IH]; [done|]. simpl.
  destruct (Z.ltb_spec 0 (cmp x z)); [|lia]. by rewrite IH.
Qed.

(** Selecting elements commutes with the stable sort. *)
Lemma filter_insert (P : A → Prop) `{!∀ a, Decision (P a)} x l :
  StronglySorted before l →
  filter P (Array.insert cmp x l)
  = if decide (P x) then Array.insert cmp x (filter P l) else filter P l.
Proof.
  induction 1 as [|z l Hl IH Hz]; simpl.
  - rewrite filter_cons. by destruct (decide (P x)).
  - destruct (Z.ltb_spec 0 (cmp x z)) as [Hlt|Hge].
    + rewrite !(filter_cons _ z), IH.
      destruct (decide (P x)), (decide (P z)); try done.
      simpl. by destruct (Z.ltb_spec 0 (cmp x z)); [|lia].
    + rewrite (filter_cons _ x).
      destruct (decide (P x)); [|done].
      rewrite insert_front; [done|].
      apply Forall_forall. intros w Hw.
      apply list_elem_of_filter in Hw as [_ Hw].
      apply elem_of_cons in Hw as [->|Hw]; [done|].
      apply (Array.cmp_trans cmp Hcmp x z w); [done|].
      by eapply Forall_forall in Hz.
Qed.

Lemma filter_sort (P : A → Prop) `{!∀ a, Decision (P a)} l :
  filter P (Array.sort cmp l) = Array.sort cmp (filter P l).
Proof.
  induction l as [|a l IH]; [done|].
  change (Array.sort cmp (a :: l))
    with (Array.insert cmp a (Array.sort cmp l)).
  rewrite filter_insert by apply sort_sorted.
  rewrite filter_cons, IH. by destruct (decide (P a)).
Qed.

(** The first element of the sorted array may stand in front of every
    element of the array. *)
Lemma sort_head l h :
  head (Array.sort cmp l) = Some h → h ∈ l ∧ ∀ e, e ∈ l → before h e.
Proof.
  intros Hh. apply head_Some in Hh as [t Ht].
  pose proof (sort_sorted l) as Hs. pose proof (sort_perm l) as Hp.
  rewrite Ht in Hs, Hp. split.
  - rewrite <- Hp. by left.
  - intros e He. rewrite <- Hp in He.
    apply elem_of_cons in He as [->|He]; [apply before_refl|].
    apply StronglySorted_inv in Hs as [_ Hs].
    by eapply Forall_forall in Hs.
Qed.

End SortFacts.

(** ** The aggregator *)

Section AggregatorFacts.

Import Dashboard.

Lemma compareEntries_same a b :
  GoalDetail.compareEntries a b = compareEntries a b.
Proof. done. Qed.

Lemma compareEntries_le a b : compareEntries a b ≤ 0 ↔ newerOrSame a b.
Proof.
  unfold compareEntries, newerOrSame, Date.parseDate, Date.msPerDay.
  destruct (Z.eqb_spec (entry_date a) (entry_date b)); lia.
Qed.

Lemma compareEntries_gt a b : 0 < compareEntries a b ↔ strictlyOlder a b.
Proof.
  unfold compareEntries, strictlyOlder, Date.parseDate, Date.msPerDay.
  destruct (Z.eqb_spec (entry_date a) (entry_date b)); lia.
Qed.

Lemma compareEntries_consistent : Array.Consistent compareEntries.
Proof.
  split.
  - intros a b c. rewrite !compareEntries_le. unfold newerOrSame. lia.
  - intros a b. rewrite compareEntries_le, compareEntries_gt.
    unfold newerOrSame, strictlyOlder. lia.
Qed.

(** The second [forEach] leaves, for each goal, the first of its entries
    in the order it runs through. *)
Lemma foldl_setLatest (l : list GoalEntry) (m : gmap string GoalEntry) g :
  foldl setLatest m l !! g
  = match m !! g with
    | Some e => Some e
    | None => head (filter (λ e, goal_id e = g) l)
    end.
Proof.
  revert m. induction l as [|e l IH]; intros m; simpl.
  - by destruct (m !! g).
  - rewrite IH. unfold setLatest. rewrite filter_cons.
    destruct (decide (goal_id e = g)) as [<-|Hne].
    + destruct (m !! goal_id e) eqn:E; [by rewrite E|].
      by rewrite lookup_insert_eq.
    + destruct (m !! goal_id e) eqn:E; [done|].
      by rewrite lookup_insert_ne.
Qed.

(** The first [forEach] collects, for each goal, its entries in the order
    it runs through. *)
Lemma foldl_pushEntry (l : list GoalEntry)
    (m : gmap string (list GoalEntry)) g :
  default [] (foldl pushEntry m l !! g)
  = default [] (m !! g) ++ filter (λ e, goal_id e = g) l.
Proof.
  revert m. induction l as [|e l IH]; intros m; simpl.
  - by rewrite app_nil_r.
  - rewrite IH. unfold pushEntry. rewrite filter_cons.
    destruct (decide (goal_id e = g)) as [<-|Hne].
    + rewrite lookup_insert_eq. simpl. by rewrite <- app_assoc.
    + by rewrite lookup_insert_ne.
Qed.

Lemma getDashboardData_ok supabase goalRows entryRows :
  selectGoals supabase = mkResponse (Some goalRows) None →
  goalRows ≠ [] →
  selectEntries supabase (map g_id goalRows)
    = mkResponse (Some entryRows) None →
  getDashboardData supabase
  = mkData goalRows
      (foldl setLatest ∅ (Array.sort compareEntries entryRows))
      (foldl pushEntry ∅ entryRows).
Proof.
  intros Hg Hne He. unfold getDashboardData. rewrite Hg. simpl.
  destruct goalRows; [done|]. simpl. simpl in He. by rewrite He.
Qed.

(** Rows in query order with pairwise different dates are strictly
    ascending. *)
Lemma queryOrdered_strict (l : list GoalEntry) :
  queryOrdered l → NoDup (entry_date <$> l) →
  StronglySorted strictlyOlder l.
Proof.
  induction 1 as [|a l Hl IH Ha]; intros Hnd; [constructor|].
  rewrite fmap_cons in Hnd. apply NoDup_cons in Hnd as [Hnin Hnd].
  constructor; [by apply IH|].
  apply Forall_forall. intros b Hb.
  assert (entry_date a ≠ entry_date b) as Hne.
  { intros E. apply Hnin. rewrite E. by apply list_elem_of_fmap_2. }
  eapply Forall_forall in Ha; [|exact Hb].
  unfold queryOrder in Ha. unfold strictlyOlder. lia.
Qed.

(** Sorting newest-first a strictly ascending array reverses it. *)
Lemma sort_strictly_ascending (l : list GoalEntry) :
  StronglySorted strictlyOlder l →
  Array.sort compareEntries l = reverse l.
Proof.
  induction 1 as [|a l Hl IH Ha]; [done|].
  change (Array.sort compareEntries (a :: l))
    with (Array.insert compareEntries a (Array.sort compareEntries l)).
  rewrite IH, reverse_cons. apply insert_back.
  apply Forall_reverse. eapply Forall_impl; [exact Ha|].
  intros b Hb. by apply compareEntries_gt.
Qed.

End AggregatorFacts.

(** C1. For each goal with entries, the dashboard's latest entry is the
    first entry of the History list that the goal-detail page shows for
    the goal's entries; it is an entry of the goal that no other is newer
    than ([entry_date] first, [created_at] on equal dates).  For a goal
    without entries there is no latest entry, the summary reads
    "No entries yet" and the History section shows its empty state. *)
Theorem latest_is_first_of_history
    (supabase : Store) (goalRows : list Goal) (entryRows : list GoalEntry)
    (g : string) :
  selectGoals supabase = mkResponse (Some goalRows) None →
  goalRows ≠ [] →
  selectEntries supabase (map g_id goalRows)
    = mkResponse (Some entryRows) None →
  let mine := filter (λ e, goal_id e = g) entryRows in
  let latest :=
    Dashboard.latestEntriesByGoal (Dashboard.getDashboardData supabase) !! g in
  (mine ≠ [] →
     ∃ first rest,
       GoalDetail.history mine = Some (first :: rest)
       ∧ latest = Some first
       ∧ first ∈ mine
       ∧ ∀ e, e ∈ mine → newerOrSame first e)
  ∧ (mine = [] →
       latest = None
       ∧ GoalDetail.history mine = None
       ∧ ∀ fmtDate fmtNumber trackerType unit,
           Dashboard.formatLatestSummary fmtDate fmtNumber trackerType
             latest unit = "No entries yet").
Proof.
  intros Hg Hne He mine latest.
  assert (latest = head (Array.sort Dashboard.compareEntries mine)) as Hl.
  { unfold latest. rewrite (getDashboardData_ok _ _ _ Hg Hne He). simpl.
    rewrite foldl_setLatest, lookup_empty.
    by rewrite (filter_sort _ compareEntries_consistent). }
  split.
  - intros Hmine.
    destruct (Array.sort Dashboard.compareEntries mine) as [|first rest] eqn:E.
    { pose proof (sort_perm Dashboard.compareEntries mine) as Hp.
      rewrite E in Hp. apply Permutation_nil_l in Hp. by symmetry in Hp. }
    exists first, rest.
    destruct (sort_head _ compareEntries_consistent mine first) as [Hin Hmax].
    { by rewrite E. }
    split; [|split; [by rewrite Hl|split; [done|]]].
    + unfold GoalDetail.history.
      change GoalDetail.compareEntries with Dashboard.compareEntries.
      rewrite E. by destruct mine.
    + intros e Hin'. apply compareEntries_le. by apply Hmax.
  - intros Hmine. rewrite Hl, Hmine. by repeat split.
Qed.

Lemma latest_is_first_of_history_witness :
  selectGoals (storeOf entries_same_day) = mkResponse (Some [goal_1]) None
  ∧ [goal_1] ≠ []
  ∧ selectEntries (storeOf entries_same_day) (map g_id [goal_1])
    = mkResponse (Some entries_same_day) None
  ∧ filter (λ e, goal_id e = "goal-1") entries_same_day ≠ []
  ∧ ∃ first rest,
      GoalDetail.history (filter (λ e, goal_id e = "goal-1") entries_same_day)
        = Some (first :: rest)
      ∧ Dashboard.latestEntriesByGoal
          (Dashboard.getDashboardData (storeOf entries_same_day)) !! "goal-1"
        = Some first.
Proof.
  assert (filter (λ e, goal_id e = "goal-1") entries_same_day ≠ []) as Hne
    by (vm_compute; discriminate).
  split; [reflexivity|]. split; [discriminate|]. split; [reflexivity|].
  split; [exact Hne|].
  destruct (latest_is_first_of_history (storeOf entries_same_day)
              [goal_1] entries_same_day "goal-1" eq_refl
              ltac:(discriminate) eq_refl) as [H _].
  destruct (H Hne) as (first & rest & H1 & H2 & _).
  exists first, rest. split; [exact H1|exact H2].
Defined.

Lemma StronglySorted_filter {A} (R : relation A) (P : A → Prop)
    `{!∀ a, Decision (P a)} (l : list A) :
  StronglySorted R l → StronglySorted R (filter P l).
Proof.
  induction 1 as [|a l Hl IH Ha]; [constructor|].
  rewrite filter_cons. destruct (decide (P a)); [|done].
  constructor; [done|].
  apply Forall_forall. intros b Hb.
  apply list_elem_of_filter in Hb as [_ Hb].
  by eapply Forall_forall in Ha.
Qed.

Lemma entriesByGoal_filter supabase goalRows entryRows g :
  selectGoals supabase = mkResponse (Some goalRows) None →
  goalRows ≠ [] →
  selectEntries supabase (map g_id goalRows)
    = mkResponse (Some entryRows) None →
  default [] (Dashboard.entriesByGoal (Dashboard.getDashboardData supabase)
                !! g)
  = filter (λ e, goal_id e = g) entryRows.
Proof.
  intros Hg Hne He. rewrite (getDashboardData_ok _ _ _ Hg Hne He). simpl.
  by rewrite foldl_pushEntry, lookup_empty.
Qed.

(** In a sorted list, an element that may not stand behind another one
    stands in front of it. *)
Lemma sorted_positions {A} (R : relation A) (l : list A) (i j : nat) (x y : A) :
  StronglySorted R l →
  l !! i = Some x → l !! j = Some y → ¬ R y x → x ≠ y → (i < j)%nat.
Proof.
  intros Hl. revert i j. induction Hl as [|a l Hl IH Ha]; intros i j Hi Hj Hn Hne.
  { by rewrite lookup_nil in Hi. }
  destruct i as [|i], j as [|j]; simpl in Hi, Hj.
  - congruence.
  - lia.
  - injection Hj as ->. exfalso. apply Hn.
    eapply Forall_forall in Ha; [exact Ha|]. by eapply list_elem_of_lookup_2.
  - apply ->Nat.succ_lt_mono. by apply IH.
Qed.

(** C2. The entries a goal's chart is drawn from are the goal's rows in
    query order ([entry_date], then [created_at], ascending), and the
    chart plots its points from their numeric part in that order.  When
    the dates are pairwise different, the History list of the same
    entries is that array reversed, and so is its numeric part.  Of two
    entries of one day, the earlier-created one comes first in what the
    dashboard groups and charts, and the later-created one comes first in
    the History; a goal with just two such entries is charted
    [earlier; later] and listed [later; earlier]. *)
Theorem trend_order_is_reverse_of_history
    (supabase : Store) (goalRows : list Goal) (entryRows : list GoalEntry)
    (g : string) :
  selectGoals supabase = mkResponse (Some goalRows) None →
  goalRows ≠ [] →
  selectEntries supabase (map g_id goalRows)
    = mkResponse (Some entryRows) None →
  queryOrdered entryRows →
  let mine :=
    default [] (Dashboard.entriesByGoal
                  (Dashboard.getDashboardData supabase) !! g) in
  let trend := Dashboard.numericEntries mine in
  queryOrdered mine
  ∧ queryOrdered trend
  ∧ (∀ unit targetValue c,
       Dashboard.renderNumericChart mine unit targetValue = Some c →
       y <$> Dashboard.points c
       = (λ e, Dashboard.yOf
                 (Dashboard.scaleMin (Dashboard.chartValues mine) targetValue)
                 (Dashboard.range (Dashboard.chartValues mine) targetValue)
                 (JS.asNumber (value e))) <$> trend)
  ∧ (mine ≠ [] → NoDup (entry_date <$> mine) →
     ∃ hist, GoalDetail.history mine = Some hist
         ∧ mine = reverse hist
         ∧ trend = reverse (Dashboard.numericEntries hist))
  ∧ (∀ a b : GoalEntry,
       a ∈ mine → b ∈ mine →
       entry_date a = entry_date b → created_at a < created_at b →
       ∃ hist, GoalDetail.history mine = Some hist
         ∧ a ∈ hist ∧ b ∈ hist
         ∧ (value a ≠ None → a ∈ trend)
         ∧ (value b ≠ None → b ∈ trend)
         ∧ (∀ i j, mine !! i = Some a → mine !! j = Some b → (i < j)%nat)
         ∧ (∀ i j, trend !! i = Some a → trend !! j = Some b → (i < j)%nat)
         ∧ (∀ i j, hist !! i = Some a → hist !! j = Some b → (j < i)%nat))
  ∧ (∀ a b : GoalEntry,
       mine = [a; b] →
       entry_date a = entry_date b → created_at a ≠ created_at b →
       created_at a < created_at b
       ∧ GoalDetail.history mine = Some [b; a]
       ∧ (value a ≠ None → value b ≠ None → trend = [a; b])).
Proof.
  intros Hg Hne He Hq mine trend.
  assert (mine = filter (λ e, goal_id e = g) entryRows) as Hf
    by by apply (entriesByGoal_filter supabase goalRows).
  assert (queryOrdered mine) as Hqm.
  { rewrite Hf. by apply StronglySorted_filter. }
  assert (queryOrdered trend) as Hqt by by apply StronglySorted_filter.
  assert (∀ a b, entry_date a = entry_date b → created_at a < created_at b →
                 ¬ queryOrder b a ∧ ¬ newerOrSame a b ∧ a ≠ b) as Hab.
  { intros a b Hd Hc. unfold queryOrder, newerOrSame.
    repeat split; [lia|lia|]. intros ->. lia. }
  split; [done|]. split; [done|]. split; [|split; [|split]].
  - intros unit targetValue c Hc.
    assert (Dashboard.numericEntries mine ≠ []) as Hn.
    { intros E. by rewrite renderNumericChart_None in Hc. }
    rewrite renderNumericChart_Some in Hc by done.
    injection Hc as <-. cbn [Dashboard.points]. apply fmap_y_imap.
  - intros Hmine Hnd. exists (reverse mine). split; [|split].
    + unfold GoalDetail.history.
      change GoalDetail.compareEntries with Dashboard.compareEntries.
      rewrite sort_strictly_ascending by by apply queryOrdered_strict.
      by destruct mine.
    + by rewrite reverse_involutive.
    + unfold trend, Dashboard.numericEntries.
      by rewrite filter_reverse, reverse_involutive.
  - intros a b Ha Hb Hd Hc.
    destruct (Hab a b Hd Hc) as (Hn1 & Hn2 & Hn3).
    exists (Array.sort Dashboard.compareEntries mine).
    pose proof (sort_perm Dashboard.compareEntries mine) as Hp.
    split; [|split; [|split; [|split; [|split; [|split; [|split]]]]]].
    + unfold GoalDetail.history. destruct mine; [|done].
      by apply elem_of_nil in Ha.
    + by rewrite Hp.
    + by rewrite Hp.
    + intros Hv. by apply list_elem_of_filter.
    + intros Hv. by apply list_elem_of_filter.
    + intros i j Hi Hj. by eapply (sorted_positions queryOrder mine).
    + intros i j Hi Hj. by eapply (sorted_positions queryOrder trend).
    + intros i j Hi Hj.
      eapply (sorted_positions (Array.before Dashboard.compareEntries));
        [apply sort_sorted, compareEntries_consistent|exact Hj|exact Hi| |].
      * unfold Array.before. by rewrite compareEntries_le.
      * congruence.
  - intros a b Hmine Hd Hc.
    assert (created_at a < created_at b) as Hlt.
    { rewrite Hmine in Hqm. apply StronglySorted_inv in Hqm as [_ Hqm].
      apply Forall_cons in Hqm as [Hqm _]. unfold queryOrder in Hqm. lia. }
    split; [done|]. split.
    + rewrite Hmine. unfold GoalDetail.history. simpl.
      change GoalDetail.compareEntries with Dashboard.compareEntries.
      destruct (Z.ltb_spec 0 (Dashboard.compareEntries a b)) as [H|H]; [done|].
      apply compareEntries_le in H. unfold newerOrSame in H. lia.
    + intros Hva Hvb. unfold trend. rewrite Hmine.
      unfold Dashboard.numericEntries.
      rewrite !filter_cons, filter_nil.
      by rewrite !decide_True by done.
Qed.

Lemma trend_order_is_reverse_of_history_witness :
  queryOrdered entries_80_75_70
  ∧ queryOrdered entries_same_day
  ∧ NoDup (entry_date <$> entries_80_75_70)
  ∧ (∃ hist,
       GoalDetail.history
         (default [] (Dashboard.entriesByGoal
                        (Dashboard.getDashboardData (storeOf entries_80_75_70))
                        !! "goal-1")) = Some hist
       ∧ default [] (Dashboard.entriesByGoal
                       (Dashboard.getDashboardData (storeOf entries_80_75_70))
                       !! "goal-1") = reverse hist)
  ∧ GoalDetail.history
      (default [] (Dashboard.entriesByGoal
                     (Dashboard.getDashboardData (storeOf entries_same_day))
                     !! "goal-1"))
    = Some (reverse entries_same_day)
  ∧ Dashboard.numericEntries
      (default [] (Dashboard.entriesByGoal
                     (Dashboard.getDashboardData (storeOf entries_same_day))
                     !! "goal-1"))
    = entries_same_day.
Proof.
  assert (queryOrdered entries_80_75_70) as Hq.
  { unfold entries_80_75_70.
    repeat (apply SSorted_cons || apply SSorted_nil
            || apply Forall_cons_2 || apply Forall_nil_2);
      left; vm_compute; reflexivity. }
  assert (queryOrdered entries_same_day) as Hs.
  { unfold entries_same_day.
    repeat (apply SSorted_cons || apply SSorted_nil
            || apply Forall_cons_2 || apply Forall_nil_2).
    right. split; [reflexivity|]. vm_compute. discriminate. }
  assert (NoDup (entry_date <$> entries_80_75_70)) as Hnd.
  { apply (bool_decide_unpack _). vm_compute. exact I. }
  split; [exact Hq|]. split; [exact Hs|]. split; [exact Hnd|]. split.
  - destruct (trend_order_is_reverse_of_history (storeOf entries_80_75_70)
                [goal_1] entries_80_75_70 "goal-1" eq_refl
                ltac:(discriminate) eq_refl Hq)
      as (_ & _ & _ & General & _).
    destruct General as (hist & H1 & H2 & _).
    + vm_compute. discriminate.
    + exact Hnd.
    + exists hist. split; [exact H1|exact H2].
  - destruct (trend_order_is_reverse_of_history (storeOf entries_same_day)
                [goal_1] entries_same_day "goal-1" eq_refl
                ltac:(discriminate) eq_refl Hs)
      as (_ & _ & _ & _ & _ & SameDay).
    destruct (SameDay (numericEntry "e70" (Date.isoDay 2024 6 1) 70 1000)
                (numericEntry "e71" (Date.isoDay 2024 6 1) 71 2000)
                eq_refl eq_refl ltac:(discriminate)) as (_ & H1 & H2).
    split; [exact H1|]. apply H2; discriminate.
Defined.

(** ** Empty input *)

Section EmptyInput.

Import Dashboard.

Variable fmtDate : Z → string.
Variable fmtNumber : JS.number → string.
Variables tza now : Z.

Lemma getDashboardData_goals_error supabase msg :
  error (selectGoals supabase) = Some msg →
  getDashboardData supabase = mkData [] ∅ ∅.
Proof. unfold getDashboardData. by intros ->. Qed.

Lemma getDashboardData_no_goals supabase :
  default [] (data (selectGoals supabase)) = [] →
  getDashboardData supabase = mkData [] ∅ ∅.
Proof.
  unfold getDashboardData. intros ->.
  by destruct (error (selectGoals supabase)).
Qed.

Lemma getDashboardData_entries_error supabase msg :
  error (selectGoals supabase) = None →
  error (selectEntries supabase
           (map g_id (default [] (data (selectGoals supabase))))) = Some msg →
  getDashboardData supabase
  = mkData (default [] (data (selectGoals supabase))) ∅ ∅.
Proof.
  unfold getDashboardData. intros -> He.
  destruct (default [] (data (selectGoals supabase))) eqn:E; [done|].
  simpl. simpl in He. by rewrite He.
Qed.

(** The card of a goal for which no entry was read. *)
Lemma renderGoalCard_no_entries goalRows goal isPinned :
  renderGoalCard fmtDate fmtNumber tza now (mkData goalRows ∅ ∅) goal isPinned
  = mkCard goal "No entries yet" None None.
Proof.
  unfold renderGoalCard. simpl. rewrite !lookup_empty. simpl.
  by destruct (tracker_type goal) as [[]|], isPinned.
Qed.

Lemma DashboardPage_no_goals supabase :
  getDashboardData supabase = mkData [] ∅ ∅ →
  DashboardPage fmtDate fmtNumber tza now supabase = mkView true [] [].
Proof. unfold DashboardPage. by intros ->. Qed.

Lemma foldl_addDone_subseteq (l : list GoalEntry) (s : gset Z) :
  s ⊆ foldl addDone s l.
Proof.
  revert s. induction l as [|e l IH]; intros s; [done|]. simpl.
  etrans; [|apply IH]. unfold addDone.
  destruct (is_done e) as [[]|]; set_solver.
Qed.

(** The done-date set is empty exactly when no entry is done. *)
Lemma doneDates_empty (l : list GoalEntry) :
  foldl addDone ∅ l = ∅ ↔ Forall (λ e, is_done e ≠ Some true) l.
Proof.
  split.
  - intros H. apply Forall_forall. intros e He Hd.
    apply list_elem_of_split in He as (l1 & l2 & ->).
    rewrite foldl_app in H. simpl in H.
    pose proof (foldl_addDone_subseteq l2
                  (addDone (foldl addDone ∅ l1) e)) as Hs.
    rewrite H in Hs. unfold addDone in Hs. rewrite Hd in Hs. set_solver.
  - induction 1 as [|e l He _ IH]; [done|]. simpl.
    unfold addDone at 2. by destruct (is_done e) as [[]|].
Qed.

Lemma renderCheckinCalendar_no_done entries :
  foldl addDone ∅ entries = ∅ →
  renderCheckinCalendar tza now entries = None.
Proof.
  unfold renderCheckinCalendar. intros ->.
  by destruct (length entries =? 0)%nat.
Qed.

End EmptyInput.

(** C8. Empty input gives empty output at every stage.  No goals (an
    empty result, a missing result or a failed read of the goals) give the
    view model with no pinned and no other goal, showing the empty state.
    A failed read of the entries leaves every goal with the card of a goal
    without entries: "No entries yet", no calendar, no chart.  The
    calendar is absent when no entry is done, the charts are absent when
    no entry has a value, and the History of no entries is its empty
    state. *)
Theorem empty_input_gives_empty_output
    (fmtDate : Z → string) (fmtNumber : JS.number → string) (tza now : Z) :
  (∀ supabase,
     default [] (data (selectGoals supabase)) = [] →
     Dashboard.DashboardPage fmtDate fmtNumber tza now supabase
     = Dashboard.mkView true [] [])
  ∧ (∀ supabase msg,
       error (selectGoals supabase) = Some msg →
       Dashboard.getDashboardData supabase = Dashboard.mkData [] ∅ ∅
       ∧ Dashboard.DashboardPage fmtDate fmtNumber tza now supabase
         = Dashboard.mkView true [] [])
  ∧ (∀ supabase msg,
       error (selectGoals supabase) = None →
       error (selectEntries supabase
                (map g_id (default [] (data (selectGoals supabase)))))
         = Some msg →
       Dashboard.getDashboardData supabase
       = Dashboard.mkData (default [] (data (selectGoals supabase))) ∅ ∅
       ∧ ∀ goal isPinned,
           Dashboard.renderGoalCard fmtDate fmtNumber tza now
             (Dashboard.getDashboardData supabase) goal isPinned
           = Dashboard.mkCard goal "No entries yet" None None)
  ∧ (∀ entries,
       Forall (λ e, is_done e ≠ Some true) entries →
       Dashboard.renderCheckinCalendar tza now entries = None)
  ∧ (∀ entries unit targetValue,
       Forall (λ e, value e = None) entries →
       Dashboard.renderNumericChart entries unit targetValue = None
       ∧ GoalDetail.renderNumericChart entries = None)
  ∧ Dashboard.renderCheckinCalendar tza now [] = None
  ∧ (∀ unit targetValue,
       Dashboard.renderNumericChart [] unit targetValue = None)
  ∧ GoalDetail.renderNumericChart [] = None
  ∧ GoalDetail.history [] = None.
Proof.
  split; [|split; [|split; [|split; [|split]]]].
  - intros supabase H.
    by apply DashboardPage_no_goals, getDashboardData_no_goals.
  - intros supabase msg H.
    pose proof (getDashboardData_goals_error supabase msg H) as Hd.
    split; [done|]. by apply DashboardPage_no_goals.
  - intros supabase msg Hg He.
    rewrite (getDashboardData_entries_error supabase msg Hg He).
    split; [done|]. intros goal isPinned. apply renderGoalCard_no_entries.
  - intros entries H. by apply renderCheckinCalendar_no_done, doneDates_empty.
  - intros entries unit targetValue H.
    assert (Dashboard.numericEntries entries = []) as Hn.
    { unfold Dashboard.numericEntries.
      induction H as [|e l He _ IH]; [done|].
      rewrite filter_cons. destruct (decide (value e ≠ None)); done. }
    split; [by apply renderNumericChart_None|].
    unfold GoalDetail.renderNumericChart.
    change (GoalDetail.numericEntries entries)
      with (Dashboard.numericEntries entries).
    by rewrite Hn.
  - done.
Qed.

Lemma empty_input_gives_empty_output_witness :
  error (selectGoals failingGoals) = Some "connection refused"
  ∧ Dashboard.DashboardPage (λ _, "") (λ _, "") 0 0 failingGoals
    = Dashboard.mkView true [] []
  ∧ error (selectGoals failingEntries) = None
  ∧ error (selectEntries failingEntries
             (map g_id (default [] (data (selectGoals failingEntries)))))
    = Some "connection refused"
  ∧ Dashboard.renderGoalCard (λ _, "") (λ _, "") 0 0
      (Dashboard.getDashboardData failingEntries) goal_1 true
    = Dashboard.mkCard goal_1 "No entries yet" None None
  ∧ default [] (data (selectGoals noGoals)) = []
  ∧ Dashboard.DashboardPage (λ _, "") (λ _, "") 0 0 noGoals
    = Dashboard.mkView true [] []
  ∧ Forall (λ e, value e = None) [checkinEntry "c1" 0 0]
  ∧ Dashboard.renderNumericChart [checkinEntry "c1" 0 0] None None = None
  ∧ Forall (λ e, is_done e ≠ Some true) [numericEntry "e1" 0 70 0]
  ∧ Dashboard.renderCheckinCalendar 0 0 [numericEntry "e1" 0 70 0] = None.
Proof.
  destruct (empty_input_gives_empty_output (λ _, "") (λ _, "") 0 0)
    as (Hnone & Hgoals & Hentries & Hcal & Hchart & _).
  split; [reflexivity|].
  split; [exact (proj2 (Hgoals failingGoals _ eq_refl))|].
  split; [reflexivity|]. split; [reflexivity|].
  split; [exact (proj2 (Hentries failingEntries _ eq_refl eq_refl) goal_1 true)|].
  split; [reflexivity|].
  split; [exact (Hnone noGoals eq_refl)|].
  assert (Forall (λ e, value e = None) [checkinEntry "c1" 0 0]) as H1
    by (repeat constructor).
  assert (Forall (λ e, is_done e ≠ Some true) [numericEntry "e1" 0 70 0]) as H2
    by (repeat constructor; discriminate).
  split; [exact H1|].
  split; [exact (proj1 (Hchart _ None None H1))|].
  split; [exact H2|exact (Hcal _ H2)].
Defined.

(** ** Facts about JavaScript dates *)

Section DateFacts.

Import Date.

Lemma DayFromYear_succ y : DayFromYear (y + 1) = DayFromYear y + DaysInYear y.
Proof.
  unfold DayFromYear, DaysInYear.
  destruct (Z.eqb_spec (y mod 4) 0), (Z.eqb_spec (y mod 100) 0),
    (Z.eqb_spec (y mod 400) 0); simpl; Z.div_mod_to_equations; lia.
Qed.

Lemma DayFromYear_mono y y' : y ≤ y' → DayFromYear y ≤ DayFromYear y'.
Proof. unfold DayFromYear. intros H. Z.div_mod_to_equations. lia. Qed.

(** The year found contains the day. *)
Lemma YearFromTime_bounds t :
  DayFromYear (YearFromTime t) ≤ Day t < DayFromYear (YearFromTime t + 1).
Proof.
  unfold YearFromTime.
  set (d := Day t). clearbody d.
  set (y0 := 1970 + 400 * d / 146097).
  destruct (Z.leb_spec (DayFromYear (y0 + 1)) d) as [H1|H1].
  - split; [done|]. unfold DayFromYear in *. subst y0.
    Z.div_mod_to_equations. lia.
  - destruct (Z.leb_spec (DayFromYear y0) d) as [H2|H2]; [done|].
    replace (y0 - 1 + 1) with y0 by lia. split; [|done].
    unfold DayFromYear in *. subst y0. Z.div_mod_to_equations. lia.
Qed.

Lemma YearFromTime_unique t y :
  DayFromYear y ≤ Day t < DayFromYear (y + 1) → YearFromTime t = y.
Proof.
  intros [H1 H2]. destruct (YearFromTime_bounds t) as [H3 H4].
  destruct (Z.lt_trichotomy (YearFromTime t) y) as [H|[H|H]]; [|done|].
  - pose proof (DayFromYear_mono (YearFromTime t + 1) y). lia.
  - pose proof (DayFromYear_mono (y + 1) (YearFromTime t)). lia.
Qed.

(** [YearFromTime t] is the largest year that starts at or before [t],
    which is how the standard defines it. *)
Lemma YearFromTime_largest t :
  TimeFromYear (YearFromTime t) ≤ t
  ∧ ∀ y, TimeFromYear y ≤ t → y ≤ YearFromTime t.
Proof.
  destruct (YearFromTime_bounds t) as [H1 H2].
  unfold TimeFromYear, Day, msPerDay in *. split.
  - Z.div_mod_to_equations. lia.
  - intros y Hy.
    destruct (Z.le_gt_cases y (YearFromTime t)) as [H|H]; [done|].
    pose proof (DayFromYear_mono (YearFromTime t + 1) y).
    Z.div_mod_to_equations. lia.
Qed.

Lemma Day_of_midnight d : Day (d * msPerDay) = d.
Proof. unfold Day, msPerDay. by rewrite Z.div_mul. Qed.

Lemma leapDays_gregorian y :
  leapDays y = if gregorianLeap y then 1 else 0.
Proof.
  unfold leapDays, DaysInYear, gregorianLeap.
  by destruct (y mod 4 =? 0), (y mod 100 =? 0), (y mod 400 =? 0).
Qed.

Lemma DaysInYear_leapDays y : DaysInYear y = 365 + leapDays y.
Proof.
  unfold leapDays, DaysInYear.
  by destruct (y mod 4 =? 0), (y mod 100 =? 0), (y mod 400 =? 0).
Qed.

Lemma MonthFromTime_range t : 0 ≤ MonthFromTime t ≤ 11.
Proof.
  unfold MonthFromTime.
  repeat match goal with |- context [if ?b then _ else _] => destruct b end;
    lia.
Qed.

Lemma WeekDay_range t : 0 ≤ WeekDay t < 7.
Proof. unfold WeekDay. apply Z.mod_pos_bound. lia. Qed.

(** The fields of a time value denote its day. *)
Lemma MakeDay_fields t :
  MakeDay (YearFromTime t) (MonthFromTime t) (DateFromTime t) = Day t.
Proof.
  pose proof (MonthFromTime_range t) as Hm.
  unfold MakeDay.
  rewrite (Z.div_small (MonthFromTime t) 12),
    (Z.mod_small (MonthFromTime t) 12) by lia.
  rewrite Z.add_0_r.
  unfold DateFromTime, InLeapYear, DayWithinYear. lia.
Qed.

(** Day [date] of month [m] of year [y] falls in year [y] and month [m]. *)
Lemma fields_MakeDay y m date :
  0 ≤ m ≤ 11 → 1 ≤ date ≤ gregorianDaysInMonth y m →
  let t := MakeDay y m date * msPerDay in
  YearFromTime t = y ∧ MonthFromTime t = m ∧ DateFromTime t = date.
Proof.
  intros Hm Hd t.
  assert (Day t = DayFromYear y + monthStart (leapDays y) m + date - 1) as HD.
  { unfold t. rewrite Day_of_midnight. unfold MakeDay.
    by rewrite Z.div_small, Z.mod_small, Z.add_0_r by lia. }
  assert (0 ≤ monthStart (leapDays y) m + date - 1 < DaysInYear y) as Hw.
  { rewrite DaysInYear_leapDays. rewrite leapDays_gregorian.
    unfold gregorianDaysInMonth in Hd.
    assert (m = 0 ∨ m = 1 ∨ m = 2 ∨ m = 3 ∨ m = 4 ∨ m = 5 ∨ m = 6 ∨ m = 7
            ∨ m = 8 ∨ m = 9 ∨ m = 10 ∨ m = 11) as Hcases by lia.
    destruct (gregorianLeap y);
      repeat (destruct Hcases as [->|Hcases]); try subst m;
      simpl in *; lia. }
  assert (YearFromTime t = y) as Hy.
  { apply YearFromTime_unique. rewrite DayFromYear_succ. lia. }
  assert (DayWithinYear t = monthStart (leapDays y) m + date - 1) as Hdw.
  { unfold DayWithinYear. rewrite Hy. lia. }
  assert (MonthFromTime t = m) as Hmt.
  { unfold MonthFromTime, InLeapYear. rewrite Hdw, Hy.
    rewrite leapDays_gregorian. unfold gregorianDaysInMonth in Hd.
    assert (m = 0 ∨ m = 1 ∨ m = 2 ∨ m = 3 ∨ m = 4 ∨ m = 5 ∨ m = 6 ∨ m = 7
            ∨ m = 8 ∨ m = 9 ∨ m = 10 ∨ m = 11) as Hcases by lia.
    destruct (gregorianLeap y);
      repeat (destruct Hcases as [->|Hcases]); try subst m; simpl in *;
      repeat match goal with
             | |- context [?a <? ?b] => destruct (Z.ltb_spec a b); try lia
             end. }
  split; [done|]. split; [done|].
  unfold DateFromTime, InLeapYear. rewrite Hdw, Hmt, Hy. lia.
Qed.

(** [new Date(year, month + 1, 0).getDate()] is the length of the month,
    for a four-digit year. *)
Lemma getDate_day_zero tza y m :
  0 ≤ m ≤ 11 → 100 ≤ y →
  getDate tza (construct tza y (m + 1) 0) = gregorianDaysInMonth y m.
Proof.
  intros Hm Hy. unfold getDate, construct, LocalTime, UTC.
  destruct (Z.leb_spec 0 y); [|lia]. destruct (Z.leb_spec y 99); [lia|].
  simpl.
  replace (MakeDay y (m + 1) 0 * msPerDay - tza + tza)
    with (MakeDay y m (gregorianDaysInMonth y m) * msPerDay).
  { apply fields_MakeDay; [done|].
    unfold gregorianDaysInMonth.
    destruct (gregorianLeap y);
      repeat match goal with |- context [match ?x with _ => _ end] =>
               destruct x end; lia. }
  f_equal. rewrite Z.sub_add.
  unfold MakeDay.
  assert (m = 11 ∨ m < 11) as [->|Hlt] by lia.
  - change ((11 + 1) / 12) with 1. change ((11 + 1) mod 12) with 0.
    change (11 / 12) with 0. change (11 mod 12) with 11.
    rewrite DayFromYear_succ, DaysInYear_leapDays, Z.add_0_r.
    simpl. lia.
  - rewrite !Z.div_small, !Z.mod_small by lia.
    rewrite Z.add_0_r. rewrite leapDays_gregorian.
    unfold gregorianDaysInMonth.
    assert (m = 0 ∨ m = 1 ∨ m = 2 ∨ m = 3 ∨ m = 4 ∨ m = 5 ∨ m = 6 ∨ m = 7
            ∨ m = 8 ∨ m = 9 ∨ m = 10) as Hcases by lia.
    destruct (gregorianLeap y);
      repeat (destruct Hcases as [->|Hcases]); try subst m; simpl; lia.
Qed.

(** [new Date(year, month, 1).getDay()] is the weekday of the first of
    the month. *)
Lemma getDay_first tza y m :
  100 ≤ y →
  getDay tza (construct tza y m 1) = WeekDay (MakeDay y m 1 * msPerDay).
Proof.
  intros Hy. unfold getDay, construct, LocalTime, UTC.
  destruct (Z.leb_spec 0 y); [|lia]. destruct (Z.leb_spec y 99); [lia|].
  simpl. by rewrite Z.sub_add.
Qed.

(** A clock at or after the epoch reads a four-digit year (or more). *)
Lemma YearFromTime_epoch t : 0 ≤ t → 1970 ≤ YearFromTime t.
Proof.
  intros Ht. apply (YearFromTime_largest t).
  by change (TimeFromYear 1970) with 0.
Qed.

End DateFacts.

(** ** The check-in calendar *)

Section CalendarFacts.

Import Dashboard.

Lemma renderCell_day doneDates year month todayISO day :
  renderCell doneDates year month todayISO (Some day)
  = DayCell day (cellTag doneDates year month todayISO day).
Proof.
  unfold renderCell, cellTag.
  destruct (bool_decide _); [done|]. by destruct (_ =? _).
Qed.

(** A done day is styled as done, whether or not it is today. *)
Lemma cellTag_done doneDates year month todayISO day :
  dateKey year month day ∈ doneDates →
  cellTag doneDates year month todayISO day = done.
Proof. intros H. unfold cellTag. by rewrite bool_decide_eq_true_2. Qed.

Lemma cellTag_today doneDates year month todayISO day :
  dateKey year month day ∉ doneDates →
  dateKey year month day = todayISO →
  cellTag doneDates year month todayISO day = today.
Proof.
  intros H <-. unfold cellTag.
  rewrite bool_decide_eq_false_2 by done. by rewrite Z.eqb_refl.
Qed.

Lemma cellTag_plain doneDates year month todayISO day :
  dateKey year month day ∉ doneDates →
  dateKey year month day ≠ todayISO →
  cellTag doneDates year month todayISO day = plain.
Proof.
  intros H Hne. unfold cellTag.
  rewrite bool_decide_eq_false_2 by done.
  by destruct (Z.eqb_spec (dateKey year month day) todayISO).
Qed.

(** The done-date set holds the dates of the done entries. *)
Lemma foldl_addDone_elem (l : list GoalEntry) (s : gset Z) d :
  d ∈ foldl addDone s l
  ↔ d ∈ s ∨ ∃ e, e ∈ l ∧ is_done e = Some true ∧ entry_date e = d.
Proof.
  revert s. induction l as [|e l IH]; intros s; simpl.
  - split; [auto|]. intros [H|(e & He & _)]; [done|].
    by apply elem_of_nil in He.
  - rewrite IH. unfold addDone. split.
    + intros [H|(e' & He' & Hd)].
      * destruct (is_done e) as [[]|] eqn:E; auto.
        apply elem_of_union in H as [H|H]; auto.
        apply elem_of_singleton in H. right. exists e.
        split; [by left|done].
      * right. exists e'. split; [by right|done].
    + intros [H|(e' & He' & Hd & Hdate)].
      * left. destruct (is_done e) as [[]|]; try done.
        apply elem_of_union. by right.
      * apply elem_of_cons in He' as [->|He'].
        -- left. rewrite Hd. apply elem_of_union. left.
           by apply elem_of_singleton.
        -- right. exists e'. auto.
Qed.

(** The grid that is rendered when some entry is done: the spacers for
    the weekday of the first of the local month, then the days of that
    month, each styled against the done dates and the UTC date of the
    clock. *)
Lemma renderCheckinCalendar_cells tza now entries :
  foldl addDone ∅ entries ≠ ∅ →
  let doneDates := foldl addDone ∅ entries in
  let year := Date.getFullYear tza now in
  let month := Date.getMonth tza now in
  let startWeekday := Date.getDay tza (Date.construct tza year month 1) in
  let daysInMonth :=
    Date.getDate tza (Date.construct tza year (month + 1) 0) in
  renderCheckinCalendar tza now entries
  = Some (mkCalendar year month
            (replicate (Z.to_nat startWeekday) Blank
             ++ map (λ day, DayCell day
                              (cellTag doneDates year month
                                 (Date.toISODate now) day))
                    (seqZ 1 daysInMonth))).
Proof.
  intros Hne. unfold renderCheckinCalendar.
  destruct entries as [|e entries]; [done|]. cbn [length Nat.eqb].
  destruct (size (foldl addDone ∅ (e :: entries)) =? 0)%nat eqn:E.
  { apply Nat.eqb_eq in E. by apply size_empty_inv, leibniz_equiv in E. }
  cbv zeta. unfold gridCells.
  rewrite map_app, map_map. do 3 f_equal.
  - by induction (Z.to_nat _) as [|n IH]; [|simpl; f_equal].
  - apply map_ext. intros day. apply renderCell_day.
Qed.

(** The cell of the grid whose key is the local date of the clock is the
    one of the local day of the month. *)
Lemma dateKey_local_date tza now day :
  dateKey (Date.getFullYear tza now) (Date.getMonth tza now) day
    = Date.Day (now + tza)
  ↔ day = Date.getDate tza now.
Proof.
  pose proof (MakeDay_fields (now + tza)) as H.
  unfold dateKey, Date.isoDay, Date.getFullYear, Date.getMonth, Date.getDate,
    Date.LocalTime.
  rewrite Z.add_simpl_r, <- H. unfold Date.MakeDay. lia.
Qed.

(** The grid for a clock whose local date is its UTC date (a runtime at
    UTC, or any runtime at an hour where the two dates agree): the
    spacers for the weekday of the first of the month, then the days 1 to
    the length of the month; a day is styled done if an entry is done on
    it, else today if it is the day of the clock, else plain. *)
Lemma renderCheckinCalendar_agreeing_dates tza now entries :
  0 ≤ now + tza →
  Date.Day (now + tza) = Date.Day now →
  foldl addDone ∅ entries ≠ ∅ →
  let year := Date.getFullYear tza now in
  let month := Date.getMonth tza now in
  renderCheckinCalendar tza now entries
  = Some (mkCalendar year month
            (replicate
               (Z.to_nat (Date.WeekDay
                            (Date.MakeDay year month 1 * Date.msPerDay)))
               Blank
             ++ map (λ day,
                       DayCell day
                         (if bool_decide (dateKey year month day
                                            ∈ foldl addDone ∅ entries)
                          then done
                          else if day =? Date.getDate tza now then today
                          else plain))
                    (seqZ 1 (gregorianDaysInMonth year month)))).
Proof.
  intros Hnow Hday Hne year month.
  assert (100 ≤ year) as Hy.
  { pose proof (YearFromTime_epoch (now + tza) Hnow).
    unfold year, Date.getFullYear, Date.LocalTime. lia. }
  assert (0 ≤ month ≤ 11) as Hm by apply MonthFromTime_range.
  rewrite renderCheckinCalendar_cells by done.
  fold year month.
  rewrite getDay_first, getDate_day_zero by done.
  do 3 f_equal. apply map_ext. intros day. f_equal.
  unfold cellTag. destruct (bool_decide _); [done|].
  unfold Date.toISODate. rewrite <- Hday.
  pose proof (dateKey_local_date tza now day) as Hk. fold year month in Hk.
  destruct (Z.eqb_spec (dateKey year month day) (Date.Day (now + tza)))
    as [E|E], (Z.eqb_spec day (Date.getDate tza now)) as [E'|E'];
    try done; tauto.
Qed.

End CalendarFacts.

(** The calendar of the spec's scenario where the local date of the
    runtime is the UTC date: reference date 2024-06-15, check-ins done on
    1 and 15 June.  Six spacers (1 June 2024 is a Saturday), then 30 days,
    of which 1 and 15 are done and all others plain. *)
Lemma calendar_scenario_utc_runtime :
  Dashboard.renderCheckinCalendar 0 noon_15_june checkins_june
  = Some (Dashboard.mkCalendar 2024 5
            (replicate 6 Dashboard.Blank
             ++ map (λ day, Dashboard.DayCell day
                              (if bool_decide (day ∈ [1; 15])
                               then Dashboard.done else Dashboard.plain))
                    (seqZ 1 30))).
Proof. vm_compute. reflexivity. Qed.

(** C6, at a runtime whose local date is ahead of the UTC date.  The
    month and the day numbers of the grid come from the local date of the
    clock ([getFullYear], [getMonth]), the "today" styling from its UTC
    date ([toISOString]).  At 2024-06-30T18:30Z in a runtime at UTC+9 the
    local date is 1 July 2024: the grid is July's (one spacer, 31 days),
    no day of it is styled as today, and the check-ins of June are not on
    it.  In the spec's scenario read at UTC+9 (local date 15 June 2024,
    UTC date 14 June) day 14 is styled as today. *)
Theorem calendar_today_is_utc_day_on_local_month :
  (Date.getFullYear utc_plus_9 evening_30_june = 2024
   ∧ Date.getMonth utc_plus_9 evening_30_june = 6
   ∧ Date.getDate utc_plus_9 evening_30_june = 1
   ∧ Date.toISODate evening_30_june = Date.isoDay 2024 6 30
   ∧ Dashboard.renderCheckinCalendar utc_plus_9 evening_30_june checkins_june
     = Some (Dashboard.mkCalendar 2024 6
               (Dashboard.Blank
                :: map (λ day, Dashboard.DayCell day Dashboard.plain)
                       (seqZ 1 31))))
  ∧ (Date.getFullYear utc_plus_9 evening_14_june = 2024
     ∧ Date.getMonth utc_plus_9 evening_14_june = 5
     ∧ Date.getDate utc_plus_9 evening_14_june = 15
     ∧ Date.toISODate evening_14_june = Date.isoDay 2024 6 14
     ∧ Dashboard.renderCheckinCalendar utc_plus_9 evening_14_june
         checkins_june
       = Some (Dashboard.mkCalendar 2024 5
                 (replicate 6 Dashboard.Blank
                  ++ map (λ day,
                            Dashboard.DayCell day
                              (if bool_decide (day ∈ [1; 15])
                               then Dashboard.done
                               else if bool_decide (day = 14)
                               then Dashboard.today
                               else Dashboard.plain))
                         (seqZ 1 30)))).
Proof. vm_compute. repeat split; reflexivity. Qed.

(** * Further properties of the two pages *)

(** ** Finite numbers *)

Section FiniteFacts.

Implicit Types p q r u v : Qc.

Local Open Scope Qc_scope.

Lemma le_Fin p q : JS.le (JS.Fin p) (JS.Fin q) = true ↔ p <= q.
Proof.
  unfold JS.le. simpl. rewrite Qcle_alt. by destruct (p ?= q).
Qed.

Lemma lt_Fin p q : JS.lt (JS.Fin p) (JS.Fin q) = true ↔ p < q.
Proof.
  unfold JS.lt. simpl. rewrite Qclt_alt. by destruct (p ?= q).
Qed.

Lemma sgn_pos r : 0 < r → JS.sgn r = Gt.
Proof. intros H. by apply Qcgt_alt. Qed.

Lemma isFinite_Fin (a : JS.number) :
  JS.isFinite a = true → ∃ q, a = JS.Fin q.
Proof. destruct a; try done. by eexists. Qed.

Lemma allFinite_noNaN (l : list JS.number) : allFinite l → noNaN l.
Proof.
  intros Hl. eapply Forall_impl; [exact Hl|].
  intros a H. by apply isFinite_Fin in H as [q ->].
Qed.

(** A fraction of a positive whole lies between 0 and 1. *)
Lemma ratio_bounds u r : 0 <= u → u <= r → 0 < r → 0 <= u / r ∧ u / r <= 1.
Proof.
  intros H0 H1 Hr.
  assert (u / r * r = u) as E.
  { field. intros ->. by apply Qclt_not_eq in Hr. }
  split; apply (Qcmult_lt_0_le_reg_r _ _ r Hr); rewrite E.
  - by rewrite Qcmult_0_l.
  - by rewrite Qcmult_1_l.
Qed.

Lemma ratio_whole r : 0 < r → r / r = 1.
Proof. intros Hr. field. intros ->. by apply Qclt_not_eq in Hr. Qed.

End FiniteFacts.

(** Goals between rationals in canonical form, as goals between
    fractions. *)
Ltac qc_to_q :=
  unfold Qcle, Qclt, Qcdiv, Qcminus, Qcplus, Qcopp, Qcmult, Q2Qc in *;
  simpl this in *; rewrite ?Qred_correct in *; unfold inject_Z in *.

Section FiniteScale.

Import Dashboard.

Implicit Types a b r t u v w : Qc.

Local Open Scope Qc_scope.

Lemma min2_Fin_cases a b :
  JS.min2 (JS.Fin a) (JS.Fin b) = JS.Fin a
  ∨ JS.min2 (JS.Fin a) (JS.Fin b) = JS.Fin b.
Proof. unfold JS.min2. simpl. destruct (a ?= b); auto. Qed.

Lemma max2_Fin_cases a b :
  JS.max2 (JS.Fin a) (JS.Fin b) = JS.Fin a
  ∨ JS.max2 (JS.Fin a) (JS.Fin b) = JS.Fin b.
Proof. unfold JS.max2. simpl. destruct (a ?= b); auto. Qed.

(** The least and the greatest of finite values are among them. *)
Lemma min_finite (l : list JS.number) :
  allFinite l → l ≠ [] → ∃ a, JS.min l = JS.Fin a ∧ JS.Fin a ∈ l.
Proof.
  induction 1 as [|x l Hx Hl IH]; [done|]. intros _.
  apply isFinite_Fin in Hx as [q ->].
  destruct l as [|z l].
  - exists q. split; [done|by left].
  - destruct IH as (a & Ha & Hin); [done|].
    change (JS.min (JS.Fin q :: z :: l))
      with (JS.min2 (JS.Fin q) (JS.min (z :: l))).
    rewrite Ha. destruct (min2_Fin_cases q a) as [-> | ->].
    + exists q. split; [done|by left].
    + exists a. split; [done|by right].
Qed.

Lemma max_finite (l : list JS.number) :
  allFinite l → l ≠ [] → ∃ b, JS.max l = JS.Fin b ∧ JS.Fin b ∈ l.
Proof.
  induction 1 as [|x l Hx Hl IH]; [done|]. intros _.
  apply isFinite_Fin in Hx as [q ->].
  destruct l as [|z l].
  - exists q. split; [done|by left].
  - destruct IH as (b & Hb & Hin); [done|].
    change (JS.max (JS.Fin q :: z :: l))
      with (JS.max2 (JS.Fin q) (JS.max (z :: l))).
    rewrite Hb. destruct (max2_Fin_cases q b) as [-> | ->].
    + exists q. split; [done|by left].
    + exists b. split; [done|by right].
Qed.

(** The scale of finite data: its ends are finite and enclose the values
    and the target. *)
Lemma finite_scale_ends (values : list JS.number) targetValue :
  allFinite values → values ≠ [] → finiteOrAbsent targetValue →
  ∃ a b,
    scaleMin values targetValue = JS.Fin a
    ∧ scaleMax values targetValue = JS.Fin b
    ∧ a <= b
    ∧ (∀ v, JS.Fin v ∈ values → a <= v ∧ v <= b)
    ∧ (∀ t, targetValue = Some (JS.Fin t) → a <= t ∧ t <= b).
Proof.
  intros Hf Hne Ht.
  pose proof (allFinite_noNaN values Hf) as Hn.
  destruct (min_finite values Hf Hne) as (a0 & Ha0 & Hina).
  destruct (max_finite values Hf Hne) as (b0 & Hb0 & Hinb).
  assert (∀ v, JS.Fin v ∈ values → a0 <= v ∧ v <= b0) as Hv0.
  { intros v Hv. split; apply le_Fin.
    - rewrite <- Ha0. by apply min_le_elem.
    - rewrite <- Hb0. by apply max_ge_elem. }
  destruct targetValue as [t|].
  - apply isFinite_Fin in Ht as [t' ->].
    destruct (scale_ordered values (JS.Fin t') Hn eq_refl) as [H1 H2].
    assert (∃ a, scaleMin values (Some (JS.Fin t')) = JS.Fin a
                 ∧ a <= a0) as (a & Ha & Haa).
    { unfold scaleMin. cbn [hasTarget JS.isNumber JS.asNumber JS.isNaN
                             negb andb]. rewrite Ha0.
      destruct (min2_Fin_cases a0 t') as [E|E]; rewrite E.
      - exists a0. split; [done|apply Qcle_refl].
      - exists t'. split; [done|]. apply le_Fin. rewrite <- E.
        by apply min2_le_l. }
    assert (∃ b, scaleMax values (Some (JS.Fin t')) = JS.Fin b
                 ∧ b0 <= b) as (b & Hb & Hbb).
    { unfold scaleMax. cbn [hasTarget JS.isNumber JS.asNumber JS.isNaN
                             negb andb]. rewrite Hb0.
      destruct (max2_Fin_cases b0 t') as [E|E]; rewrite E.
      - exists b0. split; [done|apply Qcle_refl].
      - exists t'. split; [done|]. apply le_Fin. rewrite <- E.
        by apply max2_ge_l. }
    rewrite Ha in H1. rewrite Hb in H2. apply le_Fin in H1, H2.
    assert (a <= b) as Hab by by apply (Qcle_trans a t' b).
    exists a, b. repeat split; try done.
    + eapply Qcle_trans; [exact Haa|]. by apply Hv0.
    + eapply Qcle_trans; [|exact Hbb]. by apply Hv0.
    + by injection H as ->.
    + by injection H as ->.
  - assert (a0 <= b0) as Hab.
    { destruct (Hv0 a0 Hina) as [_ H]. done. }
    exists a0, b0. rewrite scaleMin_None, scaleMax_None.
    rewrite Ha0, Hb0. repeat split; try done; by apply Hv0.
Qed.

End FiniteScale.

Section IntegerFacts.

Local Open Scope Qc_scope.

Lemma Qc_of_Z_le (n m : Z) : (n ≤ m)%Z → Qc_of_Z n <= Qc_of_Z m.
Proof. apply Z2Qc_inj_le. Qed.

End IntegerFacts.

(** ** The chart of the goal-detail page *)

(** The chart of the goal-detail page that is rendered when there is
    something to plot, in the terms used for the dashboard chart without
    a target. *)
Lemma detail_renderNumericChart_Some entries :
  Dashboard.numericEntries entries ≠ [] →
  let values := Dashboard.chartValues entries in
  GoalDetail.renderNumericChart entries =
  Some (GoalDetail.mkChart (JS.min values) (JS.max values)
          (imap (λ idx entry,
                   mkPoint (JS.ofZ 16
                            + JS.ofZ (Z.of_nat idx)
                              * Dashboard.stepX
                                  (length (Dashboard.numericEntries entries)))%js
                           (Dashboard.yOf (Dashboard.scaleMin values None)
                              (Dashboard.range values None)
                              (JS.asNumber (value entry))))
                (Dashboard.numericEntries entries))).
Proof.
  intros H. unfold GoalDetail.renderNumericChart, Dashboard.chartValues.
  change (GoalDetail.numericEntries entries)
    with (Dashboard.numericEntries entries).
  destruct (Dashboard.numericEntries entries) eqn:E; [done|].
  cbn [length Nat.eqb]. reflexivity.
Qed.

Lemma detail_renderNumericChart_None entries :
  Dashboard.numericEntries entries = [] →
  GoalDetail.renderNumericChart entries = None.
Proof.
  intros H. unfold GoalDetail.renderNumericChart.
  change (GoalDetail.numericEntries entries)
    with (Dashboard.numericEntries entries). by rewrite H.
Qed.

(** ** The charts in floating-point arithmetic *)

Section RoundingFacts.

Variable fl : Qc → JS.number.
Hypothesis Hfl : Rounding.Faithful fl.

Implicit Types p q r s t u v w : Qc.

Local Open Scope Qc_scope.

Lemma fl_int (z : Z) : (- 2 ^ 53 ≤ z ≤ 2 ^ 53)%Z → fl (Qc_of_Z z) = JS.ofZ z.
Proof. apply (Rounding.exact_integer fl Hfl). Qed.

Lemma fl_zero : fl 0 = JS.ofZ 0.
Proof. rewrite <- Z2Qc_inj_0. by apply fl_int. Qed.

(** A rounded number lies between the integers the number lies between. *)
Lemma fl_between (a b : Z) q :
  (- 2 ^ 53 ≤ a)%Z → (b ≤ 2 ^ 53)%Z →
  Qc_of_Z a <= q → q <= Qc_of_Z b →
  ∃ r, fl q = JS.Fin r ∧ Qc_of_Z a <= r ∧ r <= Qc_of_Z b.
Proof.
  intros Ha Hb H1 H2.
  assert (a ≤ b)%Z as Hab.
  { apply Z2Qc_inj_le. by eapply Qcle_trans. }
  pose proof (Rounding.monotone fl Hfl _ _ H1) as M1.
  pose proof (Rounding.monotone fl Hfl _ _ H2) as M2.
  rewrite fl_int in M1 by lia. rewrite fl_int in M2 by lia.
  destruct (fl q) as [| |r|]; try done.
  exists r. split; [done|]. split; by apply le_Fin.
Qed.

(** Rounding keeps the order of finite results. *)
Lemma fl_le p q r1 r2 :
  p <= q → fl p = JS.Fin r1 → fl q = JS.Fin r2 → r1 <= r2.
Proof.
  intros H E1 E2. apply le_Fin. rewrite <- E1, <- E2.
  by apply (Rounding.monotone fl Hfl).
Qed.

(** The rounding of a number that is not negative is not negative. *)
Lemma fl_nonneg q :
  0 <= q → fl q = JS.PosInf ∨ ∃ r, fl q = JS.Fin r ∧ 0 <= r.
Proof.
  intros H. pose proof (Rounding.monotone fl Hfl _ _ H) as M.
  rewrite fl_zero in M.
  destruct (fl q) as [| |r|]; try done; [right|by left].
  exists r. split; [done|]. apply le_Fin in M. by rewrite Z2Qc_inj_0 in M.
Qed.

(** Arithmetic on small integers is exact. *)
Lemma sub_int (a b : Z) :
  (- 2 ^ 53 ≤ a - b ≤ 2 ^ 53)%Z →
  Rounding.sub fl (JS.ofZ a) (JS.ofZ b) = JS.ofZ (a - b).
Proof.
  intros H. unfold Rounding.sub, JS.sub, JS.ofZ. simpl.
  rewrite <- Z2Qc_inj_opp, <- Z2Qc_inj_add. by apply fl_int.
Qed.

Lemma mul_int (a b : Z) :
  (- 2 ^ 53 ≤ a * b ≤ 2 ^ 53)%Z →
  Rounding.mul fl (JS.ofZ a) (JS.ofZ b) = JS.ofZ (a * b).
Proof.
  intros H. unfold Rounding.mul, JS.ofZ. simpl.
  rewrite <- Z2Qc_inj_mul. by apply fl_int.
Qed.

Lemma add_int (a b : Z) :
  (- 2 ^ 53 ≤ a + b ≤ 2 ^ 53)%Z →
  Rounding.add fl (JS.ofZ a) (JS.ofZ b) = JS.ofZ (a + b).
Proof.
  intros H. unfold Rounding.add, JS.ofZ. simpl.
  rewrite <- Z2Qc_inj_add. by apply fl_int.
Qed.

(** The transform, with its constants computed. *)
Lemma yOf_constants (smin range a : JS.number) :
  RoundedDashboard.yOf fl smin range a
  = Rounding.sub fl (JS.ofZ 108)
      (Rounding.mul fl
         (Rounding.div fl (Rounding.sub fl a smin) range) (JS.ofZ 96)).
Proof.
  unfold RoundedDashboard.yOf.
  rewrite (mul_int 12 2) by lia. change (12 * 2)%Z with 24%Z.
  rewrite (sub_int 120 12), (sub_int 120 24) by lia. done.
Qed.

(** A fraction [0 <= t <= 1] of the plot height, taken from the bottom
    guide line, is a height between the two guide lines. *)
Lemma y_of_fraction t :
  0 <= t → t <= 1 →
  ∃ y', Rounding.sub fl (JS.ofZ 108)
          (Rounding.mul fl (JS.Fin t) (JS.ofZ 96)) = JS.Fin y'
      ∧ Qc_of_Z 12 <= y' ∧ y' <= Qc_of_Z 108.
Proof.
  intros H0 H1.
  destruct (fl_between 0 96 (t * Qc_of_Z 96)) as (m & Em & Hm0 & Hm1);
    [lia|lia| | |].
  { rewrite Z2Qc_inj_0. qc_to_q. nra. }
  { qc_to_q. nra. }
  unfold Rounding.mul, JS.ofZ. cbn [JS.mul Rounding.round]. rewrite Em.
  unfold Rounding.sub. cbn [JS.sub JS.add JS.neg Rounding.round].
  apply (fl_between 12 108); [lia|lia| |].
  - rewrite Z2Qc_inj_0 in Hm0. qc_to_q. lra.
  - rewrite Z2Qc_inj_0 in Hm0. qc_to_q. lra.
Qed.

(** A value between the ends of the scale is plotted between the two
    guide lines. *)
Lemma yOf_between lo r q :
  0 < r → lo <= q →
  JS.le (Rounding.sub fl (JS.Fin q) (JS.Fin lo)) (JS.Fin r) = true →
  ∃ y', RoundedDashboard.yOf fl (JS.Fin lo) (JS.Fin r) (JS.Fin q) = JS.Fin y'
      ∧ Qc_of_Z 12 <= y' ∧ y' <= Qc_of_Z 108.
Proof.
  intros Hr Hq Hle. rewrite yOf_constants.
  assert (Rounding.sub fl (JS.Fin q) (JS.Fin lo) = fl (q + - lo)) as Es
    by done.
  rewrite Es in Hle |- *.
  destruct (fl_nonneg (q + - lo)) as [E|(a & E & Ha)].
  { by apply ->Qcle_minus_iff. }
  { by rewrite E in Hle. }
  rewrite E in Hle |- *. apply le_Fin in Hle.
  unfold Rounding.div, JS.div. rewrite (sgn_pos r Hr).
  cbn [Rounding.round].
  destruct (ratio_bounds a r Ha Hle Hr) as [H0 H1].
  destruct (fl_between 0 1 (a / r)) as (t & Et & Ht0 & Ht1); [lia|lia| | |].
  { by rewrite Z2Qc_inj_0. }
  { by rewrite Z2Qc_inj_1. }
  rewrite Et. rewrite Z2Qc_inj_0 in Ht0. rewrite Z2Qc_inj_1 in Ht1.
  by apply y_of_fraction.
Qed.

(** A value equal to the lower end of the scale is plotted on the bottom
    guide line. *)
Lemma yOf_low lo (rng : JS.number) :
  JS.gt rng (JS.ofZ 0) = true →
  RoundedDashboard.yOf fl (JS.Fin lo) rng (JS.Fin lo) = JS.ofZ 108.
Proof.
  intros Hr. rewrite yOf_constants.
  assert (Rounding.sub fl (JS.Fin lo) (JS.Fin lo) = JS.ofZ 0) as ->.
  { unfold Rounding.sub. cbn [JS.sub JS.add JS.neg Rounding.round].
    rewrite Qcplus_opp_r. apply fl_zero. }
  assert (Rounding.div fl (JS.ofZ 0) rng = JS.ofZ 0) as ->.
  { destruct rng as [| |r|]; try done.
    - unfold JS.gt, JS.lt, JS.ofZ in Hr. simpl in Hr.
      rewrite Z2Qc_inj_0 in Hr.
      unfold Rounding.div, JS.div, JS.ofZ, JS.sgn.
      rewrite Qccompare_antisym.
      destruct (0 ?= r) eqn:E; try done. cbn [CompOpp Rounding.round].
      rewrite Z2Qc_inj_0.
      replace (0 / r) with 0 by (unfold Qcdiv; ring).
      rewrite <- Z2Qc_inj_0. by apply (fl_int 0).
    - unfold Rounding.div. cbn [JS.div JS.ofZ Rounding.round].
      apply fl_zero. }
  rewrite (mul_int 0 96) by lia. change (0 * 96)%Z with 0%Z.
  by rewrite (sub_int 108 0) by lia.
Qed.

(** The value at the upper end of a scale of positive length is plotted
    on the top guide line. *)
Lemma yOf_high lo r q :
  0 < r → Rounding.sub fl (JS.Fin q) (JS.Fin lo) = JS.Fin r →
  RoundedDashboard.yOf fl (JS.Fin lo) (JS.Fin r) (JS.Fin q) = JS.ofZ 12.
Proof.
  intros Hr E. rewrite yOf_constants, E.
  unfold Rounding.div at 1, JS.div. rewrite (sgn_pos r Hr).
  cbn [Rounding.round]. rewrite ratio_whole by done.
  rewrite <- Z2Qc_inj_1, (fl_int 1) by lia.
  rewrite (mul_int 1 96) by lia. change (1 * 96)%Z with 96%Z.
  by rewrite (sub_int 108 96) by lia.
Qed.

(** The divisor of a scale whose length is finite after rounding: that
    length, or 1 when it is zero; no difference within the scale is
    longer. *)
Lemma range_of_scale a b :
  a <= b →
  JS.isFinite (Rounding.sub fl (JS.Fin b) (JS.Fin a)) = true →
  ∃ r, (JS.or (Rounding.sub fl (JS.Fin b) (JS.Fin a)) (JS.ofZ 1)) = JS.Fin r
     ∧ 0 < r
     ∧ (Rounding.sub fl (JS.Fin b) (JS.Fin a) ≠ JS.ofZ 0 →
        Rounding.sub fl (JS.Fin b) (JS.Fin a) = JS.Fin r)
     ∧ ∀ w, a <= w → w <= b →
         JS.le (Rounding.sub fl (JS.Fin w) (JS.Fin a)) (JS.Fin r) = true.
Proof.
  intros Hab Hf.
  assert (∀ w, w <= b →
            JS.le (Rounding.sub fl (JS.Fin w) (JS.Fin a))
                  (Rounding.sub fl (JS.Fin b) (JS.Fin a)) = true) as Hmono.
  { intros w Hw. unfold Rounding.sub.
    cbn [JS.sub JS.add JS.neg Rounding.round].
    apply (Rounding.monotone fl Hfl). qc_to_q. lra. }
  unfold Rounding.sub in Hf, Hmono |- *.
  cbn [JS.sub JS.add JS.neg Rounding.round] in Hf, Hmono |- *.
  destruct (fl_nonneg (b + - a)) as [E|(d & E & Hd)].
  { by apply ->Qcle_minus_iff. }
  { by rewrite E in Hf. }
  rewrite E in Hmono |- *. unfold JS.or, JS.truthy, JS.sgn.
  destruct (d ?= 0) eqn:C.
  - apply Qceq_alt in C. subst d.
    exists (Qc_of_Z 1). split; [done|]. split; [done|]. split.
    { intros H. exfalso. apply H. unfold JS.ofZ. by rewrite Z2Qc_inj_0. }
    intros w _ Hw. eapply le_trans; [by apply Hmono|].
    apply le_Fin. rewrite Z2Qc_inj_1. done.
  - apply Qclt_alt in C. by apply Qcle_not_lt in Hd.
  - apply Qcgt_alt in C. exists d. split; [done|]. split; [done|].
    split; [done|]. intros w _ Hw. by apply Hmono.
Qed.

Lemma Qc_eq_Q p q : p = q → (this p == this q)%Q.
Proof. by intros ->. Qed.

(** The error of a rounding between 0 and 512. *)
Lemma fl_error (b : Z) q :
  (0 ≤ b ≤ 512)%Z → 0 <= q → q <= Qc_of_Z b →
  ∃ r, fl q = JS.Fin r
     ∧ 0 <= r ∧ r <= Qc_of_Z b
     ∧ q - Rounding.halfUlp512 <= r ∧ r <= q + Rounding.halfUlp512.
Proof.
  intros Hb H0 H1.
  destruct (fl_between 0 b q) as (r & E & Hr0 & Hr1); [lia|lia| |done|].
  { by rewrite Z2Qc_inj_0. }
  destruct (Rounding.absolute_error fl Hfl q H0) as [E1 E2].
  { eapply Qcle_trans; [exact H1|]. apply Qc_of_Z_le. lia. }
  rewrite E in E1, E2. apply le_Fin in E1, E2.
  exists r. rewrite Z2Qc_inj_0 in Hr0. done.
Qed.

(** The step between two points, for two or more points. *)
Lemma stepX_spec (n : nat) :
  (2 ≤ n)%nat →
  let m := Qc_of_Z (Z.of_nat n - 1) in
  ∃ s, RoundedDashboard.stepX fl n = JS.Fin s
     ∧ 0 <= s
     ∧ Qc_of_Z 288 - m * Rounding.halfUlp512 <= m * s
     ∧ m * s <= Qc_of_Z 288 + m * Rounding.halfUlp512.
Proof.
  intros Hn m.
  assert (1 <= m) as Hm.
  { rewrite <- Z2Qc_inj_1. apply Qc_of_Z_le. lia. }
  assert (0 < m) as Hm0 by (eapply Qclt_le_trans; [|exact Hm]; done).
  unfold RoundedDashboard.stepX.
  destruct (Nat.ltb_spec 1 n) as [_|?]; [|lia].
  rewrite (mul_int 16 2) by lia. change (16 * 2)%Z with 32%Z.
  rewrite (sub_int 320 32) by lia. change (320 - 32)%Z with 288%Z.
  unfold Rounding.div, JS.div, JS.ofZ. fold m. rewrite (sgn_pos m Hm0).
  cbn [Rounding.round].
  assert (Qc_of_Z 288 / m * m = Qc_of_Z 288) as Eu.
  { field. intros E. rewrite E in Hm0. done. }
  set (u := Qc_of_Z 288 / m) in *.
  assert (0 <= u ∧ u <= Qc_of_Z 288) as [Hu0 Hu1].
  { revert Eu Hm. generalize u m. clear. intros u m Eu Hm.
    apply Qc_eq_Q in Eu. qc_to_q. split; nra. }
  destruct (fl_error 288 u) as (s & E & Hs0 & _ & Hs1 & Hs2);
    [lia|done|done|].
  exists s. split; [done|]. split; [done|].
  revert Eu Hm Hs1 Hs2. generalize u m s (Rounding.halfUlp512). clear.
  intros u m s d Eu Hm Hs1 Hs2. apply Qc_eq_Q in Eu. qc_to_q. split; nra.
Qed.

(** The abscissa of a point, for a step [s]: it is [16 + idx * s] up
    to two roundings. *)
Lemma xOf_error (n idx : nat) s :
  RoundedDashboard.stepX fl n = JS.Fin s →
  0 <= s → Qc_of_Z (Z.of_nat idx) * s <= Qc_of_Z 289 →
  ∃ x', RoundedDashboard.xOf fl n idx = JS.Fin x'
      ∧ Qc_of_Z 16 <= x' ∧ x' <= Qc_of_Z 305
      ∧ Qc_of_Z 16 + Qc_of_Z (Z.of_nat idx) * s
        - Rounding.halfUlp512 - Rounding.halfUlp512 <= x'
      ∧ x' <= Qc_of_Z 16 + Qc_of_Z (Z.of_nat idx) * s
              + Rounding.halfUlp512 + Rounding.halfUlp512.
Proof.
  intros Es Hs Hi. unfold RoundedDashboard.xOf. rewrite Es.
  assert (0 <= Qc_of_Z (Z.of_nat idx)) as Hidx.
  { rewrite <- Z2Qc_inj_0. apply Qc_of_Z_le. lia. }
  set (k := Qc_of_Z (Z.of_nat idx)) in *.
  unfold Rounding.mul, JS.ofZ. fold k. cbn [JS.mul Rounding.round].
  destruct (fl_error 289 (k * s)) as (p & Ep & Hp0 & Hp1 & Hp2 & Hp3);
    [lia| |done|].
  { revert Hidx Hs. generalize k s. clear. intros k s H1 H2.
    qc_to_q. nra. }
  rewrite Ep. unfold Rounding.add. cbn [JS.add Rounding.round].
  destruct (fl_between 16 305 (Qc_of_Z 16 + p)) as (x' & Ex & Hx0 & Hx1);
    [lia|lia| | |].
  { revert Hp0. generalize p. clear. intros p H. qc_to_q. lra. }
  { revert Hp1. generalize p. clear. intros p H. qc_to_q. lra. }
  destruct (fl_error 305 (Qc_of_Z 16 + p)) as (x'' & Ex' & _ & _ & Hx2 & Hx3);
    [lia| | |].
  { revert Hp0. generalize p. clear. intros p H. qc_to_q. lra. }
  { revert Hp1. generalize p. clear. intros p H. qc_to_q. lra. }
  rewrite Ex in Ex'. injection Ex' as <-.
  exists x'. split; [done|]. split; [done|]. split; [done|].
  revert Hp2 Hp3 Hx2 Hx3.
  generalize (k * s) p x' (Rounding.halfUlp512). clear.
  intros ks p x' d H1 H2 H3 H4. qc_to_q. split; lra.
Qed.

(** The abscissas, for a number of points within the length of an
    array: every point lies between the left padding and the right edge,
    the first one at the left padding, and a later point strictly to the
    right of an earlier one. *)
Lemma xOf_first (n : nat) :
  RoundedDashboard.xOf fl n 0 = JS.ofZ 16.
Proof.
  unfold RoundedDashboard.xOf.
  assert (∃ s, RoundedDashboard.stepX fl n = JS.Fin s) as [s ->].
  { destruct (Nat.le_gt_cases 2 n) as [Hn|Hn].
    - destruct (stepX_spec n Hn) as (s & E & _). by exists s.
    - unfold RoundedDashboard.stepX.
      destruct (Nat.ltb_spec 1 n) as [?|_]; [lia|]. by eexists. }
  unfold Rounding.mul, JS.ofZ. cbn [JS.mul Rounding.round].
  change (Z.of_nat 0) with 0%Z.
  rewrite Z2Qc_inj_0, Qcmult_0_l, fl_zero.
  change (JS.Fin (Qc_of_Z 16)) with (JS.ofZ 16).
  by rewrite (add_int 16 0) by lia.
Qed.

Lemma xOf_spec (n idx : nat) :
  (2 ≤ n)%nat → (Z.of_nat n - 1 ≤ 2 ^ 32)%Z → (idx < n)%nat →
  ∃ s x', RoundedDashboard.stepX fl n = JS.Fin s
      ∧ RoundedDashboard.xOf fl n idx = JS.Fin x'
      ∧ Qc_of_Z 16 <= x' ∧ x' <= Qc_of_Z 305
      ∧ Qc_of_Z 16 + Qc_of_Z (Z.of_nat idx) * s
        - Rounding.halfUlp512 - Rounding.halfUlp512 <= x'
      ∧ x' <= Qc_of_Z 16 + Qc_of_Z (Z.of_nat idx) * s
              + Rounding.halfUlp512 + Rounding.halfUlp512
      ∧ Rounding.halfUlp512 * Qc_of_Z 5 < s.
Proof.
  intros Hn Hmax Hidx.
  destruct (stepX_spec n Hn) as (s & Es & Hs0 & Hs1 & Hs2).
  assert (1 <= Qc_of_Z (Z.of_nat n - 1)) as Hm1.
  { rewrite <- Z2Qc_inj_1. apply Qc_of_Z_le. lia. }
  assert (Qc_of_Z (Z.of_nat n - 1) <= Qc_of_Z 4294967296) as Hm2
    by (apply Qc_of_Z_le; lia).
  assert (0 <= Qc_of_Z (Z.of_nat idx)) as Hk0.
  { rewrite <- Z2Qc_inj_0. apply Qc_of_Z_le. lia. }
  assert (Qc_of_Z (Z.of_nat idx) <= Qc_of_Z (Z.of_nat n - 1)) as Hk1
    by (apply Qc_of_Z_le; lia).
  set (m := Qc_of_Z (Z.of_nat n - 1)) in *.
  set (k := Qc_of_Z (Z.of_nat idx)) in *.
  assert (k * s <= Qc_of_Z 289 ∧ Rounding.halfUlp512 * Qc_of_Z 5 < s)
    as [Hks Hstep].
  { revert Hs0 Hs1 Hs2 Hm1 Hm2 Hk0 Hk1. generalize k m s. clear.
    intros k m s Hs0 Hs1 Hs2 Hm1 Hm2 Hk0 Hk1.
    unfold Rounding.halfUlp512 in *. qc_to_q.
    assert (0 <= (m - k) * s)%Q as P1 by (apply Qmult_le_0_compat; lra).
    assert (0 <= (4294967296 - m) * s)%Q as P2
      by (apply Qmult_le_0_compat; lra).
    split; lra. }
  destruct (xOf_error n idx s Es Hs0 Hks) as (x' & Ex & H1 & H2 & H3 & H4).
  by exists s, x'.
Qed.

Lemma xOf_increasing (n i j : nat) :
  (Z.of_nat n - 1 ≤ 2 ^ 32)%Z → (i < j)%nat → (j < n)%nat →
  JS.lt (RoundedDashboard.xOf fl n i) (RoundedDashboard.xOf fl n j) = true.
Proof.
  intros Hmax Hij Hjn.
  destruct (xOf_spec n i) as (s & xi & Es & Ei & _ & _ & _ & Hi & Hstep);
    [lia|done|lia|].
  destruct (xOf_spec n j) as (s' & xj & Es' & Ej & _ & _ & Hj & _ & _);
    [lia|done|done|].
  rewrite Es in Es'. injection Es' as <-.
  rewrite Ei, Ej. apply lt_Fin.
  assert (Qc_of_Z (Z.of_nat i) + 1 <= Qc_of_Z (Z.of_nat j)) as Hk.
  { rewrite <- Z2Qc_inj_1, <- Z2Qc_inj_add. apply Qc_of_Z_le. lia. }
  assert (0 <= s) as Hs.
  { apply Qclt_le_weak. eapply Qcle_lt_trans; [|exact Hstep].
    unfold Rounding.halfUlp512. qc_to_q. lra. }
  revert Hi Hj Hk Hs Hstep.
  generalize (Qc_of_Z (Z.of_nat i)) (Qc_of_Z (Z.of_nat j)) s xi xj. clear.
  intros ki kj s xi xj Hi Hj Hk Hs Hstep.
  unfold Rounding.halfUlp512 in *. qc_to_q. nra.
Qed.

End RoundingFacts.

(** *** The charts computed with rounding *)

Section RoundedCharts.

Variable fl : Qc → JS.number.

(** The chart that is rendered when there is something to plot. *)
Lemma rounded_chart_Some entries unit targetValue :
  Dashboard.numericEntries entries ≠ [] →
  let values := Dashboard.chartValues entries in
  let smin := Dashboard.scaleMin values targetValue in
  let rng := RoundedDashboard.range fl values targetValue in
  let ty := RoundedDashboard.yOf fl smin rng (JS.asNumber targetValue) in
  RoundedDashboard.renderNumericChart fl entries unit targetValue =
  Some (Dashboard.mkChart (JS.min values) (JS.max values) unit
          (if Dashboard.hasTarget targetValue then targetValue else None)
          (imap (λ idx entry,
                   mkPoint
                     (RoundedDashboard.xOf fl
                        (length (Dashboard.numericEntries entries)) idx)
                     (RoundedDashboard.yOf fl smin rng
                        (JS.asNumber (value entry))))
                (Dashboard.numericEntries entries))
          (if Dashboard.hasTarget targetValue && JS.gt rng (JS.ofZ 0)
           then Some ty else None)
          (if Dashboard.hasTarget targetValue && JS.gt rng (JS.ofZ 0)
           then (if Dashboard.hasTarget targetValue && JS.ge ty (JS.ofZ 12)
                    && JS.le ty (Rounding.sub fl (JS.ofZ 120) (JS.ofZ 12))
                 then Some ty else None)
           else None)).
Proof.
  intros H. unfold RoundedDashboard.renderNumericChart, Dashboard.chartValues.
  fold (Dashboard.numericEntries entries).
  destruct (Dashboard.numericEntries entries) eqn:E; [done|].
  cbn [length Nat.eqb]. cbv zeta.
  fold (Dashboard.hasTarget targetValue).
  by destruct (Dashboard.hasTarget targetValue && JS.gt _ _).
Qed.

Lemma rounded_chart_None entries unit targetValue :
  Dashboard.numericEntries entries = [] →
  RoundedDashboard.renderNumericChart fl entries unit targetValue = None.
Proof.
  intros H. unfold RoundedDashboard.renderNumericChart.
  fold (Dashboard.numericEntries entries). by rewrite H.
Qed.

Lemma rounded_points_lookup entries unit targetValue c (i : nat) p :
  RoundedDashboard.renderNumericChart fl entries unit targetValue = Some c →
  Dashboard.points c !! i = Some p →
  ∃ e, Dashboard.numericEntries entries !! i = Some e
     ∧ x p = RoundedDashboard.xOf fl
               (length (Dashboard.numericEntries entries)) i
     ∧ y p = RoundedDashboard.yOf fl
               (Dashboard.scaleMin (Dashboard.chartValues entries) targetValue)
               (RoundedDashboard.range fl (Dashboard.chartValues entries)
                  targetValue)
               (JS.asNumber (value e)).
Proof.
  intros Hc Hp.
  assert (Dashboard.numericEntries entries ≠ []) as Hne.
  { intros E. by rewrite rounded_chart_None in Hc. }
  rewrite rounded_chart_Some in Hc by done.
  assert (Dashboard.points c
          = imap (λ idx entry,
                    mkPoint
                      (RoundedDashboard.xOf fl
                         (length (Dashboard.numericEntries entries)) idx)
                      (RoundedDashboard.yOf fl
                         (Dashboard.scaleMin (Dashboard.chartValues entries)
                            targetValue)
                         (RoundedDashboard.range fl
                            (Dashboard.chartValues entries) targetValue)
                         (JS.asNumber (value entry))))
              (Dashboard.numericEntries entries)) as Hpts.
  { apply (inj Some) in Hc. by rewrite <- Hc. }
  rewrite Hpts, list_lookup_imap in Hp.
  destruct (Dashboard.numericEntries entries !! i) as [e|] eqn:E; [|done].
  injection Hp as <-. by exists e.
Qed.

(** The chart of the goal-detail page. *)
Lemma rounded_detail_chart_Some entries :
  Dashboard.numericEntries entries ≠ [] →
  let values := Dashboard.chartValues entries in
  RoundedGoalDetail.renderNumericChart fl entries =
  Some (GoalDetail.mkChart (JS.min values) (JS.max values)
          (imap (λ idx entry,
                   mkPoint
                     (RoundedDashboard.xOf fl
                        (length (Dashboard.numericEntries entries)) idx)
                     (RoundedDashboard.yOf fl (JS.min values)
                        (RoundedDashboard.range fl values None)
                        (JS.asNumber (value entry))))
                (Dashboard.numericEntries entries))).
Proof.
  intros H. unfold RoundedGoalDetail.renderNumericChart, Dashboard.chartValues.
  change (GoalDetail.numericEntries entries)
    with (Dashboard.numericEntries entries).
  by destruct (Dashboard.numericEntries entries) eqn:E.
Qed.

Lemma rounded_detail_chart_None entries :
  Dashboard.numericEntries entries = [] →
  RoundedGoalDetail.renderNumericChart fl entries = None.
Proof.
  intros H. unfold RoundedGoalDetail.renderNumericChart.
  change (GoalDetail.numericEntries entries)
    with (Dashboard.numericEntries entries). by rewrite H.
Qed.

Lemma rounded_detail_points_lookup entries c (i : nat) p :
  RoundedGoalDetail.renderNumericChart fl entries = Some c →
  GoalDetail.points c !! i = Some p →
  GoalDetail.minVal c = JS.min (Dashboard.chartValues entries)
  ∧ GoalDetail.maxVal c = JS.max (Dashboard.chartValues entries)
  ∧ ∃ e, Dashboard.numericEntries entries !! i = Some e
       ∧ x p = RoundedDashboard.xOf fl
                 (length (Dashboard.numericEntries entries)) i
       ∧ y p = RoundedDashboard.yOf fl
                 (JS.min (Dashboard.chartValues entries))
                 (RoundedDashboard.range fl (Dashboard.chartValues entries)
                    None)
                 (JS.asNumber (value e)).
Proof.
  intros Hc Hp.
  assert (Dashboard.numericEntries entries ≠ []) as Hne.
  { intros E. by rewrite rounded_detail_chart_None in Hc. }
  rewrite rounded_detail_chart_Some in Hc by done.
  apply (inj Some) in Hc. rewrite <- Hc in Hp |- *.
  cbn [GoalDetail.points GoalDetail.minVal GoalDetail.maxVal] in Hp |- *.
  split; [done|]. split; [done|].
  rewrite list_lookup_imap in Hp.
  destruct (Dashboard.numericEntries entries !! i) as [e|] eqn:E; [|done].
  injection Hp as <-. by exists e.
Qed.

End RoundedCharts.

(** Without rounding, the charts are those of [Dashboard] and
    [GoalDetail]. *)
Lemma round_exact (a : JS.number) : Rounding.round JS.Fin a = a.
Proof. by destruct a. Qed.

Lemma exact_rounding_faithful : Rounding.Faithful JS.Fin.
Proof.
  split.
  - intros p q H. by apply le_Fin.
  - done.
  - intros q _ _. rewrite !le_Fin. unfold Rounding.halfUlp512.
    generalize q. clear. intros q. split; qc_to_q; lra.
Qed.

(** Rounding to a grid of step [2^-46] is faithful as well. *)
Lemma roundToGrid_faithful : Rounding.Faithful roundToGrid.
Proof.
  split.
  - intros p q H. unfold roundToGrid. apply le_Fin.
    unfold Qcle in *. simpl. rewrite !Qred_correct.
    assert (Qfloor (p * inject_Z 70368744177664 + (1 # 2))
            ≤ Qfloor (q * inject_Z 70368744177664 + (1 # 2))) as Hf.
    { apply Qfloor_resp_le. unfold inject_Z. nra. }
    apply Qmult_le_compat_r; [|done].
    rewrite <- Zle_Qle. exact Hf.
  - intros z Hz. unfold roundToGrid, JS.ofZ. f_equal.
    apply Qc_is_canon. change (this (Qc_of_Z z)) with (inject_Z z).
    unfold Q2Qc. cbn [this]. rewrite !Qred_correct.
    assert (Qfloor (inject_Z z * inject_Z 70368744177664 + (1 # 2))
            = z * 70368744177664) as ->.
    { pose proof (Qfloor_le (inject_Z z * inject_Z 70368744177664 + (1 # 2)))
        as H1.
      pose proof (Qlt_floor (inject_Z z * inject_Z 70368744177664 + (1 # 2)))
        as H2.
      set (f := Qfloor _) in *.
      rewrite <- inject_Z_mult in H1, H2.
      assert (inject_Z f <= inject_Z (z * 70368744177664) + (1 # 2))%Q
        as H1' by lra.
      assert (inject_Z (z * 70368744177664) < inject_Z (f + 1))%Q as H2'.
      { eapply Qle_lt_trans; [|exact H2]. lra. }
      rewrite <- Zlt_Qlt in H2'.
      assert (inject_Z f < inject_Z (z * 70368744177664 + 1))%Q as H1''.
      { rewrite inject_Z_plus. eapply Qle_lt_trans; [exact H1'|].
        unfold inject_Z. lra. }
      rewrite <- Zlt_Qlt in H1''. lia. }
    rewrite inject_Z_mult. field.
  - intros q _ _. unfold roundToGrid.
    pose proof (Qfloor_le (q * inject_Z 70368744177664 + (1 # 2))) as F1.
    pose proof (Qlt_floor (q * inject_Z 70368744177664 + (1 # 2))) as F2.
    set (f := Qfloor _) in *. rewrite inject_Z_plus in F2.
    rewrite !le_Fin.
    unfold Rounding.halfUlp512, Qcle, Qcminus, Qcplus, Qcopp, Q2Qc.
    cbn [this]. rewrite !Qred_correct.
    unfold Qdiv.
    assert (/ inject_Z 70368744177664 == 1 # 70368744177664)%Q as ->
      by reflexivity.
    revert F1 F2. generalize (inject_Z f) (this q). clear.
    intros g q F1 F2. unfold inject_Z in *. split; lra.
Qed.

(** On the values 80, 75, 70 with the target 68, the middle point is
    at [y = 52] in exact arithmetic; rounded to the grid, the fraction
    [7 / 12] of the plot height is not exact and the point moves. *)
Example grid_rounding_moves_a_point :
  (y <$> (Dashboard.renderNumericChart entries_80_75_70 None
            (Some (JS.ofZ 68)) ≫= λ c, Dashboard.points c !! 1%nat))
  = Some (JS.ofZ 52)
  ∧ (y <$> (RoundedDashboard.renderNumericChart roundToGrid entries_80_75_70
              None (Some (JS.ofZ 68)) ≫= λ c, Dashboard.points c !! 1%nat))
    ≠ Some (JS.ofZ 52).
Proof.
  split.
  - vm_compute. do 2 f_equal. apply Qc_is_canon. reflexivity.
  - vm_compute. discriminate.
Qed.

Lemma rounded_chart_exact entries unit targetValue :
  RoundedDashboard.renderNumericChart JS.Fin entries unit targetValue
  = Dashboard.renderNumericChart entries unit targetValue.
Proof.
  unfold RoundedDashboard.renderNumericChart, Dashboard.renderNumericChart.
  unfold Rounding.add, Rounding.sub, Rounding.mul, Rounding.div.
  destruct (length _ =? 0)%nat; [done|].
  cbv zeta. f_equal. f_equal.
  - apply imap_ext. intros i e _. by rewrite !round_exact.
  - by rewrite !round_exact.
  - by rewrite !round_exact.
Qed.

Lemma rounded_detail_chart_exact entries :
  RoundedGoalDetail.renderNumericChart JS.Fin entries
  = GoalDetail.renderNumericChart entries.
Proof.
  unfold RoundedGoalDetail.renderNumericChart, GoalDetail.renderNumericChart.
  unfold Rounding.add, Rounding.sub, Rounding.mul, Rounding.div.
  destruct (length _ =? 0)%nat; [done|].
  cbv zeta. f_equal. f_equal.
  apply imap_ext. intros i e _. by rewrite !round_exact.
Qed.

Section RoundedChartFacts.

Variable fl : Qc → JS.number.
Hypothesis Hfl : Rounding.Faithful fl.

Local Open Scope Qc_scope.

(** The divisor of the chart, for finite data whose span stays finite. *)
Lemma rounded_range (values : list JS.number) targetValue (a b : Qc) :
  Dashboard.scaleMin values targetValue = JS.Fin a →
  Dashboard.scaleMax values targetValue = JS.Fin b →
  a <= b →
  JS.isFinite (Rounding.sub fl (JS.Fin b) (JS.Fin a)) = true →
  ∃ r, RoundedDashboard.range fl values targetValue = JS.Fin r
     ∧ 0 < r
     ∧ (Rounding.sub fl (JS.Fin b) (JS.Fin a) ≠ JS.ofZ 0 →
        Rounding.sub fl (JS.Fin b) (JS.Fin a) = JS.Fin r)
     ∧ ∀ w, a <= w → w <= b →
         JS.le (Rounding.sub fl (JS.Fin w) (JS.Fin a)) (JS.Fin r) = true.
Proof.
  intros Ha Hb Hab Hf. unfold RoundedDashboard.range. rewrite Ha, Hb.
  by apply range_of_scale.
Qed.

(** The abscissa of a point of a chart of at most [2^32] points. *)
Lemma xOf_on_canvas (n idx : nat) :
  (Z.of_nat n ≤ 2 ^ 32)%Z → (idx < n)%nat →
  JS.le (JS.ofZ 16) (RoundedDashboard.xOf fl n idx) = true
  ∧ JS.le (RoundedDashboard.xOf fl n idx) (JS.ofZ 320) = true.
Proof.
  intros Hn Hidx. destruct (Nat.le_gt_cases 2 n) as [H2|H2].
  - destruct (xOf_spec fl Hfl n idx) as (s & x' & _ & -> & H1 & H3 & _);
      [done|lia|done|].
    unfold JS.ofZ. rewrite !le_Fin. split; [done|].
    eapply Qcle_trans; [exact H3|]. apply Qc_of_Z_le. lia.
  - assert (idx = 0%nat) as -> by lia. by rewrite (xOf_first fl Hfl).
Qed.

End RoundedChartFacts.

(** X6. Computed in floating-point arithmetic, for finite entry values
    and a finite or absent target whose span [scaleMax - scaleMin] does
    not overflow, the dashboard chart has one point per numeric entry and
    every point lies on the canvas, between the two guide lines and right
    of the left padding: [16 <= x <= 320] and [12 <= y <= 108]. *)
Theorem chart_points_stay_on_canvas
    (fl : Qc → JS.number) (entries : list GoalEntry) (unit : option string)
    (targetValue : option JS.number) (c : Dashboard.Chart) :
  Rounding.Faithful fl →
  let values := Dashboard.chartValues entries in
  allFinite values →
  finiteOrAbsent targetValue →
  JS.isFinite (Rounding.sub fl (Dashboard.scaleMax values targetValue)
                 (Dashboard.scaleMin values targetValue)) = true →
  Z.of_nat (length (Dashboard.numericEntries entries)) ≤ 2 ^ 32 →
  RoundedDashboard.renderNumericChart fl entries unit targetValue = Some c →
  length (Dashboard.points c) = length (Dashboard.numericEntries entries)
  ∧ Forall onCanvas (Dashboard.points c).
Proof.
  intros Hfl values Hf Ht Hspan Hlen Hc.
  assert (Dashboard.numericEntries entries ≠ []) as Hne.
  { intros E. by rewrite rounded_chart_None in Hc. }
  assert (values ≠ []) as Hne'.
  { unfold values, Dashboard.chartValues. intros E.
    by apply fmap_nil_inv in E. }
  split.
  { rewrite rounded_chart_Some in Hc by done. apply (inj Some) in Hc.
    rewrite <- Hc. cbn [Dashboard.points]. apply length_imap. }
  destruct (finite_scale_ends _ _ Hf Hne' Ht) as (a & b & Ha & Hb & Hab & Hv & _).
  rewrite Ha, Hb in Hspan.
  destruct (rounded_range fl Hfl values targetValue a b Ha Hb Hab Hspan)
    as (r & Hr & Hpos & _ & Hw).
  apply Forall_forall. intros p Hp.
  apply list_elem_of_lookup in Hp as [i Hi].
  destruct (rounded_points_lookup fl _ _ _ _ _ _ Hc Hi) as (e & He & Hx & Hy).
  assert (JS.asNumber (value e) ∈ values) as Hin.
  { unfold values, Dashboard.chartValues.
    apply (list_elem_of_fmap_2 (λ e, JS.asNumber (value e))).
    by eapply list_elem_of_lookup_2. }
  assert (∃ v, JS.asNumber (value e) = JS.Fin v) as [v Hev].
  { apply isFinite_Fin. by eapply Forall_forall in Hf. }
  rewrite Hev in Hin, Hy. destruct (Hv v Hin) as [H1 H2].
  fold values in Hy. rewrite Ha, Hr in Hy.
  destruct (yOf_between fl Hfl a r v Hpos H1 (Hw v H1 H2))
    as (y' & Ey & Hy1 & Hy2).
  unfold onCanvas. rewrite Hx, Hy, Ey.
  destruct (xOf_on_canvas fl Hfl (length (Dashboard.numericEntries entries)) i)
    as [Hx1 Hx2]; [done|by eapply lookup_lt_Some|].
  split; [done|]. split; [done|].
  unfold JS.ofZ. by rewrite !le_Fin.
Qed.

Lemma chart_points_stay_on_canvas_witness :
  ∃ c, RoundedDashboard.renderNumericChart roundToGrid entries_80_75_70
         (Some "kg") (Some (JS.ofZ 68)) = Some c
     ∧ length (Dashboard.points c) = 3%nat
     ∧ Forall onCanvas (Dashboard.points c).
Proof.
  destruct (RoundedDashboard.renderNumericChart roundToGrid entries_80_75_70
              (Some "kg") (Some (JS.ofZ 68))) as [c|] eqn:Hc;
    [|vm_compute in Hc; discriminate Hc].
  exists c. split; [reflexivity|].
  apply (chart_points_stay_on_canvas roundToGrid entries_80_75_70 (Some "kg")
           (Some (JS.ofZ 68)) c roundToGrid_faithful).
  - vm_compute. repeat constructor.
  - reflexivity.
  - reflexivity.
  - vm_compute. discriminate.
  - exact Hc.
Defined.

(** X7. Computed in floating-point arithmetic, for finite entry values
    and a finite target whose span [scaleMax - scaleMin] does not
    overflow, the target line is always drawn, between the two guide
    lines; it lies on the bottom guide when no entry is below the target,
    and on the top guide when every entry is below it (and the span is
    not rounded to zero). *)
Theorem finite_target_line_is_drawn
    (fl : Qc → JS.number) (entries : list GoalEntry) (unit : option string)
    (t : Qc) (c : Dashboard.Chart) :
  Rounding.Faithful fl →
  let values := Dashboard.chartValues entries in
  let target := Some (JS.Fin t) in
  allFinite values →
  JS.isFinite (Rounding.sub fl (Dashboard.scaleMax values target)
                 (Dashboard.scaleMin values target)) = true →
  RoundedDashboard.renderNumericChart fl entries unit target = Some c →
  ∃ ty, Dashboard.targetY c = Some ty
      ∧ Dashboard.targetLine c = Some ty
      ∧ JS.le (JS.ofZ 12) ty = true
      ∧ JS.le ty (JS.ofZ 108) = true
      ∧ (JS.le (JS.Fin t) (JS.min values) = true → ty = JS.ofZ 108)
      ∧ (JS.lt (JS.max values) (JS.Fin t) = true →
         Rounding.sub fl (JS.Fin t) (JS.min values) ≠ JS.ofZ 0 →
         ty = JS.ofZ 12).
Proof.
  intros Hfl values target Hf Hspan Hc.
  assert (Dashboard.numericEntries entries ≠ []) as Hne.
  { intros E. by rewrite rounded_chart_None in Hc. }
  assert (values ≠ []) as Hne'.
  { unfold values, Dashboard.chartValues. intros E.
    by apply fmap_nil_inv in E. }
  destruct (finite_scale_ends values target Hf Hne' eq_refl)
    as (a & b & Ha & Hb & Hab & Hv & Ht).
  destruct (Ht t eq_refl) as [H1 H2].
  rewrite Ha, Hb in Hspan.
  destruct (rounded_range fl Hfl values target a b Ha Hb Hab Hspan)
    as (r & Hr & Hpos & Hfull & Hw).
  destruct (yOf_between fl Hfl a r t Hpos H1 (Hw t H1 H2))
    as (y' & Ey & Hy1 & Hy2).
  destruct (min_finite _ Hf Hne') as (a0 & Ha0 & _).
  destruct (max_finite _ Hf Hne') as (b0 & Hb0 & _).
  assert (JS.gt (JS.Fin r) (JS.ofZ 0) = true) as Hgt.
  { unfold JS.gt, JS.ofZ. apply lt_Fin. by rewrite Z2Qc_inj_0. }
  rewrite rounded_chart_Some in Hc by done. apply (inj Some) in Hc.
  rewrite <- Hc.
  cbn [Dashboard.targetY Dashboard.targetLine].
  fold values target. rewrite Ha, Hr, Hgt.
  cbn [Dashboard.hasTarget JS.isNumber JS.asNumber JS.isNaN negb andb target].
  rewrite (sub_int fl Hfl 120 12) by lia. change (120 - 12)%Z with 108%Z.
  rewrite Ey. unfold JS.ge, JS.ofZ.
  rewrite (proj2 (le_Fin _ _) Hy1), (proj2 (le_Fin _ _) Hy2). cbn [andb].
  eexists. split; [done|]. split; [done|].
  split; [by apply le_Fin|]. split; [by apply le_Fin|]. split.
  - intros Hle. fold values in Ha0. rewrite Ha0 in Hle.
    assert (a = t) as ->.
    { unfold Dashboard.scaleMin in Ha.
      cbn [Dashboard.hasTarget JS.isNumber JS.asNumber JS.isNaN negb andb
           target] in Ha.
      rewrite Ha0 in Ha. unfold JS.min2 in Ha.
      unfold JS.le in Hle. rewrite compare_antisym in Ha.
      destruct (JS.compare (JS.Fin t) (JS.Fin a0)) as [[]|] eqn:E;
        try done; simpl in Ha; injection Ha as <-; try done.
      simpl in E. injection E as E. by apply Qceq_alt in E. }
    rewrite <- Ey. by apply (yOf_low fl Hfl).
  - intros Hlt Hnz. fold values in Ha0, Hb0. rewrite Hb0 in Hlt.
    rewrite Ha0 in Hnz.
    assert (b = t) as ->.
    { unfold Dashboard.scaleMax in Hb.
      cbn [Dashboard.hasTarget JS.isNumber JS.asNumber JS.isNaN negb andb
           target] in Hb.
      rewrite Hb0 in Hb. unfold JS.max2 in Hb. unfold JS.lt in Hlt.
      destruct (JS.compare (JS.Fin b0) (JS.Fin t)) as [[]|]; try done.
      by injection Hb as <-. }
    assert (a = a0) as ->.
    { assert (JS.le (JS.Fin a0) (JS.Fin t) = true) as Hle.
      { eapply le_trans; [|by apply le_Fin, Qclt_le_weak, lt_Fin].
        rewrite <- Ha0, <- Hb0.
        destruct (min_finite _ Hf Hne') as (a1 & Ha1 & Hin).
        fold values. rewrite Ha1.
        apply max_ge_elem; [by apply allFinite_noNaN|done]. }
      unfold Dashboard.scaleMin in Ha.
      cbn [Dashboard.hasTarget JS.isNumber JS.asNumber JS.isNaN negb andb
           target] in Ha.
      rewrite Ha0 in Ha. unfold JS.min2 in Ha. unfold JS.le in Hle.
      destruct (JS.compare (JS.Fin a0) (JS.Fin t)) as [[]|]; try done;
        by injection Ha as <-. }
    rewrite <- Ey. apply (yOf_high fl Hfl); [done|]. by apply Hfull.
Qed.

Lemma finite_target_line_is_drawn_witness :
  ∃ c, RoundedDashboard.renderNumericChart roundToGrid entries_80_75_70
         (Some "kg") (Some (JS.ofZ 68)) = Some c
     ∧ Dashboard.targetLine c = Some (JS.ofZ 108).
Proof.
  destruct (RoundedDashboard.renderNumericChart roundToGrid entries_80_75_70
              (Some "kg") (Some (JS.ofZ 68))) as [c|] eqn:Hc;
    [|vm_compute in Hc; discriminate Hc].
  exists c. split; [reflexivity|].
  destruct (finite_target_line_is_drawn roundToGrid entries_80_75_70 (Some "kg")
              (Qc_of_Z 68) c roundToGrid_faithful)
    as (ty & _ & Hline & _ & _ & Hlow & _).
  - vm_compute. repeat constructor.
  - reflexivity.
  - exact Hc.
  - rewrite Hline. f_equal. apply Hlow. reflexivity.
Defined.

(** X8. Computed in floating-point arithmetic, in both charts the points
    run from left to right: the first point is at [x = paddingX = 16],
    and of two points the later one is strictly to the right of the
    earlier one, for any number of points an array can hold (at most
    [2^32]). *)
Theorem chart_points_run_left_to_right
    (fl : Qc → JS.number) (entries : list GoalEntry) :
  Rounding.Faithful fl →
  Z.of_nat (length (Dashboard.numericEntries entries)) ≤ 2 ^ 32 →
  (∀ unit targetValue c,
     RoundedDashboard.renderNumericChart fl entries unit targetValue
     = Some c →
     (∀ p, Dashboard.points c !! 0%nat = Some p → x p = JS.ofZ 16)
     ∧ (∀ (i j : nat) p q, (i < j)%nat →
          Dashboard.points c !! i = Some p →
          Dashboard.points c !! j = Some q →
          JS.lt (x p) (x q) = true))
  ∧ (∀ c,
       RoundedGoalDetail.renderNumericChart fl entries = Some c →
       (∀ p, GoalDetail.points c !! 0%nat = Some p → x p = JS.ofZ 16)
       ∧ (∀ (i j : nat) p q, (i < j)%nat →
            GoalDetail.points c !! i = Some p →
            GoalDetail.points c !! j = Some q →
            JS.lt (x p) (x q) = true)).
Proof.
  intros Hfl Hlen. split.
  - intros unit targetValue c Hc. split.
    + intros p Hp.
      destruct (rounded_points_lookup fl _ _ _ _ _ _ Hc Hp) as (_ & _ & -> & _).
      by apply xOf_first.
    + intros i j p q Hij Hp Hq.
      destruct (rounded_points_lookup fl _ _ _ _ _ _ Hc Hp) as (_ & _ & -> & _).
      destruct (rounded_points_lookup fl _ _ _ _ _ _ Hc Hq)
        as (e & He & -> & _).
      apply (xOf_increasing fl Hfl); [lia|done|by eapply lookup_lt_Some].
  - intros c Hc. split.
    + intros p Hp.
      destruct (rounded_detail_points_lookup fl _ _ _ _ Hc Hp)
        as (_ & _ & _ & _ & -> & _).
      by apply xOf_first.
    + intros i j p q Hij Hp Hq.
      destruct (rounded_detail_points_lookup fl _ _ _ _ Hc Hp)
        as (_ & _ & _ & _ & -> & _).
      destruct (rounded_detail_points_lookup fl _ _ _ _ Hc Hq)
        as (_ & _ & e & He & -> & _).
      apply (xOf_increasing fl Hfl); [lia|done|by eapply lookup_lt_Some].
Qed.

Lemma chart_points_run_left_to_right_witness :
  ∃ c p q,
    RoundedGoalDetail.renderNumericChart roundToGrid entries_80_75_70 = Some c
    ∧ GoalDetail.points c !! 1%nat = Some p
    ∧ GoalDetail.points c !! 2%nat = Some q
    ∧ JS.lt (x p) (x q) = true.
Proof.
  destruct (RoundedGoalDetail.renderNumericChart roundToGrid entries_80_75_70)
    as [c|] eqn:Hc; [|vm_compute in Hc; discriminate Hc].
  assert (length (GoalDetail.points c) = 3%nat) as Hlen.
  { rewrite rounded_detail_chart_Some in Hc by (vm_compute; discriminate).
    injection Hc as <-. reflexivity. }
  assert (is_Some (GoalDetail.points c !! 1%nat)) as [p Hp]
    by (apply lookup_lt_is_Some; lia).
  assert (is_Some (GoalDetail.points c !! 2%nat)) as [q Hq]
    by (apply lookup_lt_is_Some; lia).
  exists c, p, q. split; [reflexivity|]. split; [exact Hp|].
  split; [exact Hq|].
  destruct (chart_points_run_left_to_right roundToGrid entries_80_75_70
              roundToGrid_faithful) as [_ Detail].
  - vm_compute. discriminate.
  - destruct (Detail c Hc) as [_ Hinc]. apply (Hinc 1%nat 2%nat); [lia|done|done].
Defined.

(** X9. Computed in floating-point arithmetic, in the chart of the
    goal-detail page, for finite entry values whose span [max - min] does
    not overflow, every point lies on the canvas between the guide lines;
    an entry with the least value is plotted on the bottom guide
    ([y = 108]) and, unless the span is zero, an entry with the greatest
    value on the top guide ([y = 12]). *)
Theorem detail_chart_extremes_on_guides
    (fl : Qc → JS.number) (entries : list GoalEntry) (c : GoalDetail.Chart) :
  Rounding.Faithful fl →
  let values := Dashboard.chartValues entries in
  allFinite values →
  JS.isFinite (Rounding.sub fl (JS.max values) (JS.min values)) = true →
  Z.of_nat (length (GoalDetail.numericEntries entries)) ≤ 2 ^ 32 →
  RoundedGoalDetail.renderNumericChart fl entries = Some c →
  Forall onCanvas (GoalDetail.points c)
  ∧ ∀ (i : nat) e p,
      GoalDetail.numericEntries entries !! i = Some e →
      GoalDetail.points c !! i = Some p →
      (value e = Some (GoalDetail.minVal c) → y p = JS.ofZ 108)
      ∧ (value e = Some (GoalDetail.maxVal c) →
         Rounding.sub fl (GoalDetail.maxVal c) (GoalDetail.minVal c)
         ≠ JS.ofZ 0 →
         y p = JS.ofZ 12).
Proof.
  intros Hfl values Hf Hspan Hlen Hc.
  change (GoalDetail.numericEntries entries)
    with (Dashboard.numericEntries entries) in *.
  assert (Dashboard.numericEntries entries ≠ []) as Hne.
  { intros E. by rewrite rounded_detail_chart_None in Hc. }
  assert (values ≠ []) as Hne'.
  { unfold values, Dashboard.chartValues. intros E.
    by apply fmap_nil_inv in E. }
  destruct (finite_scale_ends values None Hf Hne' I)
    as (a & b & Ha & Hb & Hab & Hv & _).
  rewrite scaleMin_None in Ha. rewrite scaleMax_None in Hb.
  rewrite Ha, Hb in Hspan.
  destruct (rounded_range fl Hfl values None a b) as (r & Hr & Hpos & Hfull & Hw);
    [by rewrite scaleMin_None|by rewrite scaleMax_None|done|done|].
  assert (JS.gt (JS.Fin r) (JS.ofZ 0) = true) as Hgt.
  { unfold JS.gt, JS.ofZ. apply lt_Fin. by rewrite Z2Qc_inj_0. }
  split.
  - apply Forall_forall. intros p Hp.
    apply list_elem_of_lookup in Hp as [i Hi].
    destruct (rounded_detail_points_lookup fl _ _ _ _ Hc Hi)
      as (_ & _ & e & He & Hx & Hy).
    assert (JS.asNumber (value e) ∈ values) as Hin.
    { unfold values, Dashboard.chartValues.
      apply (list_elem_of_fmap_2 (λ e, JS.asNumber (value e))).
      by eapply list_elem_of_lookup_2. }
    assert (∃ v, JS.asNumber (value e) = JS.Fin v) as [v Hev].
    { apply isFinite_Fin. by eapply Forall_forall in Hf. }
    rewrite Hev in Hin, Hy. destruct (Hv v Hin) as [H1 H2].
    fold values in Hy. rewrite Ha, Hr in Hy.
    destruct (yOf_between fl Hfl a r v Hpos H1 (Hw v H1 H2))
      as (y' & Ey & Hy1 & Hy2).
    unfold onCanvas. rewrite Hx, Hy, Ey.
    destruct (xOf_on_canvas fl Hfl
                (length (Dashboard.numericEntries entries)) i)
      as [Hx1 Hx2]; [done|by eapply lookup_lt_Some|].
    split; [done|]. split; [done|].
    unfold JS.ofZ. by rewrite !le_Fin.
  - intros i e p He Hp.
    destruct (rounded_detail_points_lookup fl _ _ _ _ Hc Hp)
      as (Hmin & Hmax & e' & He' & _ & Hy).
    rewrite He in He'. injection He' as <-.
    fold values in Hmin, Hmax, Hy. rewrite Hmin, Hmax, Ha, Hb.
    rewrite Ha, Hr in Hy. split.
    + intros E. rewrite E in Hy. cbn [JS.asNumber] in Hy. rewrite Hy.
      by apply (yOf_low fl Hfl).
    + intros E Hnz. rewrite E in Hy. cbn [JS.asNumber] in Hy. rewrite Hy.
      apply (yOf_high fl Hfl); [done|]. by apply Hfull.
Qed.

Lemma detail_chart_extremes_on_guides_witness :
  ∃ c p,
    RoundedGoalDetail.renderNumericChart roundToGrid entries_80_75_70 = Some c
    ∧ GoalDetail.points c !! 0%nat = Some p
    ∧ y p = JS.ofZ 12.
Proof.
  destruct (RoundedGoalDetail.renderNumericChart roundToGrid entries_80_75_70)
    as [c|] eqn:Hc; [|vm_compute in Hc; discriminate Hc].
  assert (GoalDetail.maxVal c = JS.ofZ 80 ∧ GoalDetail.minVal c = JS.ofZ 70
          ∧ length (GoalDetail.points c) = 3%nat) as (Hmax & Hmin & Hlen).
  { rewrite rounded_detail_chart_Some in Hc by (vm_compute; discriminate).
    injection Hc as <-. repeat split; reflexivity. }
  assert (is_Some (GoalDetail.points c !! 0%nat)) as [p Hp]
    by (apply lookup_lt_is_Some; lia).
  exists c, p. split; [reflexivity|]. split; [exact Hp|].
  destruct (detail_chart_extremes_on_guides roundToGrid entries_80_75_70 c
              roundToGrid_faithful) as [_ Hext].
  - vm_compute. repeat constructor.
  - reflexivity.
  - vm_compute. discriminate.
  - exact Hc.
  - destruct (Hext 0%nat (numericEntry "e1" (Date.isoDay 2024 6 1) 80 1000) p
                eq_refl Hp) as [_ Htop].
    apply Htop.
    + rewrite Hmax. reflexivity.
    + rewrite Hmax, Hmin. vm_compute. discriminate.
Defined.

(** ** The dashboard as a whole *)

Section DashboardFacts.

Import Dashboard.

(** Whatever the reads return, the two maps are built from one array of
    entries (the empty one when a read fails or there is no goal). *)
Lemma getDashboardData_maps supabase :
  ∃ entries,
    latestEntriesByGoal (getDashboardData supabase)
      = foldl setLatest ∅ (Array.sort compareEntries entries)
    ∧ entriesByGoal (getDashboardData supabase) = foldl pushEntry ∅ entries.
Proof.
  unfold getDashboardData.
  destruct (error (selectGoals supabase)); [by exists []|].
  destruct (length _ =? 0)%nat; [by exists []|].
  destruct (error (selectEntries _ _)); [by exists []|].
  by eexists.
Qed.

Lemma getDashboardData_goals supabase :
  goals (getDashboardData supabase)
  = match error (selectGoals supabase) with
    | Some _ => []
    | None => default [] (data (selectGoals supabase))
    end.
Proof.
  unfold getDashboardData.
  destruct (error (selectGoals supabase)); [done|].
  destruct (default [] (data (selectGoals supabase))) eqn:E; [done|].
  cbn [length Nat.eqb]. by destruct (error (selectEntries _ _)).
Qed.

(** The group of a goal after the first [forEach]. *)
Lemma foldl_pushEntry_lookup (l : list GoalEntry)
    (m : gmap string (list GoalEntry)) g :
  foldl pushEntry m l !! g
  = match filter (λ e, goal_id e = g) l with
    | [] => m !! g
    | mine => Some (default [] (m !! g) ++ mine)
    end.
Proof.
  revert m. induction l as [|e l IH]; intros m; [done|]. simpl.
  rewrite IH. unfold pushEntry. rewrite filter_cons.
  destruct (decide (goal_id e = g)) as [<-|Hne].
  - rewrite lookup_insert_eq. simpl.
    destruct (filter _ l); simpl; [done|]. by rewrite <- app_assoc.
  - by rewrite lookup_insert_ne.
Qed.

End DashboardFacts.

(** X1. Every goal that was read gets exactly one card: the pinned goals
    in the pinned section and the others in the other section, each in
    the order the goals were read; the empty state is shown exactly when
    there is no goal (none read, or the read failed). *)
Theorem every_goal_gets_one_card
    (fmtDate : Z → string) (fmtNumber : JS.number → string) (tza now : Z)
    (supabase : Store) :
  let d := Dashboard.getDashboardData supabase in
  let vm := Dashboard.DashboardPage fmtDate fmtNumber tza now supabase in
  Dashboard.goals d
    = match error (selectGoals supabase) with
      | Some _ => []
      | None => default [] (data (selectGoals supabase))
      end
  ∧ Dashboard.card_goal <$> Dashboard.pinned vm
    = filter (λ g, is_pinned g = true) (Dashboard.goals d)
  ∧ Dashboard.card_goal <$> Dashboard.other vm
    = filter (λ g, is_pinned g = false) (Dashboard.goals d)
  ∧ (Dashboard.card_goal <$> Dashboard.pinned vm)
    ++ (Dashboard.card_goal <$> Dashboard.other vm)
    ≡ₚ Dashboard.goals d
  ∧ (Dashboard.emptyState vm = true
     ↔ Dashboard.pinned vm = [] ∧ Dashboard.other vm = []).
Proof.
  intros d vm.
  assert (Dashboard.card_goal <$> Dashboard.pinned vm
          = filter (λ g, is_pinned g = true) (Dashboard.goals d)) as Hp.
  { unfold vm, Dashboard.DashboardPage. cbn [Dashboard.pinned]. fold d.
    rewrite <- list_fmap_compose. apply list_fmap_id. }
  assert (Dashboard.card_goal <$> Dashboard.other vm
          = filter (λ g, is_pinned g = false) (Dashboard.goals d)) as Ho.
  { unfold vm, Dashboard.DashboardPage. cbn [Dashboard.other]. fold d.
    rewrite <- list_fmap_compose. apply list_fmap_id. }
  assert ((Dashboard.card_goal <$> Dashboard.pinned vm)
          ++ (Dashboard.card_goal <$> Dashboard.other vm)
          ≡ₚ Dashboard.goals d) as Hperm.
  { rewrite Hp, Ho.
    rewrite (list_filter_iff (λ g, is_pinned g = false)
               (λ g, ¬ is_pinned g = true)).
    - apply filter_app_complement.
    - intros g. by destruct (is_pinned g). }
  split; [apply getDashboardData_goals|].
  split; [done|]. split; [done|]. split; [done|].
  assert (Dashboard.emptyState vm = true ↔ Dashboard.goals d = []) as ->.
  { unfold vm, Dashboard.DashboardPage. cbn [Dashboard.emptyState]. fold d.
    rewrite Nat.eqb_eq. apply length_zero_iff_nil. }
  split.
  - intros E. rewrite E in Hp, Ho.
    split; by eapply fmap_nil_inv.
  - intros [E1 E2]. rewrite E1, E2 in Hperm.
    by apply Permutation_nil_l in Hperm.
Qed.

(** The calendar has done dates exactly when some entry is done. *)
Lemma doneDates_nonempty (l : list GoalEntry) :
  foldl Dashboard.addDone ∅ l ≠ ∅ ↔ ∃ e, e ∈ l ∧ is_done e = Some true.
Proof.
  split.
  - intros Hne. apply set_choose_L in Hne as [d Hd].
    apply foldl_addDone_elem in Hd as [Hd|(e & He & Hdone & _)].
    + by apply not_elem_of_empty in Hd.
    + by exists e.
  - intros (e & He & Hd) E.
    assert (entry_date e ∈ foldl Dashboard.addDone ∅ l) as Hin.
    { apply foldl_addDone_elem. right. by exists e. }
    rewrite E in Hin. by apply not_elem_of_empty in Hin.
Qed.

Lemma renderCheckinCalendar_is_Some tza now entries :
  is_Some (Dashboard.renderCheckinCalendar tza now entries)
  ↔ ∃ e, e ∈ entries ∧ is_done e = Some true.
Proof.
  rewrite <- doneDates_nonempty. split.
  - intros [c Hc] E. by rewrite renderCheckinCalendar_no_done in Hc.
  - intros Hne. rewrite renderCheckinCalendar_cells by done. by eexists.
Qed.

Lemma renderNumericChart_is_Some_iff entries unit targetValue :
  is_Some (Dashboard.renderNumericChart entries unit targetValue)
  ↔ ∃ e, e ∈ entries ∧ value e ≠ None.
Proof.
  split.
  - intros [c Hc].
    destruct (Dashboard.numericEntries entries) as [|e l] eqn:E.
    { by rewrite renderNumericChart_None in Hc. }
    exists e. apply and_comm.
    apply (list_elem_of_filter (λ e, value e ≠ None)).
    unfold Dashboard.numericEntries in E. rewrite E. by left.
  - intros (e & He & Hv). apply renderNumericChart_is_Some.
    intros E.
    assert (e ∈ Dashboard.numericEntries entries) as Hin
      by by apply list_elem_of_filter.
    rewrite E in Hin. by apply elem_of_nil in Hin.
Qed.

(** X2. Visuals are attached to pinned cards only, and by tracker type:
    a card of the other section has neither calendar nor chart; a pinned
    card has a calendar only for a check-in goal, exactly when one of the
    goal's entries is done, and a chart only for a numeric goal, exactly
    when one of the goal's entries has a value; no card has both. *)
Theorem visuals_only_on_pinned_cards
    (fmtDate : Z → string) (fmtNumber : JS.number → string) (tza now : Z)
    (supabase : Store) :
  let d := Dashboard.getDashboardData supabase in
  let vm := Dashboard.DashboardPage fmtDate fmtNumber tza now supabase in
  let entriesOf (g : Goal) :=
    default [] (Dashboard.entriesByGoal d !! g_id g) in
  (∀ card, card ∈ Dashboard.other vm →
     is_pinned (Dashboard.card_goal card) = false
     ∧ Dashboard.calendar card = None ∧ Dashboard.chart card = None)
  ∧ (∀ card, card ∈ Dashboard.pinned vm →
       let g := Dashboard.card_goal card in
       is_pinned g = true
       ∧ (is_Some (Dashboard.calendar card)
          ↔ tracker_type g = Some checkin
            ∧ ∃ e, e ∈ entriesOf g ∧ is_done e = Some true)
       ∧ (is_Some (Dashboard.chart card)
          ↔ tracker_type g = Some numeric
            ∧ ∃ e, e ∈ entriesOf g ∧ value e ≠ None)
       ∧ (Dashboard.calendar card = None ∨ Dashboard.chart card = None)).
Proof.
  intros d vm entriesOf. split.
  - intros card Hc. unfold vm, Dashboard.DashboardPage in Hc.
    cbn [Dashboard.other] in Hc. fold d in Hc.
    apply list_elem_of_fmap in Hc as (g & -> & Hg).
    apply list_elem_of_filter in Hg as [Hg _].
    unfold Dashboard.renderGoalCard.
    cbn [Dashboard.card_goal Dashboard.calendar Dashboard.chart].
    split; [done|]. by destruct (tracker_type g) as [[]|].
  - intros card Hc g. unfold vm, Dashboard.DashboardPage in Hc.
    cbn [Dashboard.pinned] in Hc. fold d in Hc.
    apply list_elem_of_fmap in Hc as (g' & -> & Hg).
    apply list_elem_of_filter in Hg as [Hg _].
    unfold g, Dashboard.renderGoalCard.
    cbn [Dashboard.card_goal Dashboard.calendar Dashboard.chart].
    fold (entriesOf g').
    split; [done|].
    destruct (tracker_type g') as [[]|]; (split; [|split]).
    + rewrite renderCheckinCalendar_is_Some. intuition.
    + split; [by intros []|by intros []].
    + by right.
    + split; [by intros []|by intros []].
    + rewrite renderNumericChart_is_Some_iff. intuition.
    + by left.
    + split; [by intros []|by intros []].
    + split; [by intros []|by intros []].
    + by left.
Qed.

(** X3. When both reads succeed, [entriesByGoal] holds for each goal id
    exactly the entries of that goal, in the order they were read: every
    entry is in the group of its goal, a goal without entries has no
    group, and no group is empty or holds an entry of another goal. *)
Theorem entries_are_grouped_by_goal
    (supabase : Store) (goalRows : list Goal) (entryRows : list GoalEntry) :
  selectGoals supabase = mkResponse (Some goalRows) None →
  goalRows ≠ [] →
  selectEntries supabase (map g_id goalRows)
    = mkResponse (Some entryRows) None →
  let groups := Dashboard.entriesByGoal (Dashboard.getDashboardData supabase) in
  (∀ g, default [] (groups !! g) = filter (λ e, goal_id e = g) entryRows)
  ∧ (∀ g, groups !! g = None ↔ ∀ e, e ∈ entryRows → goal_id e ≠ g)
  ∧ (∀ e, e ∈ entryRows →
       ∃ group, groups !! goal_id e = Some group ∧ e ∈ group)
  ∧ (∀ g group, groups !! g = Some group →
       group ≠ [] ∧ Forall (λ e, goal_id e = g) group).
Proof.
  intros Hg Hne He groups.
  assert (∀ g, groups !! g
               = match filter (λ e, goal_id e = g) entryRows with
                 | [] => None
                 | mine => Some mine
                 end) as Hlook.
  { intros g. unfold groups.
    rewrite (getDashboardData_ok _ _ _ Hg Hne He).
    cbn [Dashboard.entriesByGoal].
    rewrite foldl_pushEntry_lookup, lookup_empty.
    by destruct (filter _ entryRows). }
  split; [|split; [|split]].
  - intros g. rewrite Hlook. by destruct (filter _ entryRows).
  - intros g. rewrite Hlook. split.
    + intros H e Hin Hge.
      assert (e ∈ filter (λ e, goal_id e = g) entryRows) as Hf
        by by apply list_elem_of_filter.
      destruct (filter _ entryRows); [by apply elem_of_nil in Hf|done].
    + intros H. destruct (filter _ entryRows) as [|e l] eqn:E; [done|].
      assert (e ∈ filter (λ e, goal_id e = g) entryRows) as Hf
        by (rewrite E; by left).
      apply list_elem_of_filter in Hf as [Hge Hin]. by destruct (H e Hin).
  - intros e Hin.
    assert (e ∈ filter (λ e', goal_id e' = goal_id e) entryRows) as Hf
      by by apply list_elem_of_filter.
    rewrite Hlook. destruct (filter _ entryRows) as [|e' l] eqn:E.
    + by apply elem_of_nil in Hf.
    + by eexists.
  - intros g group. rewrite Hlook.
    destruct (filter _ entryRows) as [|e l] eqn:E; [done|].
    intros [= <-]. split; [done|].
    rewrite <- E. apply Forall_forall. intros e' He'.
    by apply list_elem_of_filter in He' as [? _].
Qed.

Lemma entries_are_grouped_by_goal_witness :
  Dashboard.entriesByGoal
    (Dashboard.getDashboardData (storeOf entries_same_day)) !! "goal-1"
  = Some entries_same_day
  ∧ Dashboard.entriesByGoal
      (Dashboard.getDashboardData (storeOf entries_same_day)) !! "goal-2"
    = None.
Proof.
  destruct (entries_are_grouped_by_goal (storeOf entries_same_day)
              [goal_1] entries_same_day eq_refl ltac:(discriminate) eq_refl)
    as (Hdef & Hnone & _ & _).
  split.
  - pose proof (Hdef "goal-1") as H.
    destruct (Dashboard.entriesByGoal _ !! "goal-1") as [group|] eqn:E.
    + simpl in H. rewrite H. reflexivity.
    + vm_compute in H. discriminate H.
  - apply Hnone. intros e He.
    apply list_elem_of_In in He. simpl in He.
    destruct He as [<-|[<-|[]]]; discriminate.
Defined.

(** X4. Whatever the reads return, a goal has a latest entry exactly when
    it has a group of entries; the latest entry is an entry of that
    group, hence of that goal, and no entry of the group is newer. *)
Theorem latest_entry_is_of_its_group (supabase : Store) (g : string) :
  let d := Dashboard.getDashboardData supabase in
  (Dashboard.latestEntriesByGoal d !! g = None
   ↔ Dashboard.entriesByGoal d !! g = None)
  ∧ ∀ e, Dashboard.latestEntriesByGoal d !! g = Some e →
      goal_id e = g
      ∧ ∃ group, Dashboard.entriesByGoal d !! g = Some group
          ∧ e ∈ group
          ∧ ∀ e', e' ∈ group → newerOrSame e e'.
Proof.
  intros d. destruct (getDashboardData_maps supabase) as (entries & Hl & Hg).
  fold d in Hl, Hg. rewrite Hl, Hg.
  rewrite foldl_setLatest, lookup_empty, foldl_pushEntry_lookup, lookup_empty.
  rewrite (filter_sort _ compareEntries_consistent).
  set (mine := filter (λ e, goal_id e = g) entries).
  assert (∀ e, e ∈ mine → goal_id e = g) as Hmine.
  { intros e He. by apply list_elem_of_filter in He as [? _]. }
  split.
  - rewrite head_None. split.
    + intros E. pose proof (sort_perm Dashboard.compareEntries mine) as Hp.
      rewrite E in Hp. apply Permutation_nil_l in Hp. by rewrite <- Hp.
    + intros E. by destruct mine.
  - intros e He.
    destruct (sort_head _ compareEntries_consistent mine e He) as [Hin Hmax].
    split; [by apply Hmine|].
    exists mine. split; [|split; [done|]].
    + destruct mine; [by apply elem_of_nil in Hin|done].
    + intros e' He'. apply compareEntries_le. by apply Hmax.
Qed.

(** ** The History list *)

Lemma StronglySorted_weaken {A} (R1 R2 : relation A) (l : list A) :
  (∀ a b, R1 a b → R2 a b) → StronglySorted R1 l → StronglySorted R2 l.
Proof.
  intros HR. induction 1 as [|a l Hl IH Ha]; constructor; [done|].
  eapply Forall_impl; [exact Ha|]. intros b. apply HR.
Qed.

(** Entries none of which the comparator puts after another are left as
    they are. *)
Lemma sort_all_tied {A} (cmp : A → A → Z) (l : list A) :
  (∀ a b, a ∈ l → b ∈ l → cmp a b ≤ 0) → Array.sort cmp l = l.
Proof.
  induction l as [|a l IH]; intros H; [done|].
  change (Array.sort cmp (a :: l))
    with (Array.insert cmp a (Array.sort cmp l)).
  rewrite IH.
  - destruct l as [|z l]; [done|]. simpl.
    destruct (Z.ltb_spec 0 (cmp a z)) as [Hlt|]; [|done].
    assert (cmp a z ≤ 0) by (apply H; [by left|by right; left]). lia.
  - intros x z Hx Hz. apply H; by right.
Qed.

(** X5. The History lists every entry of the page exactly once, newest
    first by [entry_date] and then [created_at]; entries equal in both
    keep the order they have in the page's entry list. *)
Theorem history_is_a_stable_newest_first_ordering
    (entries hist : list GoalEntry) :
  GoalDetail.history entries = Some hist →
  hist ≡ₚ entries
  ∧ StronglySorted newerOrSame hist
  ∧ ∀ (date created : Z),
      filter (λ e, entry_date e = date ∧ created_at e = created) hist
      = filter (λ e, entry_date e = date ∧ created_at e = created) entries.
Proof.
  unfold GoalDetail.history.
  change GoalDetail.compareEntries with Dashboard.compareEntries.
  destruct (length entries =? 0)%nat; [done|]. intros [= <-].
  split; [apply sort_perm|]. split.
  - eapply StronglySorted_weaken;
      [|apply (sort_sorted _ compareEntries_consistent)].
    intros a b. apply compareEntries_le.
  - intros date created.
    rewrite (filter_sort _ compareEntries_consistent).
    apply sort_all_tied. intros a b Ha Hb.
    apply list_elem_of_filter in Ha as [[Ha1 Ha2] _].
    apply list_elem_of_filter in Hb as [[Hb1 Hb2] _].
    apply compareEntries_le. unfold newerOrSame. lia.
Qed.

Lemma history_is_a_stable_newest_first_ordering_witness :
  ∃ hist, GoalDetail.history entries_80_75_70 = Some hist
        ∧ hist ≡ₚ entries_80_75_70
        ∧ StronglySorted newerOrSame hist.
Proof.
  destruct (GoalDetail.history entries_80_75_70) as [hist|] eqn:H;
    [|vm_compute in H; discriminate H].
  exists hist. split; [reflexivity|].
  destruct (history_is_a_stable_newest_first_ordering _ _ H) as (H1 & H2 & _).
  split; [exact H1|exact H2].
Defined.

(** ** Summaries and labels *)

(** X10. The summary of a card reads "No entries yet" exactly when the
    goal has no latest entry, whatever the tracker type, the unit and the
    formatting of dates and numbers. *)
Theorem summary_says_no_entries_iff_none
    (fmtDate : Z → string) (fmtNumber : JS.number → string)
    (trackerType : option TrackerType) (entry : option GoalEntry)
    (unit : option string) :
  Dashboard.formatLatestSummary fmtDate fmtNumber trackerType entry unit
    = "No entries yet"
  ↔ entry = None.
Proof.
  split; [|by intros ->].
  destruct entry as [e|]; [|done]. unfold Dashboard.formatLatestSummary.
  destruct trackerType as [[]|].
  - by destruct (is_done e) as [[]|].
  - by destruct (value e).
  - done.
Qed.

(** ** The calendar grid *)

Section GridFacts.

Import Date.

(** The day of the month of a time value is a day of that month. *)
Lemma DateFromTime_range t :
  1 ≤ DateFromTime t
    ≤ gregorianDaysInMonth (YearFromTime t) (MonthFromTime t).
Proof.
  pose proof (YearFromTime_bounds t) as [H1 H2].
  rewrite DayFromYear_succ, DaysInYear_leapDays in H2.
  unfold DateFromTime, MonthFromTime, InLeapYear, DayWithinYear,
    gregorianDaysInMonth.
  rewrite leapDays_gregorian in *.
  set (d := Day t) in *. set (y := YearFromTime t) in *.
  clearbody d y.
  destruct (gregorianLeap y);
    repeat match goal with
           | |- context [?a <? ?b] => destruct (Z.ltb_spec a b)
           end; simpl; lia.
Qed.

Lemma gregorianDaysInMonth_range y m : 28 ≤ gregorianDaysInMonth y m ≤ 31.
Proof.
  unfold gregorianDaysInMonth.
  destruct (gregorianLeap y);
    repeat match goal with |- context [match ?x with _ => _ end] =>
             destruct x end; lia.
Qed.

Lemma dateKey_injective year month d1 d2 :
  Dashboard.dateKey year month d1 = Dashboard.dateKey year month d2 →
  d1 = d2.
Proof. unfold Dashboard.dateKey, isoDay, MakeDay. lia. Qed.

End GridFacts.

(** The cells of a grid, by membership. *)
Lemma grid_cells_membership (k : nat) (n : Z) (tagOf : Z → Dashboard.CellTag)
    (day : Z) (tag : Dashboard.CellTag) :
  Dashboard.DayCell day tag
    ∈ replicate k Dashboard.Blank
      ++ map (λ d, Dashboard.DayCell d (tagOf d)) (seqZ 1 n)
  ↔ 1 ≤ day ≤ n ∧ tag = tagOf day.
Proof.
  rewrite elem_of_app. split.
  - intros [H|H].
    + apply elem_of_replicate in H as [H _]. discriminate H.
    + apply list_elem_of_fmap in H as (d & Hd1 & Hd).
      injection Hd1 as -> ->. apply elem_of_seqZ in Hd. split; [lia|done].
  - intros [Hd ->]. right.
    apply list_elem_of_fmap. exists day. split; [done|].
    apply elem_of_seqZ. lia.
Qed.

(** The fields of a rendered calendar, in terms of its own year and
    month. *)
Lemma calendar_fields tza now entries cal :
  Dashboard.renderCheckinCalendar tza now entries = Some cal →
  Dashboard.cal_year cal = Date.getFullYear tza now
  ∧ Dashboard.cal_month cal = Date.getMonth tza now
  ∧ Dashboard.cal_cells cal
    = replicate
        (Z.to_nat (Date.getDay tza
                     (Date.construct tza (Dashboard.cal_year cal)
                        (Dashboard.cal_month cal) 1)))
        Dashboard.Blank
      ++ map (λ day,
                Dashboard.DayCell day
                  (Dashboard.cellTag (foldl Dashboard.addDone ∅ entries)
                     (Dashboard.cal_year cal) (Dashboard.cal_month cal)
                     (Date.toISODate now) day))
             (seqZ 1 (Date.getDate tza
                        (Date.construct tza (Dashboard.cal_year cal)
                           (Dashboard.cal_month cal + 1) 0))).
Proof.
  intros Hc.
  assert (foldl Dashboard.addDone ∅ entries ≠ ∅) as Hne.
  { intros E. by rewrite renderCheckinCalendar_no_done in Hc. }
  pose proof (renderCheckinCalendar_cells tza now entries Hne) as Hcells.
  cbv zeta in Hcells. rewrite Hc in Hcells.
  apply (inj Some) in Hcells. rewrite Hcells. done.
Qed.

(** The cells of a rendered calendar, by membership. *)
Lemma calendar_day_cells tza now entries cal :
  Dashboard.renderCheckinCalendar tza now entries = Some cal →
  let doneDates := foldl Dashboard.addDone ∅ entries in
  let daysInMonth :=
    Date.getDate tza
      (Date.construct tza (Dashboard.cal_year cal)
         (Dashboard.cal_month cal + 1) 0) in
  ∀ day tag,
    Dashboard.DayCell day tag ∈ Dashboard.cal_cells cal
    ↔ 1 ≤ day ≤ daysInMonth
      ∧ tag = Dashboard.cellTag doneDates (Dashboard.cal_year cal)
                (Dashboard.cal_month cal) (Date.toISODate now) day.
Proof.
  intros Hc doneDates daysInMonth day tag.
  destruct (calendar_fields _ _ _ _ Hc) as (_ & _ & ->).
  apply grid_cells_membership.
Qed.

(** X11. In a rendered calendar a day is styled done exactly when one of
    the entries is done on that date of the displayed month; at most one
    day is styled today, it is the day whose date is the UTC date of the
    clock, and no entry is done on it. *)
Theorem calendar_done_and_today_cells
    (tza now : Z) (entries : list GoalEntry) (cal : Dashboard.Calendar) :
  Dashboard.renderCheckinCalendar tza now entries = Some cal →
  let key := Dashboard.dateKey (Dashboard.cal_year cal)
               (Dashboard.cal_month cal) in
  (∀ day tag,
     Dashboard.DayCell day tag ∈ Dashboard.cal_cells cal →
     (tag = Dashboard.done
      ↔ ∃ e, e ∈ entries ∧ is_done e = Some true ∧ entry_date e = key day))
  ∧ (∀ day,
       Dashboard.DayCell day Dashboard.today ∈ Dashboard.cal_cells cal →
       key day = Date.toISODate now
       ∧ ¬ ∃ e, e ∈ entries ∧ is_done e = Some true
                ∧ entry_date e = key day)
  ∧ (∀ d1 d2,
       Dashboard.DayCell d1 Dashboard.today ∈ Dashboard.cal_cells cal →
       Dashboard.DayCell d2 Dashboard.today ∈ Dashboard.cal_cells cal →
       d1 = d2)
  ∧ (∀ day t1 t2,
       Dashboard.DayCell day t1 ∈ Dashboard.cal_cells cal →
       Dashboard.DayCell day t2 ∈ Dashboard.cal_cells cal →
       t1 = t2).
Proof.
  intros Hc key.
  pose proof (calendar_day_cells _ _ _ _ Hc) as Hcells.
  cbv zeta in Hcells.
  assert (∀ day,
            key day ∈ foldl Dashboard.addDone ∅ entries
            ↔ ∃ e, e ∈ entries ∧ is_done e = Some true
                   ∧ entry_date e = key day) as Hdone.
  { intros day. rewrite foldl_addDone_elem. split.
    - intros [H|H]; [by apply not_elem_of_empty in H|done].
    - by right. }
  assert (∀ day,
            Dashboard.DayCell day Dashboard.today ∈ Dashboard.cal_cells cal →
            key day = Date.toISODate now
            ∧ key day ∉ foldl Dashboard.addDone ∅ entries) as Htoday.
  { intros day H. apply Hcells in H as [_ H].
    unfold Dashboard.cellTag in H. fold (key day) in H.
    destruct (bool_decide_reflect
                (key day ∈ foldl Dashboard.addDone ∅ entries)); [done|].
    destruct (Z.eqb_spec (key day) (Date.toISODate now)); done. }
  split; [|split; [|split]].
  - intros day tag H. apply Hcells in H as [_ ->].
    rewrite <- Hdone. unfold Dashboard.cellTag. fold (key day).
    destruct (bool_decide_reflect
                (key day ∈ foldl Dashboard.addDone ∅ entries)); [done|].
    by destruct (_ =? _).
  - intros day H. destruct (Htoday day H) as [H1 H2].
    split; [done|]. by rewrite <- Hdone.
  - intros d1 d2 H1 H2.
    destruct (Htoday d1 H1) as [E1 _]. destruct (Htoday d2 H2) as [E2 _].
    apply (dateKey_injective (Dashboard.cal_year cal)
             (Dashboard.cal_month cal)).
    fold (key d1) (key d2). congruence.
  - intros day t1 t2 H1 H2.
    apply Hcells in H1 as [_ ->]. by apply Hcells in H2 as [_ ->].
Qed.

Lemma calendar_done_and_today_cells_witness :
  ∃ cal, Dashboard.renderCheckinCalendar 0 noon_15_june checkins_june
         = Some cal
       ∧ Dashboard.DayCell 15 Dashboard.done ∈ Dashboard.cal_cells cal
       ∧ ∃ e, e ∈ checkins_june ∧ is_done e = Some true
            ∧ entry_date e
              = Dashboard.dateKey (Dashboard.cal_year cal)
                  (Dashboard.cal_month cal) 15.
Proof.
  destruct (Dashboard.renderCheckinCalendar 0 noon_15_june checkins_june)
    as [cal|] eqn:Hc; [|vm_compute in Hc; discriminate Hc].
  assert (Dashboard.DayCell 15 Dashboard.done ∈ Dashboard.cal_cells cal)
    as Hin.
  { vm_compute in Hc. injection Hc as <-.
    apply list_elem_of_In. vm_compute. tauto. }
  exists cal. split; [reflexivity|]. split; [exact Hin|].
  destruct (calendar_done_and_today_cells _ _ _ _ Hc) as (Hdone & _).
  exact (proj1 (Hdone 15 Dashboard.done Hin) eq_refl).
Defined.

(** X12. In a runtime whose time zone keeps one offset from UTC (UTC
    itself, or a zone without daylight saving or other transitions, such
    as Asia/Tokyo), whatever that offset is, and for a clock at or after
    the epoch, the grid is laid out for the month of the local date: at
    most six spacers (the weekday of the first of the month, Sunday
    first), then the days 1 to the length of that month in the Gregorian
    calendar, so between 28 and 37 cells; the local day of the month is
    one of the days. *)
Theorem calendar_grid_is_the_local_month
    (tza now : Z) (entries : list GoalEntry) (cal : Dashboard.Calendar) :
  0 ≤ now + tza →
  Dashboard.renderCheckinCalendar tza now entries = Some cal →
  let year := Dashboard.cal_year cal in
  let month := Dashboard.cal_month cal in
  let startWeekday :=
    Date.WeekDay (Date.MakeDay year month 1 * Date.msPerDay) in
  let daysInMonth := gregorianDaysInMonth year month in
  1970 ≤ year ∧ 0 ≤ month ≤ 11
  ∧ 0 ≤ startWeekday ≤ 6
  ∧ 1 ≤ Date.getDate tza now ≤ daysInMonth
  ∧ Dashboard.dateKey year month (Date.getDate tza now)
    = Date.Day (now + tza)
  ∧ Dashboard.cal_cells cal
    = replicate (Z.to_nat startWeekday) Dashboard.Blank
      ++ map (λ day,
                Dashboard.DayCell day
                  (Dashboard.cellTag (foldl Dashboard.addDone ∅ entries)
                     year month (Date.toISODate now) day))
             (seqZ 1 daysInMonth)
  ∧ (28 ≤ length (Dashboard.cal_cells cal) ≤ 37)%nat.
Proof.
  intros Hnow Hc year month startWeekday daysInMonth.
  destruct (calendar_fields _ _ _ _ Hc) as (Hy & Hm & Hcells).
  fold year month in Hy, Hm, Hcells.
  assert (1970 ≤ year) as Hy1.
  { rewrite Hy. by apply YearFromTime_epoch. }
  assert (0 ≤ month ≤ 11) as Hm1.
  { rewrite Hm. apply MonthFromTime_range. }
  assert (0 ≤ startWeekday ≤ 6) as Hw.
  { pose proof (WeekDay_range (Date.MakeDay year month 1 * Date.msPerDay)).
    unfold startWeekday. lia. }
  rewrite getDay_first, getDate_day_zero in Hcells by lia.
  fold startWeekday daysInMonth in Hcells.
  split; [done|]. split; [done|]. split; [done|]. split; [|split; [|split]].
  - unfold daysInMonth. rewrite Hy, Hm. apply DateFromTime_range.
  - rewrite Hy, Hm. by apply dateKey_local_date.
  - done.
  - rewrite Hcells, length_app, length_replicate, length_map, length_seqZ.
    pose proof (gregorianDaysInMonth_range year month).
    fold daysInMonth in H. lia.
Qed.

Lemma calendar_grid_is_the_local_month_witness :
  0 ≤ evening_30_june + utc_plus_9
  ∧ ∃ cal, Dashboard.renderCheckinCalendar utc_plus_9 evening_30_june
             checkins_june = Some cal
         ∧ Dashboard.cal_year cal = 2024 ∧ Dashboard.cal_month cal = 6
         ∧ (28 ≤ length (Dashboard.cal_cells cal) ≤ 37)%nat.
Proof.
  assert (0 ≤ evening_30_june + utc_plus_9) as Hnow by (vm_compute; discriminate).
  split; [exact Hnow|].
  destruct (Dashboard.renderCheckinCalendar utc_plus_9 evening_30_june
              checkins_june) as [cal|] eqn:Hc;
    [|vm_compute in Hc; discriminate Hc].
  exists cal. split; [reflexivity|].
  destruct (calendar_grid_is_the_local_month _ _ _ _ Hnow Hc)
    as (_ & _ & _ & _ & _ & _ & Hlen).
  vm_compute in Hc. apply (inj Some) in Hc.
  split; [by rewrite <- Hc|]. split; [by rewrite <- Hc|exact Hlen].
Defined.

(** X13. When the local date of the clock is its UTC date (a runtime at
    UTC, or an hour at which the two dates agree), the cell of the local
    day of the month is styled done or today, and no other cell is styled
    today. *)
Theorem today_cell_is_the_local_day
    (tza now : Z) (entries : list GoalEntry) (cal : Dashboard.Calendar) :
  0 ≤ now + tza →
  Date.Day (now + tza) = Date.Day now →
  Dashboard.renderCheckinCalendar tza now entries = Some cal →
  let day := Date.getDate tza now in
  (∃ tag, Dashboard.DayCell day tag ∈ Dashboard.cal_cells cal
        ∧ tag ≠ Dashboard.plain)
  ∧ ∀ d, Dashboard.DayCell d Dashboard.today ∈ Dashboard.cal_cells cal →
      d = day.
Proof.
  intros Hnow Hday Hc day.
  destruct (calendar_grid_is_the_local_month _ _ _ _ Hnow Hc)
    as (_ & _ & _ & Hd & Hkey & Hcells & _).
  fold day in Hd, Hkey.
  destruct (calendar_fields _ _ _ _ Hc) as (Hy & Hm & _).
  split.
  - eexists. split.
    + rewrite Hcells. apply grid_cells_membership. by split.
    + unfold Dashboard.cellTag. rewrite Hkey. unfold Date.toISODate.
      rewrite Hday, Z.eqb_refl. by destruct (bool_decide _).
  - intros d H. rewrite Hcells in H.
    apply grid_cells_membership in H as [_ H].
    unfold Dashboard.cellTag in H.
    destruct (bool_decide _); [done|].
    destruct (Z.eqb_spec
                (Dashboard.dateKey (Dashboard.cal_year cal)
                   (Dashboard.cal_month cal) d)
                (Date.toISODate now)) as [E|]; [|done].
    unfold Date.toISODate in E. rewrite <- Hday in E.
    rewrite Hy, Hm in E. by apply dateKey_local_date in E.
Qed.

Lemma today_cell_is_the_local_day_witness :
  0 ≤ noon_15_june + 0
  ∧ Date.Day (noon_15_june + 0) = Date.Day noon_15_june
  ∧ ∃ cal tag, Dashboard.renderCheckinCalendar 0 noon_15_june checkins_june
                 = Some cal
             ∧ Dashboard.DayCell 15 tag ∈ Dashboard.cal_cells cal
             ∧ tag ≠ Dashboard.plain.
Proof.
  assert (0 ≤ noon_15_june + 0) as Hnow by (vm_compute; discriminate).
  split; [exact Hnow|]. split; [reflexivity|].
  destruct (Dashboard.renderCheckinCalendar 0 noon_15_june checkins_june)
    as [cal|] eqn:Hc; [|vm_compute in Hc; discriminate Hc].
  destruct (today_cell_is_the_local_day _ _ _ _ Hnow eq_refl Hc)
    as [(tag & Hin & Htag) _].
  exists cal, tag. split; [reflexivity|]. split; [exact Hin|exact Htag].
Defined.

(** ** The goal-detail page: loading, adding and deleting entries *)

(** The History list, with no items for the "No entries yet." paragraph. *)
Lemma history_default entries :
  default [] (GoalDetail.history entries)
  = Array.sort Dashboard.compareEntries entries.
Proof.
  unfold GoalDetail.history. by destruct entries.
Qed.

Lemma history_None entries :
  GoalDetail.history entries = None ↔ entries = [].
Proof. unfold GoalDetail.history. by destruct entries. Qed.

(** An entry newer than all others is sorted to the front, the others
    keep their order. *)
Lemma sort_newest_last (l : list GoalEntry) (x : GoalEntry) :
  (∀ e, e ∈ l → strictlyOlder e x) →
  Array.sort Dashboard.compareEntries (l ++ [x])
  = x :: Array.sort Dashboard.compareEntries l.
Proof.
  induction l as [|a l IH]; intros H; [done|].
  change (Array.sort Dashboard.compareEntries ((a :: l) ++ [x]))
    with (Array.insert Dashboard.compareEntries a
            (Array.sort Dashboard.compareEntries (l ++ [x]))).
  rewrite IH by (intros e He; apply H; by right). simpl.
  assert (0 < Dashboard.compareEntries a x) as Hlt.
  { apply compareEntries_gt, H. by left. }
  by destruct (Z.ltb_spec 0 (Dashboard.compareEntries a x)); [|lia].
Qed.

Lemma detail_chart_is_Some entries :
  is_Some (GoalDetail.renderNumericChart entries)
  ↔ ∃ e, e ∈ entries ∧ value e ≠ None.
Proof.
  rewrite <- (renderNumericChart_is_Some_iff entries None None).
  destruct (Dashboard.numericEntries entries) as [|e l] eqn:E.
  - rewrite detail_renderNumericChart_None, renderNumericChart_None by done.
    done.
  - rewrite detail_renderNumericChart_Some by (by rewrite E).
    split; intros _; [|done].
    apply renderNumericChart_is_Some. by rewrite E.
Qed.

Lemma chartValues_app l1 l2 :
  Dashboard.chartValues (l1 ++ l2)
  = Dashboard.chartValues l1 ++ Dashboard.chartValues l2.
Proof.
  unfold Dashboard.chartValues, Dashboard.numericEntries.
  by rewrite filter_app, map_app.
Qed.

Lemma noNaN_filter (P : GoalEntry → Prop) `{!∀ e, Decision (P e)} l :
  noNaN (Dashboard.chartValues l) →
  noNaN (Dashboard.chartValues (filter P l)).
Proof.
  unfold noNaN, Dashboard.chartValues, Dashboard.numericEntries.
  rewrite !Forall_fmap, !Forall_forall. intros Hl e He.
  apply Hl. apply list_elem_of_filter in He as [Hv He].
  apply list_elem_of_filter in He as [_ He].
  by apply list_elem_of_filter.
Qed.

(** X14. A confirmed delete that the database accepts removes exactly the
    entries with that id from the page: the History list is the list shown
    before without them, the others in the order they had; the "No entries
    yet." paragraph comes back exactly when every entry had that id; the
    delete button is enabled again and no error is shown. *)
Theorem delete_removes_the_entry_from_history
    (confirm : option bool) (supabase : DetailPage.Client)
    (entryId : string) (s : DetailPage.State) :
  confirm ≠ Some false →
  DetailPage.deleteEntry supabase entryId = DetailPage.Fulfilled None →
  let s' := DetailPage.handleDeleteEntry confirm supabase entryId s in
  (∀ e, e ∈ DetailPage.entries s'
        ↔ e ∈ DetailPage.entries s ∧ id e ≠ entryId)
  ∧ default [] (GoalDetail.history (DetailPage.entries s'))
    = filter (λ e, id e ≠ entryId)
        (default [] (GoalDetail.history (DetailPage.entries s)))
  ∧ (GoalDetail.history (DetailPage.entries s') = None
     ↔ ∀ e, e ∈ DetailPage.entries s → id e = entryId)
  ∧ DetailPage.deletingEntryId s' = None
  ∧ DetailPage.entryError s' = None.
Proof.
  intros Hconfirm Hdel s'.
  assert (DetailPage.entries s'
          = filter (λ e, id e ≠ entryId) (DetailPage.entries s)) as Hs'.
  { subst s'. unfold DetailPage.handleDeleteEntry. rewrite Hdel.
    by destruct confirm as [[]|]. }
  split; [|split; [|split; [|split]]].
  - intros e. rewrite Hs', list_elem_of_filter. tauto.
  - rewrite !history_default, Hs'. symmetry.
    apply filter_sort, compareEntries_consistent.
  - rewrite history_None, Hs'. split.
    + intros Hnil e He. destruct (decide (id e = entryId)) as [|Hne]; [done|].
      assert (e ∈ filter (λ e, id e ≠ entryId) (DetailPage.entries s)) as Hin
        by by apply list_elem_of_filter.
      rewrite Hnil in Hin. by apply elem_of_nil in Hin.
    + intros Hall.
      destruct (filter _ (DetailPage.entries s)) as [|e l] eqn:E; [done|].
      assert (e ∈ filter (λ e, id e ≠ entryId) (DetailPage.entries s)) as Hin
        by (rewrite E; by left).
      apply list_elem_of_filter in Hin as [Hne Hin]. by apply Hall in Hin.
  - subst s'. unfold DetailPage.handleDeleteEntry. rewrite Hdel.
    by destruct confirm as [[]|].
  - subst s'. unfold DetailPage.handleDeleteEntry. rewrite Hdel.
    by destruct confirm as [[]|].
Qed.

Lemma delete_removes_the_entry_from_history_witness :
  let s := loadedState entries_80_75_70 "72" in
  let s' :=
    DetailPage.handleDeleteEntry (Some true)
      (workingClient entries_80_75_70 9000) "e2" s in
  default [] (GoalDetail.history (DetailPage.entries s'))
  = filter (λ e, id e ≠ "e2")
      (default [] (GoalDetail.history (DetailPage.entries s))).
Proof.
  intros s s'.
  destruct (delete_removes_the_entry_from_history (Some true)
              (workingClient entries_80_75_70 9000) "e2" s)
    as (_ & H & _); [discriminate|reflexivity|exact H].
Defined.

(** X15. A delete that is declined in the dialog, refused by the database
    or thrown never changes the entries of the page.  Declined, nothing
    changes at all; otherwise an error message is shown and the delete
    button is enabled again. *)
Theorem unsuccessful_delete_keeps_entries
    (confirm : option bool) (supabase : DetailPage.Client)
    (entryId : string) (s : DetailPage.State) :
  confirm = Some false
  ∨ DetailPage.deleteEntry supabase entryId ≠ DetailPage.Fulfilled None →
  let s' := DetailPage.handleDeleteEntry confirm supabase entryId s in
  DetailPage.entries s' = DetailPage.entries s
  ∧ (confirm = Some false → s' = s)
  ∧ (confirm ≠ Some false →
     truthyString (DetailPage.entryError s') = true
     ∧ DetailPage.deletingEntryId s' = None).
Proof.
  intros H s'. subst s'. unfold DetailPage.handleDeleteEntry.
  destruct H as [->|H]; [done|].
  destruct (DetailPage.deleteEntry supabase entryId) as [[err|]|]; [|done|];
    by destruct confirm as [[]|].
Qed.

Lemma unsuccessful_delete_keeps_entries_witness :
  let s := loadedState entries_80_75_70 "72" in
  let s' := DetailPage.handleDeleteEntry None refusingClient "e2" s in
  DetailPage.entries s' = entries_80_75_70
  ∧ truthyString (DetailPage.entryError s') = true.
Proof.
  intros s s'.
  destruct (unsuccessful_delete_keeps_entries None refusingClient "e2" s)
    as (H1 & _ & H2); [right; discriminate|].
  split; [exact H1|]. apply H2. discriminate.
Defined.

(** X16. When the database stores no row (it answers with an error or
    the request throws), neither add handler changes the entries, and what
    the user typed (reflections, value, date) is kept; an error message is
    shown whenever a goal is loaded, and a form that was not saving is not
    left saving. *)
Theorem failed_add_keeps_entries_and_input
    (trim : string → string) (Number : string → JS.number) (now : Z)
    (supabase : DetailPage.Client) (s s' : DetailPage.State) :
  (∀ payload data,
     DetailPage.insertEntry supabase payload
     ≠ DetailPage.Fulfilled (DetailPage.Inserted data)) →
  s' = DetailPage.handleAddCheckin trim now supabase s
  ∨ s' = DetailPage.handleAddNumeric trim Number now supabase s →
  DetailPage.entries s' = DetailPage.entries s
  ∧ DetailPage.checkinReflection s' = DetailPage.checkinReflection s
  ∧ DetailPage.numericDate s' = DetailPage.numericDate s
  ∧ DetailPage.numericValue s' = DetailPage.numericValue s
  ∧ DetailPage.numericReflection s' = DetailPage.numericReflection s
  ∧ (DetailPage.goal s ≠ None →
     truthyString (DetailPage.entryError s') = true)
  ∧ (DetailPage.savingEntry s = false → DetailPage.savingEntry s' = false).
Proof.
  intros Hfail [->| ->].
  - unfold DetailPage.handleAddCheckin.
    destruct (DetailPage.goal s) as [g|]; [|done].
    destruct (DetailPage.insertEntry supabase _) as [[data|err]|] eqn:E;
      [by apply Hfail in E|done|done].
  - unfold DetailPage.handleAddNumeric.
    destruct (DetailPage.goal s) as [g|]; [|done].
    destruct (String.eqb _ _); [done|].
    destruct (JS.isNaN _); [done|].
    destruct (DetailPage.insertEntry supabase _) as [[data|err]|] eqn:E;
      [by apply Hfail in E|done|done].
Qed.

Lemma failed_add_keeps_entries_and_input_witness :
  let s := loadedState entries_80_75_70 "72" in
  let s' := DetailPage.handleAddCheckin (λ text, text) noon_15_june
              offlineClient s in
  DetailPage.entries s' = entries_80_75_70
  ∧ DetailPage.checkinReflection s' = "felt good".
Proof.
  intros s s'.
  destruct (failed_add_keeps_entries_and_input (λ text, text) numberOf72
              noon_15_june offlineClient s s')
    as (H1 & H2 & _).
  - intros payload data. discriminate.
  - left. reflexivity.
  - split; [exact H1|exact H2].
Defined.

(** X17. No handler brings a NaN into the chart values: with a database
    that hands back the row it was sent, the values of the entries after a
    check-in, a numeric entry or a delete are free of NaN if they were
    before. *)
Theorem handlers_add_no_NaN_value
    (trim : string → string) (Number : string → JS.number) (now : Z)
    (confirm : option bool) (supabase : DetailPage.Client)
    (entryId : string) (s s' : DetailPage.State) :
  insertReturnsRow supabase →
  s' = DetailPage.handleAddCheckin trim now supabase s
  ∨ s' = DetailPage.handleAddNumeric trim Number now supabase s
  ∨ s' = DetailPage.handleDeleteEntry confirm supabase entryId s →
  noNaN (Dashboard.chartValues (DetailPage.entries s)) →
  noNaN (Dashboard.chartValues (DetailPage.entries s')).
Proof.
  intros Hrow Hs' Hs. destruct Hs' as [->|[->| ->]].
  - unfold DetailPage.handleAddCheckin.
    destruct (DetailPage.goal s) as [g|]; [|done].
    destruct (DetailPage.insertEntry supabase _) as [[data|err]|] eqn:E;
      [|done|done].
    apply Hrow in E as (_ & _ & _ & Hv & _). simpl in *.
    rewrite chartValues_app. apply Forall_app. split; [done|].
    unfold Dashboard.chartValues, Dashboard.numericEntries.
    rewrite filter_cons. rewrite decide_False by (by rewrite Hv; intros []).
    constructor.
  - unfold DetailPage.handleAddNumeric.
    destruct (DetailPage.goal s) as [g|]; [|done].
    destruct (String.eqb _ _); [done|].
    destruct (JS.isNaN _) eqn:Hnan; [done|].
    destruct (DetailPage.insertEntry supabase _) as [[data|err]|] eqn:E;
      [|done|done].
    apply Hrow in E as (_ & _ & _ & Hv & _). simpl in *.
    rewrite chartValues_app. apply Forall_app. split; [done|].
    unfold Dashboard.chartValues, Dashboard.numericEntries.
    rewrite filter_cons. rewrite decide_True by (by rewrite Hv).
    simpl. rewrite Hv. simpl. by repeat constructor.
  - unfold DetailPage.handleDeleteEntry.
    destruct confirm as [[]|]; [|done|];
      (destruct (DetailPage.deleteEntry supabase entryId) as [[err|]|];
       [done| |done]); simpl; by apply noNaN_filter.
Qed.

Lemma handlers_add_no_NaN_value_witness :
  let s := loadedState entries_80_75_70 "72" in
  let s' := DetailPage.handleAddNumeric (λ text, text) numberOf72
              noon_15_june (workingClient entries_80_75_70 9000) s in
  length (DetailPage.entries s') = 4%nat
  ∧ noNaN (Dashboard.chartValues (DetailPage.entries s')).
Proof.
  intros s s'. split; [reflexivity|].
  apply (handlers_add_no_NaN_value (λ text, text) numberOf72 noon_15_june
           None (workingClient entries_80_75_70 9000) "e2" s s').
  - intros payload data [= <-]. simpl. repeat split.
  - right. left. reflexivity.
  - repeat constructor.
Defined.

(** X18. A numeric entry that passes the checks (value not blank, not
    NaN) is sent with the chosen date, or today's when the date input is
    empty; when the database stores it, the row it returns is appended to
    the entries, the value and reflection inputs are cleared, no error is
    shown and the form is idle again.  If the row has a value the chart
    is drawn, and if the row is newer than every entry it becomes the
    first item of the History list, above the items shown before. *)
Theorem added_numeric_entry_is_shown
    (trim : string → string) (Number : string → JS.number) (now : Z)
    (supabase : DetailPage.Client) (s : DetailPage.State) (g : Goal)
    (data : GoalEntry) :
  DetailPage.goal s = Some g →
  trim (DetailPage.numericValue s) ≠ "" →
  JS.isNaN (Number (DetailPage.numericValue s)) = false →
  DetailPage.insertEntry supabase
    (DetailPage.mkNewEntry (g_id g)
       (default (Date.toISODate now) (DetailPage.numericDate s)) None
       (Some (Number (DetailPage.numericValue s)))
       (DetailPage.orNull (trim (DetailPage.numericReflection s))))
  = DetailPage.Fulfilled (DetailPage.Inserted data) →
  let s' := DetailPage.handleAddNumeric trim Number now supabase s in
  DetailPage.entries s' = DetailPage.entries s ++ [data]
  ∧ DetailPage.numericValue s' = ""
  ∧ DetailPage.numericReflection s' = ""
  ∧ DetailPage.entryError s' = None
  ∧ DetailPage.savingEntry s' = false
  ∧ (value data ≠ None →
     is_Some (GoalDetail.renderNumericChart (DetailPage.entries s')))
  ∧ ((∀ e, e ∈ DetailPage.entries s → strictlyOlder e data) →
     GoalDetail.history (DetailPage.entries s')
     = Some (data :: default [] (GoalDetail.history (DetailPage.entries s)))).
Proof.
  intros Hg Htrim Hnan Hins s'.
  assert (s' = DetailPage.setSavingEntry false
                 (DetailPage.setNumericReflection ""
                    (DetailPage.setNumericValue ""
                       (DetailPage.setEntries (DetailPage.entries s ++ [data])
                          (DetailPage.setEntryError None
                             (DetailPage.setSavingEntry true s)))))) as ->.
  { subst s'. unfold DetailPage.handleAddNumeric. rewrite Hg.
    destruct (String.eqb_spec (trim (DetailPage.numericValue s)) "");
      [done|].
    rewrite Hnan. unfold DetailPage.todayISO. by rewrite Hins. }
  simpl. repeat split.
  - intros Hv. apply detail_chart_is_Some. exists data.
    split; [|done]. apply elem_of_app. right. by left.
  - intros Hnew. rewrite history_default.
    unfold GoalDetail.history. rewrite length_app, Nat.add_comm. simpl.
    change GoalDetail.compareEntries with Dashboard.compareEntries.
    by rewrite sort_newest_last.
Qed.

Lemma added_numeric_entry_is_shown_witness :
  let s := loadedState entries_80_75_70 "72" in
  let data :=
    mkEntry "e-new" "goal-1" (Date.isoDay 2024 6 15) None (Some (JS.ofZ 72))
      (Some "felt good") 9000 in
  let s' := DetailPage.handleAddNumeric (λ text, text) numberOf72
              noon_15_june (workingClient entries_80_75_70 9000) s in
  DetailPage.entries s' = entries_80_75_70 ++ [data]
  ∧ GoalDetail.history (DetailPage.entries s')
    = Some (data :: default [] (GoalDetail.history entries_80_75_70)).
Proof.
  intros s data s'.
  destruct (added_numeric_entry_is_shown (λ text, text) numberOf72
              noon_15_june (workingClient entries_80_75_70 9000) s goal_1
              data)
    as (H1 & _ & _ & _ & _ & _ & H2);
    [reflexivity|discriminate|reflexivity|reflexivity|].
  split; [exact H1|]. apply H2. intros e He.
  apply list_elem_of_In in He. simpl in He.
  destruct He as [<-|[<-|[<-|[]]]]; left; reflexivity.
Defined.

(** X19. With a database that hands back the row it was sent, a check-in
    either leaves the entries as they are or appends one entry: of the
    loaded goal, dated today (the UTC day), done, without a value, shown
    as "Done" in the History of a check-in goal; the reflection input is
    then cleared. *)
Theorem checkin_adds_only_a_done_entry_of_today
    (trim : string → string) (now : Z) (supabase : DetailPage.Client)
    (s : DetailPage.State) (g : Goal) :
  insertReturnsRow supabase →
  DetailPage.goal s = Some g →
  let s' := DetailPage.handleAddCheckin trim now supabase s in
  DetailPage.entries s' = DetailPage.entries s
  ∨ ∃ data,
      DetailPage.entries s' = DetailPage.entries s ++ [data]
      ∧ goal_id data = g_id g
      ∧ entry_date data = Date.Day now
      ∧ is_done data = Some true
      ∧ value data = None
      ∧ DetailPage.checkinReflection s' = ""
      ∧ ∀ deleting,
          DetailPage.item_status
            (DetailPage.renderItem DetailPage.ui_checkin deleting data)
          = Some "Done".
Proof.
  intros Hrow Hg s'. subst s'. unfold DetailPage.handleAddCheckin.
  rewrite Hg.
  destruct (DetailPage.insertEntry supabase _) as [[data|err]|] eqn:E;
    [|by left|by left].
  right. exists data. apply Hrow in E as (Hid & Hd & Hdone & Hv & _).
  simpl in *. repeat split; try done.
  intros deleting. unfold DetailPage.renderItem. simpl. by rewrite Hdone.
Qed.

Lemma checkin_adds_only_a_done_entry_of_today_witness :
  let s := loadedState checkins_june "" in
  let s' := DetailPage.handleAddCheckin (λ text, text) noon_15_june
              (workingClient checkins_june 9000) s in
  DetailPage.entries s' = DetailPage.entries s
  ∨ ∃ data,
      DetailPage.entries s' = DetailPage.entries s ++ [data]
      ∧ goal_id data = "goal-1"
      ∧ entry_date data = Date.Day noon_15_june
      ∧ is_done data = Some true.
Proof.
  intros s s'.
  destruct (checkin_adds_only_a_done_entry_of_today (λ text, text)
              noon_15_june (workingClient checkins_june 9000) s goal_1)
    as [H|(data & H1 & H2 & H3 & H4 & _)].
  - intros payload data [= <-]. simpl. repeat split.
  - reflexivity.
  - left. exact H.
  - right. exists data. repeat split; assumption.
Defined.

(** X20. For a valid goal id, once the load has run the page is never
    left on "Loading goal...".  It shows the goal exactly when the goal
    read returned a row without an error and the entries read did not
    throw; the History then lists the rows of the entries read, or nothing
    when that read returned an error.  In every other case it shows
    "Failed to load this goal.", never "Goal not found.". *)
Theorem load_outcome
    (now : Z) (supabase : DetailPage.Client) (goalId : string)
    (s : DetailPage.State) :
  truthyString (Some goalId) = true →
  let view :=
    DetailPage.GoalDetailPage (Some goalId)
      (DetailPage.fetchGoalAndEntries now supabase goalId s) in
  view ≠ DetailPage.LoadingGoal
  ∧ (∀ v, view = DetailPage.GoalLoaded v →
       ∃ er,
         DetailPage.selectGoal supabase goalId
         = DetailPage.Fulfilled
             (DetailPage.mkSingle (Some (DetailPage.view_goal v)) None)
         ∧ DetailPage.selectGoalEntries supabase goalId
           = DetailPage.Fulfilled er
         ∧ DetailPage.view_history v
           = option_map
               (map (DetailPage.renderItem
                       (DetailPage.uiTrackerType
                          (Some (DetailPage.view_goal v)))
                       (DetailPage.deletingEntryId s)))
               (GoalDetail.history
                  (match error er with
                   | Some _ => []
                   | None => default [] (data er)
                   end)))
  ∧ ((∀ v, view ≠ DetailPage.GoalLoaded v) →
     view = DetailPage.LoadFailed "Failed to load this goal.")
  ∧ (∀ g er,
       DetailPage.selectGoal supabase goalId
       = DetailPage.Fulfilled (DetailPage.mkSingle (Some g) None) →
       DetailPage.selectGoalEntries supabase goalId
       = DetailPage.Fulfilled er →
       ∃ v, view = DetailPage.GoalLoaded v
            ∧ DetailPage.view_goal v = g
            ∧ (error er ≠ None →
               DetailPage.view_history v = None
               ∧ DetailPage.view_chart v = None
               ∧ DetailPage.view_count v = 0%nat)).
Proof.
  intros Hid view. subst view.
  unfold DetailPage.GoalDetailPage, DetailPage.fetchGoalAndEntries.
  rewrite Hid. cbn [negb].
  destruct (DetailPage.selectGoal supabase goalId) as [[[g|] [gerr|]]|].
  1, 3, 4, 5:
    by (cbn; destruct (DetailPage.goal s);
        (split; [done|]; split; [done|]; split; [done|];
         intros g' er' [=])).
  destruct (DetailPage.selectGoalEntries supabase goalId) as [er|].
  2: { cbn. split; [done|]. split; [done|]. split; [done|].
       intros g' er' _ [=]. }
  destruct (error er) as [err|] eqn:Herr;
    cbn -[GoalDetail.history GoalDetail.renderNumericChart].
  - split; [done|]. split.
    { intros v [= <-]. exists er. by rewrite Herr. }
    split.
    { intros H. by edestruct H. }
    intros g' er' [= <-] [= <-]. eexists. split; [done|]. split; [done|].
    intros _. cbn. by destruct (tracker_type g) as [[]|].
  - split; [done|]. split.
    { intros v [= <-]. exists er. by rewrite Herr. }
    split.
    { intros H. by edestruct H. }
    intros g' er' [= <-] [= <-]. eexists. split; [done|]. split; [done|].
    by rewrite Herr.
Qed.

Lemma load_outcome_witness :
  ∃ v,
    DetailPage.GoalDetailPage (Some "goal-1")
      (DetailPage.fetchGoalAndEntries noon_15_june
         (workingClient entries_80_75_70 9000) "goal-1"
         (DetailPage.initialState noon_15_june))
    = DetailPage.GoalLoaded v
    ∧ DetailPage.view_goal v = goal_1.
Proof.
  destruct (load_outcome noon_15_june (workingClient entries_80_75_70 9000)
              "goal-1" (DetailPage.initialState noon_15_june))
    as (_ & _ & _ & H); [reflexivity|].
  destruct (H goal_1 _ eq_refl eq_refl) as (v & Hv & Hg & _).
  exists v. split; [exact Hv|exact Hg].
Defined.

(** X21. On the loaded page the History lists every entry of the state
    exactly once, and the count beside it is the number of items ("entry"
    for exactly one); "No entries yet." stands for no entries only.  An
    item's delete button is disabled exactly while that entry is being
    deleted, the "Done" / "Not done" line is shown on check-in goals only
    and the value line on numeric goals for entries with a value; the
    chart is drawn exactly for a numeric goal with a valued entry. *)
Theorem loaded_page_lists_every_entry
    (goalId : option string) (s : DetailPage.State) (v : DetailPage.GoalView) :
  DetailPage.GoalDetailPage goalId s = DetailPage.GoalLoaded v →
  let items := default [] (DetailPage.view_history v) in
  map DetailPage.item_entry items ≡ₚ DetailPage.entries s
  ∧ DetailPage.view_count v = length items
  ∧ (DetailPage.view_history v = None ↔ DetailPage.entries s = [])
  ∧ (DetailPage.view_countNoun v = "entry" ↔ length items = 1%nat)
  ∧ (∀ item, item ∈ items →
       (DetailPage.item_deleteDisabled item = true
        ↔ DetailPage.deletingEntryId s
          = Some (id (DetailPage.item_entry item)))
       ∧ (is_Some (DetailPage.item_status item)
          ↔ tracker_type (DetailPage.view_goal v) = Some checkin)
       ∧ (is_Some (DetailPage.item_value item)
          ↔ tracker_type (DetailPage.view_goal v) = Some numeric
            ∧ value (DetailPage.item_entry item) ≠ None))
  ∧ (is_Some (DetailPage.view_chart v)
     ↔ tracker_type (DetailPage.view_goal v) = Some numeric
       ∧ ∃ e, e ∈ DetailPage.entries s ∧ value e ≠ None).
Proof.
  unfold DetailPage.GoalDetailPage.
  destruct (negb (truthyString goalId)); [done|].
  destruct (DetailPage.loading s); [done|].
  destruct (DetailPage.goal s) as [g|]; [|done].
  destruct (truthyString (DetailPage.loadError s)); [done|].
  intros [= <-].
  cbn [DetailPage.view_history DetailPage.view_count DetailPage.view_goal
       DetailPage.view_countNoun DetailPage.view_chart].
  change (match tracker_type g with
          | Some checkin => DetailPage.ui_checkin
          | Some numeric => DetailPage.ui_numeric
          | None => DetailPage.ui_unset
          end) with (DetailPage.uiTrackerType (Some g)).
  set (ui := DetailPage.uiTrackerType (Some g)).
  set (render := DetailPage.renderItem ui (DetailPage.deletingEntryId s)).
  assert (default [] (option_map (map render)
                        (GoalDetail.history (DetailPage.entries s)))
          = map render
              (Array.sort Dashboard.compareEntries (DetailPage.entries s)))
    as Hitems.
  { rewrite <- history_default.
    by destruct (GoalDetail.history (DetailPage.entries s)). }
  rewrite Hitems.
  assert (ui = DetailPage.ui_checkin ↔ tracker_type g = Some checkin) as Hc.
  { subst ui. unfold DetailPage.uiTrackerType.
    by destruct (tracker_type g) as [[]|]. }
  assert (ui = DetailPage.ui_numeric ↔ tracker_type g = Some numeric) as Hn.
  { subst ui. unfold DetailPage.uiTrackerType.
    by destruct (tracker_type g) as [[]|]. }
  split; [|split; [|split; [|split; [|split]]]].
  - rewrite map_map. simpl. rewrite map_id. apply sort_perm.
  - rewrite length_map. by rewrite (Permutation_length (sort_perm _ _)).
  - rewrite <- history_None.
    by destruct (GoalDetail.history (DetailPage.entries s)).
  - rewrite length_map, (Permutation_length (sort_perm _ _)).
    destruct (Nat.eqb_spec (length (DetailPage.entries s)) 1);
      split; done.
  - intros item Hitem. apply list_elem_of_fmap in Hitem as (e & -> & He).
    subst render. unfold DetailPage.renderItem. simpl. split; [|split].
    + by rewrite bool_decide_eq_true.
    + rewrite <- Hc. destruct ui; split; try done; by intros [].
    + rewrite <- Hn. rewrite <- not_eq_None_Some.
      destruct ui; split; try done; try (by intros []); by intros [_ ?].
  - rewrite <- Hn. destruct ui.
    + split; [by intros []|by intros []].
    + split; [by intros []|by intros []].
    + rewrite detail_chart_is_Some. tauto.
Qed.

Lemma loaded_page_lists_every_entry_witness :
  ∃ v,
    DetailPage.GoalDetailPage (Some "goal-1")
      (loadedState entries_80_75_70 "72")
    = DetailPage.GoalLoaded v
    ∧ map DetailPage.item_entry (default [] (DetailPage.view_history v))
      ≡ₚ entries_80_75_70
    ∧ DetailPage.view_count v = 3%nat.
Proof.
  destruct (DetailPage.GoalDetailPage (Some "goal-1")
              (loadedState entries_80_75_70 "72")) as [| |msg|v] eqn:Hv;
    [discriminate Hv|discriminate Hv|discriminate Hv|].
  exists v. split; [reflexivity|].
  destruct (loaded_page_lists_every_entry _ _ _ Hv) as (H1 & H2 & _).
  split; [exact H1|]. rewrite H2, <- (length_map DetailPage.item_entry).
  by rewrite (Permutation_length H1).
Defined.
